(** * Task management system: entity model, summary aggregation and sync layer

    A shallow embedding of [backend/models.py], [backend/sync.py] and
    [backend/sync_improved.py], and the properties of the specification
    checked against it.

    Conventions of the embedding:
    - Python [int] is [Z]; [str] is [string], holding the UTF-8 encoding
      of the text; [List] is [list]; a [Dict] used as a map is a [gmap];
      [Optional[T]] is [option T].
    - Python [float] is IEEE 754 binary64, through the executable
      specification [SpecFloat] of the standard library.
    - [datetime.now().isoformat()] and [uuid.uuid4()] are inputs: a function
      takes the values these calls return while it runs.
    - A raised exception is a value [Raises msg] or [ValidationError loc];
      a [try/except] is a match on it.
    - The local directory and the remote table are explicit stores, and a
      failure of the disk or of the network is an input of the call.

    Left out: what is printed, the coercions of pydantic between types
    (the keyword arguments are typed here), the delivery of realtime
    events (only the list of active subscriptions is kept) and the
    command-line entry points. *)

From Stdlib Require Import ZArith String Ascii List Bool Lia DecimalString.
From Stdlib Require Import DecimalZ.
From Stdlib Require Import Floats.SpecFloat.
From stdpp Require Import gmap strings list.

Local Open Scope string_scope.
Local Open Scope Z_scope.

(** ** Python floats *)

Module Float64.

Definition prec : Z := 53.
Definition emax : Z := 1024.

Definition float : Type := spec_float.

(** [float(n)] for an integer below [2^53] in magnitude (exact). *)
Definition of_Z (n : Z) : float := binary_normalize prec emax n 0 false.

(** [x / y] and [x * y], correctly rounded to nearest, ties to even. *)
Definition div (x y : float) : float := SFdiv prec emax x y.
Definition mul (x y : float) : float := SFmul prec emax x y.

(** [a / b] on two Python integers (true division). *)
Definition int_truediv (a b : Z) : float := div (of_Z a) (of_Z b).

(** [int(x)]: truncation toward zero; [None] where Python raises
    (infinities and NaN). *)
Definition to_int (x : float) : option Z :=
  match x with
  | S754_zero _ => Some 0
  | S754_finite s m e =>
      let a := match e with
               | Z0 => Zpos m
               | Zpos p => Zpos m * 2 ^ Zpos p
               | Zneg p => Zpos m / 2 ^ Zpos p
               end in
      Some (if s then - a else a)
  | S754_infinity _ | S754_nan => None
  end.

(** Half-to-even rounding of the rational [n / d] ([0 <= n], [0 < d]) to
    an integer. *)
Definition round_half_even (n d : Z) : Z :=
  let q := n / d in
  let r := n mod d in
  match 2 * r ?= d with
  | Lt => q
  | Gt => q + 1
  | Eq => if Z.even q then q else q + 1
  end.

(** The number of tenths nearest to the magnitude of a finite float
    [m * 2^e], ties to even on the exact binary value. *)
Definition tenths_of (m : positive) (e : Z) : Z :=
  match e with
  | Z0 => 10 * Zpos m
  | Zpos p => 10 * Zpos m * 2 ^ Zpos p
  | Zneg p => round_half_even (10 * Zpos m) (2 ^ Zpos p)
  end.

(** The float nearest to the decimal [t / 10] ([0 < t]). *)
Definition of_tenths (s : bool) (t : Z) : float :=
  match t with
  | Zpos _ =>
      let '(mz, ez, lz) := SFdiv_core_binary prec emax t 0 10 0 in
      binary_round_aux prec emax s mz ez lz
  | _ => S754_zero s
  end.

(** [round(x, 1)]: CPython rounds the exact value of [x] to one decimal
    place (ties to even) and returns the float nearest to that decimal. *)
Definition round1 (x : float) : float :=
  match x with
  | S754_finite s m e => of_tenths s (tenths_of m e)
  | _ => x
  end.

Definition zero : float := S754_zero false.

Abbreviation fexp64 := (fexp 53 1024).

(** Nonnegative, finite, with a mantissa of at most 54 bits and an
    exponent between [lo] and [hi]. *)
Definition bounded_by (lo hi : Z) (x : float) : Prop :=
  match x with
  | S754_zero false => True
  | S754_finite false m e => Z.pos m <= 2 ^ 53 /\ lo <= e <= hi
  | _ => False
  end.

End Float64.

(** ** Entity model ([backend/models.py]) *)

Inductive Priority := P1 | P2 | P3.

Inductive TaskStatus := NOT_STARTED | IN_PROGRESS | COMPLETED | BLOCKED | CANCELLED.

Inductive TimeBlock := MORNING | AFTERNOON | EVENING.

Inductive Category :=
  DEVELOPMENT | DESIGN | ADMIN | LEARNING | PERSONAL | MEETING | PLANNING.

#[global] Instance Priority_eq_dec : EqDecision Priority.
Proof. solve_decision. Defined.
#[global] Instance TaskStatus_eq_dec : EqDecision TaskStatus.
Proof. solve_decision. Defined.
#[global] Instance TimeBlock_eq_dec : EqDecision TimeBlock.
Proof. solve_decision. Defined.
#[global] Instance Category_eq_dec : EqDecision Category.
Proof. solve_decision. Defined.

(** The [.value] of each enumeration member. *)
Definition Priority_value (p : Priority) : string :=
  match p with P1 => "P1" | P2 => "P2" | P3 => "P3" end.

Definition TaskStatus_value (s : TaskStatus) : string :=
  match s with
  | NOT_STARTED => "not_started"
  | IN_PROGRESS => "in_progress"
  | COMPLETED => "completed"
  | BLOCKED => "blocked"
  | CANCELLED => "cancelled"
  end.

Definition TimeBlock_value (b : TimeBlock) : string :=
  match b with
  | MORNING => "morning" | AFTERNOON => "afternoon" | EVENING => "evening"
  end.

Definition Category_value (c : Category) : string :=
  match c with
  | DEVELOPMENT => "development"
  | DESIGN => "design"
  | ADMIN => "admin"
  | LEARNING => "learning"
  | PERSONAL => "personal"
  | MEETING => "meeting"
  | PLANNING => "planning"
  end.

Definition all_priorities : list Priority := [P1; P2; P3].
Definition all_statuses : list TaskStatus :=
  [NOT_STARTED; IN_PROGRESS; COMPLETED; BLOCKED; CANCELLED].
Definition all_time_blocks : list TimeBlock := [MORNING; AFTERNOON; EVENING].
Definition all_categories : list Category :=
  [DEVELOPMENT; DESIGN; ADMIN; LEARNING; PERSONAL; MEETING; PLANNING].

(** [Enum(value)]: the member with that value, if any. *)
Definition enum_of_value {A} (value : A -> string) (members : list A)
    (s : string) : option A :=
  List.find (fun m => String.eqb (value m) s) members.

Definition Priority_of_value := enum_of_value Priority_value all_priorities.
Definition TaskStatus_of_value := enum_of_value TaskStatus_value all_statuses.
Definition TimeBlock_of_value := enum_of_value TimeBlock_value all_time_blocks.
Definition Category_of_value := enum_of_value Category_value all_categories.

(** [len(l)] as a Python integer. *)
Definition len {A} (l : list A) : Z := Z.of_nat (length l).

(** [sum(l)]. *)
Definition sum_Z (l : list Z) : Z := fold_left Z.add l 0.

(** [len(s)] of a [str]: the number of its characters (code points). A
    string is held in UTF-8, where every byte but the continuation bytes
    [10xxxxxx] starts a character. *)
Definition is_continuation (c : ascii) : bool :=
  ((128 <=? nat_of_ascii c)%nat && (nat_of_ascii c <? 192)%nat)%bool.

Fixpoint str_len (s : string) : nat :=
  match s with
  | EmptyString => 0%nat
  | String c rest =>
      ((if is_continuation c then 0 else 1) + str_len rest)%nat
  end.

(** ** Construction and validation (pydantic)

    Constructing a model from keyword arguments either returns the
    instance or raises a
    [ValidationError] that lists the fields it rejected. A field constraint
    ([min_length], [max_length], [ge], [le], an enumeration) is checked
    first and a [@validator] runs after it, on a supplied value only: a
    field left out takes its default, and no validator runs on a default.
    The models set no [validate_assignment], so a later assignment
    [x.field = v] stores [v] as it is. *)

Inductive result (A : Type) : Type :=
| Ok (a : A)
| ValidationError (loc : list string).

Arguments Ok {A} a.
Arguments ValidationError {A} loc.

Definition is_ok {A} (r : result A) : bool :=
  match r with Ok _ => true | ValidationError _ => false end.

(** The raised error names the field. *)
Definition rejects {A} (field : string) (r : result A) : Prop :=
  exists loc, r = ValidationError loc /\ In field loc.

(** The entry of one field in the error list. *)
Definition field_error {A} (field : string) (r : option A) : list string :=
  match r with Some _ => [] | None => [field] end.

(** [min_length] / [max_length], which count characters. *)
Definition check_length (lo hi : nat) (s : string) : option string :=
  if ((lo <=? str_len s)%nat && (str_len s <=? hi)%nat)%bool
  then Some s else None.

(** [ge] / [le]. *)
Definition check_ge (lo v : Z) : option Z :=
  if lo <=? v then Some v else None.

Definition check_range (lo hi v : Z) : option Z :=
  if (lo <=? v) && (v <=? hi) then Some v else None.

(** Validation of a list, element by element; [None] if one is rejected. *)
Fixpoint validate_list {A B} (f : nat -> A -> result B) (i : nat) (l : list A)
    : option (list B) :=
  match l with
  | [] => Some []
  | a :: rest =>
      match f i a, validate_list f (S i) rest with
      | Ok b, Some bs => Some (b :: bs)
      | _, _ => None
      end
  end.

Module Subtask.

Record t := {
    id : string;
    title : string;
    completed : bool;
    notes : option string
  }.

Definition with_completed (v : bool) (x : t) : t :=
  Build_t (id x) (title x) v (notes x).

(** The keyword arguments of [Subtask(...)]; [None] is a key left out. *)
Record data := {
    d_id : option string;
    d_title : option string;
    d_completed : option bool;
    d_notes : option string
  }.

(** [Subtask] built from [d]; [new_id] is the [uuid4] drawn for a missing id. *)
Definition validate (new_id : string) (d : data) : result t :=
  let r_title := d_title d ≫= check_length 1 200 in
  match r_title with
  | Some title =>
      Ok {| id := default new_id (d_id d);
            title := title;
            completed := default false (d_completed d);
            notes := d_notes d |}
  | None => ValidationError (field_error "title" r_title)
  end.

Definition model_dump (x : t) : data :=
  {| d_id := Some (id x);
     d_title := Some (title x);
     d_completed := Some (completed x);
     d_notes := notes x |}.

(** The constraints of the data model on a subtask. *)
Definition is_valid (x : t) : bool :=
  ((1 <=? str_len (title x))%nat
   && (str_len (title x) <=? 200)%nat)%bool.

End Subtask.

Module Task.

Record t := {
    id : string;
    title : string;
    description : string;
    priority : Priority;
    status : TaskStatus;
    progress : Z;
    category : Category;
    estimated_minutes : Z;
    actual_minutes : Z;
    time_block : option TimeBlock;
    subtasks : list Subtask.t;
    notes : list string;
    success_criteria : option string;
    dependencies : list string;
    tags : list string;
    created_at : string;
    updated_at : string;
    completed_at : option string
  }.

Definition with_id (v : string) (x : t) : t :=
  Build_t v (title x) (description x) (priority x) (status x) (progress x)
    (category x) (estimated_minutes x) (actual_minutes x) (time_block x)
    (subtasks x) (notes x) (success_criteria x) (dependencies x) (tags x)
    (created_at x) (updated_at x) (completed_at x).
Definition with_priority (v : Priority) (x : t) : t :=
  Build_t (id x) (title x) (description x) v (status x) (progress x)
    (category x) (estimated_minutes x) (actual_minutes x) (time_block x)
    (subtasks x) (notes x) (success_criteria x) (dependencies x) (tags x)
    (created_at x) (updated_at x) (completed_at x).
Definition with_status (v : TaskStatus) (x : t) : t :=
  Build_t (id x) (title x) (description x) (priority x) v (progress x)
    (category x) (estimated_minutes x) (actual_minutes x) (time_block x)
    (subtasks x) (notes x) (success_criteria x) (dependencies x) (tags x)
    (created_at x) (updated_at x) (completed_at x).
Definition with_progress (v : Z) (x : t) : t :=
  Build_t (id x) (title x) (description x) (priority x) (status x) v
    (category x) (estimated_minutes x) (actual_minutes x) (time_block x)
    (subtasks x) (notes x) (success_criteria x) (dependencies x) (tags x)
    (created_at x) (updated_at x) (completed_at x).
Definition with_category (v : Category) (x : t) : t :=
  Build_t (id x) (title x) (description x) (priority x) (status x) (progress
    x) v (estimated_minutes x) (actual_minutes x) (time_block x) (subtasks
    x) (notes x) (success_criteria x) (dependencies x) (tags x) (created_at
    x) (updated_at x) (completed_at x).
Definition with_estimated_minutes (v : Z) (x : t) : t :=
  Build_t (id x) (title x) (description x) (priority x) (status x) (progress
    x) (category x) v (actual_minutes x) (time_block x) (subtasks x) (notes
    x) (success_criteria x) (dependencies x) (tags x) (created_at x)
    (updated_at x) (completed_at x).
Definition with_actual_minutes (v : Z) (x : t) : t :=
  Build_t (id x) (title x) (description x) (priority x) (status x) (progress
    x) (category x) (estimated_minutes x) v (time_block x) (subtasks x)
    (notes x) (success_criteria x) (dependencies x) (tags x) (created_at x)
    (updated_at x) (completed_at x).
Definition with_time_block (v : option TimeBlock) (x : t) : t :=
  Build_t (id x) (title x) (description x) (priority x) (status x) (progress
    x) (category x) (estimated_minutes x) (actual_minutes x) v (subtasks x)
    (notes x) (success_criteria x) (dependencies x) (tags x) (created_at x)
    (updated_at x) (completed_at x).
Definition with_subtasks (v : list Subtask.t) (x : t) : t :=
  Build_t (id x) (title x) (description x) (priority x) (status x) (progress
    x) (category x) (estimated_minutes x) (actual_minutes x) (time_block x)
    v (notes x) (success_criteria x) (dependencies x) (tags x) (created_at
    x) (updated_at x) (completed_at x).
Definition with_notes (v : list string) (x : t) : t :=
  Build_t (id x) (title x) (description x) (priority x) (status x) (progress
    x) (category x) (estimated_minutes x) (actual_minutes x) (time_block x)
    (subtasks x) v (success_criteria x) (dependencies x) (tags x)
    (created_at x) (updated_at x) (completed_at x).
Definition with_success_criteria (v : option string) (x : t) : t :=
  Build_t (id x) (title x) (description x) (priority x) (status x) (progress
    x) (category x) (estimated_minutes x) (actual_minutes x) (time_block x)
    (subtasks x) (notes x) v (dependencies x) (tags x) (created_at x)
    (updated_at x) (completed_at x).
Definition with_dependencies (v : list string) (x : t) : t :=
  Build_t (id x) (title x) (description x) (priority x) (status x) (progress
    x) (category x) (estimated_minutes x) (actual_minutes x) (time_block x)
    (subtasks x) (notes x) (success_criteria x) v (tags x) (created_at x)
    (updated_at x) (completed_at x).
Definition with_tags (v : list string) (x : t) : t :=
  Build_t (id x) (title x) (description x) (priority x) (status x) (progress
    x) (category x) (estimated_minutes x) (actual_minutes x) (time_block x)
    (subtasks x) (notes x) (success_criteria x) (dependencies x) v
    (created_at x) (updated_at x) (completed_at x).
Definition with_created_at (v : string) (x : t) : t :=
  Build_t (id x) (title x) (description x) (priority x) (status x) (progress
    x) (category x) (estimated_minutes x) (actual_minutes x) (time_block x)
    (subtasks x) (notes x) (success_criteria x) (dependencies x) (tags x) v
    (updated_at x) (completed_at x).
Definition with_updated_at (v : string) (x : t) : t :=
  Build_t (id x) (title x) (description x) (priority x) (status x) (progress
    x) (category x) (estimated_minutes x) (actual_minutes x) (time_block x)
    (subtasks x) (notes x) (success_criteria x) (dependencies x) (tags x)
    (created_at x) v (completed_at x).
Definition with_completed_at (v : option string) (x : t) : t :=
  Build_t (id x) (title x) (description x) (priority x) (status x) (progress
    x) (category x) (estimated_minutes x) (actual_minutes x) (time_block x)
    (subtasks x) (notes x) (success_criteria x) (dependencies x) (tags x)
    (created_at x) (updated_at x) v.

(** The clock readings of one call: [clk n] is what the [n]-th
    [datetime.now().isoformat()] of the call returns. *)
Definition clock : Type := nat -> string.

Definition later (k : nat) (clk : clock) : clock := fun n => clk (k + n)%nat.

(** [add_note]: [hhmm] is [datetime.now().strftime("%H:%M")]. *)
Definition add_note (hhmm : string) (clk : clock) (note : string) (x : t) : t :=
  with_updated_at (clk 0%nat)
    (with_notes (notes x ++ ["[" ++ hhmm ++ "] " ++ note]) x).

Definition mark_completed (clk : clock) (x : t) : t :=
  with_updated_at (clk 1%nat)
    (with_completed_at (Some (clk 0%nat))
       (with_progress 100 (with_status COMPLETED x))).

(** [add_subtask]: [new_id] is the [uuid4] of the new subtask, which is
    built by its constructor and so may be rejected. *)
Definition add_subtask (new_id : string) (clk : clock) (title : string)
    (x : t) : result (t * string) :=
  match Subtask.validate new_id
          (Subtask.Build_data None (Some title) None None) with
  | ValidationError loc => ValidationError loc
  | Ok subtask =>
      Ok (with_updated_at (clk 0%nat) (with_subtasks (subtasks x ++ [subtask]) x),
          Subtask.id subtask)
  end.

Definition completed_count (l : list Subtask.t) : Z :=
  len (List.filter Subtask.completed l).

(** [int((completed / total) * 100)], in floats as the source has it. *)
Definition percent_of (completed total : Z) : option Z :=
  Float64.to_int
    (Float64.mul (Float64.int_truediv completed total) (Float64.of_Z 100)).

(** [_update_progress_from_subtasks]. [None] stands for the exception
    that [int] raises on a float that is not finite. *)
Definition _update_progress_from_subtasks (clk : clock) (x : t) : option t :=
  match subtasks x with
  | [] => Some x
  | _ =>
      let completed := completed_count (subtasks x) in
      let total := len (subtasks x) in
      match percent_of completed total with
      | None => None
      | Some p =>
          let x1 := with_progress p x in
          if bool_decide (completed = total)
             && negb (bool_decide (status x1 = COMPLETED))
          then Some (mark_completed clk x1)
          else Some x1
      end
  end.

(** The loop of [complete_subtask]: the first subtask with the given id
    is marked; [None] when no subtask has it. *)
Fixpoint mark_subtask (subtask_id : string) (l : list Subtask.t)
    : option (list Subtask.t) :=
  match l with
  | [] => None
  | st :: rest =>
      if String.eqb (Subtask.id st) subtask_id
      then Some (Subtask.with_completed true st :: rest)
      else option_map (cons st) (mark_subtask subtask_id rest)
  end.

(** [complete_subtask]: the task after the call and the returned flag. *)
Definition complete_subtask (clk : clock) (subtask_id : string) (x : t)
    : option (t * bool) :=
  match mark_subtask subtask_id (subtasks x) with
  | Some l =>
      let x1 := with_updated_at (clk 0%nat) (with_subtasks l x) in
      option_map (fun x2 => (x2, true))
        (_update_progress_from_subtasks (later 1 clk) x1)
  | None => Some (x, false)
  end.

(** *** Construction *)

(** The keyword arguments of [Task(...)]; [None] is a key left out. An
    enumeration arrives as its value. [completed_at] has a validator, so
    a supplied [None] ([Some None]) differs from a key left out. *)
Record data := {
    d_id : option string;
    d_title : option string;
    d_description : option string;
    d_priority : option string;
    d_status : option string;
    d_progress : option Z;
    d_category : option string;
    d_estimated_minutes : option Z;
    d_actual_minutes : option Z;
    d_time_block : option string;
    d_subtasks : option (list Subtask.data);
    d_notes : option (list string);
    d_success_criteria : option string;
    d_dependencies : option (list string);
    d_tags : option (list string);
    d_created_at : option string;
    d_updated_at : option string;
    d_completed_at : option (option string)
  }.

(** What the default factories and [datetime.now()] give while one task
    is built. *)
Record generated := {
    gen_id : string;
    gen_subtask_id : nat -> string;
    gen_created_at : string;
    gen_updated_at : string;
    gen_now : string
  }.

(** [validate_progress]; [status] is [values.get('status')]. *)
Definition validate_progress (v : Z) (status : option TaskStatus) : Z :=
  if bool_decide (status = Some COMPLETED) && negb (v =? 100) then 100
  else if bool_decide (status = Some NOT_STARTED) && (0 <? v) then 0
  else v.

(** [not v] on an [Optional[str]]. *)
Definition falsy (v : option string) : bool :=
  match v with None => true | Some s => String.eqb s "" end.

(** [with_completed_at]; [now] is [datetime.now().isoformat()]. *)
Definition set_completed_at (now : string) (v : option string)
    (status : option TaskStatus) : option string :=
  if bool_decide (status = Some COMPLETED) && falsy v then Some now
  else if negb (bool_decide (status = Some COMPLETED)) then None
  else v.

(** The end of the construction: the instance if every field passed, the
    error with the rejected fields otherwise. *)
Definition assemble (g : generated) (d : data)
    (r_title r_description : option string) (r_priority : option Priority)
    (r_status : option TaskStatus) (r_progress : option Z)
    (r_category : option Category)
    (r_estimated_minutes r_actual_minutes : option Z)
    (r_time_block : option (option TimeBlock))
    (r_subtasks : option (list Subtask.t)) (completed_at : option string)
    : result t :=
  match r_title, r_description, r_priority, r_status, r_progress,
        r_category, r_estimated_minutes, r_actual_minutes, r_time_block,
        r_subtasks with
  | Some title, Some description, Some priority, Some status,
    Some progress, Some category, Some estimated_minutes,
    Some actual_minutes, Some time_block, Some subtasks =>
      Ok {| id := default (gen_id g) (d_id d);
            title := title;
            description := description;
            priority := priority;
            status := status;
            progress := progress;
            category := category;
            estimated_minutes := estimated_minutes;
            actual_minutes := actual_minutes;
            time_block := time_block;
            subtasks := subtasks;
            notes := default [] (d_notes d);
            success_criteria := d_success_criteria d;
            dependencies := default [] (d_dependencies d);
            tags := default [] (d_tags d);
            created_at := default (gen_created_at g) (d_created_at d);
            updated_at := default (gen_updated_at g) (d_updated_at d);
            completed_at := completed_at |}
  | _, _, _, _, _, _, _, _, _, _ =>
      ValidationError
        (field_error "title" r_title
         ++ field_error "description" r_description
         ++ field_error "priority" r_priority
         ++ field_error "status" r_status
         ++ field_error "progress" r_progress
         ++ field_error "category" r_category
         ++ field_error "estimated_minutes" r_estimated_minutes
         ++ field_error "actual_minutes" r_actual_minutes
         ++ field_error "time_block" r_time_block
         ++ field_error "subtasks" r_subtasks)
  end.

(** [Task] built from [d]: each field is checked against its constraint,
    then its validator runs, with the fields before it in [values]. *)
Definition validate (g : generated) (d : data) : result t :=
  let r_title := d_title d ≫= check_length 1 200 in
  let r_description :=
    match d_description d with
    | None => Some ""
    | Some s => check_length 0 1000 s
    end in
  let r_priority :=
    match d_priority d with
    | None => Some P2
    | Some s => Priority_of_value s
    end in
  let r_status :=
    match d_status d with
    | None => Some NOT_STARTED
    | Some s => TaskStatus_of_value s
    end in
  let r_progress :=
    match d_progress d with
    | None => Some 0
    | Some v =>
        option_map (fun v => validate_progress v r_status)
          (check_range 0 100 v)
    end in
  let r_category :=
    match d_category d with
    | None => Some ADMIN
    | Some s => Category_of_value s
    end in
  let r_estimated_minutes :=
    match d_estimated_minutes d with
    | None => Some 30
    | Some v => check_range 5 480 v
    end in
  let r_actual_minutes :=
    match d_actual_minutes d with
    | None => Some 0
    | Some v => check_ge 0 v
    end in
  let r_time_block :=
    match d_time_block d with
    | None => Some None
    | Some s => option_map Some (TimeBlock_of_value s)
    end in
  let r_subtasks :=
    match d_subtasks d with
    | None => Some []
    | Some l =>
        validate_list (fun i => Subtask.validate (gen_subtask_id g i)) 0 l
    end in
  let completed_at :=
    match d_completed_at d with
    | None => None
    | Some v => set_completed_at (gen_now g) v r_status
    end in
  assemble g d r_title r_description r_priority r_status r_progress
    r_category r_estimated_minutes r_actual_minutes r_time_block r_subtasks
    completed_at.

(** *** Assignment after construction *)



(** The names of the fields and of the methods the class declares. *)
Definition field_names : list string :=
  ["id"; "title"; "description"; "priority"; "status"; "progress";
   "category"; "estimated_minutes"; "actual_minutes"; "time_block";
   "subtasks"; "notes"; "success_criteria"; "dependencies"; "tags";
   "created_at"; "updated_at"; "completed_at"].

Definition method_names : list string :=
  ["validate_progress"; "set_completed_at"; "add_note"; "mark_completed";
   "add_subtask"; "complete_subtask"; "_update_progress_from_subtasks"].

Definition model_dump (x : t) : data :=
  {| d_id := Some (id x);
     d_title := Some (title x);
     d_description := Some (description x);
     d_priority := Some (Priority_value (priority x));
     d_status := Some (TaskStatus_value (status x));
     d_progress := Some (progress x);
     d_category := Some (Category_value (category x));
     d_estimated_minutes := Some (estimated_minutes x);
     d_actual_minutes := Some (actual_minutes x);
     d_time_block := option_map TimeBlock_value (time_block x);
     d_subtasks := Some (map Subtask.model_dump (subtasks x));
     d_notes := Some (notes x);
     d_success_criteria := success_criteria x;
     d_dependencies := Some (dependencies x);
     d_tags := Some (tags x);
     d_created_at := Some (created_at x);
     d_updated_at := Some (updated_at x);
     d_completed_at := Some (completed_at x) |}.

(** The constraints and invariants of the data model on a task: the
    field ranges, [progress] 100 when completed and 0 when not started,
    and [completed_at] set exactly when completed. *)
Definition is_valid (x : t) : bool :=
  ((1 <=? str_len (title x))%nat
   && (str_len (title x) <=? 200)%nat
   && (str_len (description x) <=? 1000)%nat)%bool
  && (0 <=? progress x) && (progress x <=? 100)
  && (5 <=? estimated_minutes x) && (estimated_minutes x <=? 480)
  && (0 <=? actual_minutes x)
  && forallb Subtask.is_valid (subtasks x)
  && (if bool_decide (status x = COMPLETED) then progress x =? 100 else true)
  && (if bool_decide (status x = NOT_STARTED) then progress x =? 0 else true)
  && (if bool_decide (status x = COMPLETED) then negb (falsy (completed_at x))
      else bool_decide (completed_at x = None)).

(** The field constraints alone: what the constructor checks. *)
Definition in_range (x : t) : bool :=
  ((1 <=? str_len (title x))%nat
   && (str_len (title x) <=? 200)%nat
   && (str_len (description x) <=? 1000)%nat)%bool
  && (0 <=? progress x) && (progress x <=? 100)
  && (5 <=? estimated_minutes x) && (estimated_minutes x <=? 480)
  && (0 <=? actual_minutes x)
  && forallb Subtask.is_valid (subtasks x).

End Task.

Module DaySummary.

Record t := {
    total_tasks : Z;
    completed_tasks : Z;
    in_progress_tasks : Z;
    blocked_tasks : Z;
    total_estimated_minutes : Z;
    total_actual_minutes : Z;
    completion_percentage : Float64.float;
    categories : gmap string Z;
    priorities : gmap string Z
  }.

(** [cls()]: every field at its default. *)
Definition init : t :=
  Build_t 0 0 0 0 0 0 Float64.zero ∅ ∅.

Definition by_status (s : TaskStatus) (tasks : list Task.t) : list Task.t :=
  List.filter (fun x => bool_decide (Task.status x = s)) tasks.

(** [d[k] = d.get(k, 0) + 1]. *)
Definition bump (k : string) (d : gmap string Z) : gmap string Z :=
  <[k := default 0 (d !! k) + 1]> d.

(** The counting loops over the tasks, in list order. *)
Definition breakdown (key : Task.t -> string) (tasks : list Task.t)
    : gmap string Z :=
  fold_left (fun d x => bump (key x) d) tasks ∅.

(** How many tasks have key [k]: what the breakdown is compared with. *)
Definition occurrences (key : Task.t -> string) (k : string)
    (tasks : list Task.t) : Z :=
  len (List.filter (fun x => String.eqb (key x) k) tasks).

Definition completion (completed : Z) (tasks : list Task.t) : Float64.float :=
  Float64.mul (Float64.int_truediv completed (len tasks)) (Float64.of_Z 100).

(** The percentage as the specification writes it,
    [round(100 * completed / total, 1)], evaluated as Python does. *)
Definition completion_percentage_spec (completed total : Z) : Float64.float :=
  Float64.round1 (Float64.int_truediv (100 * completed) total).

Definition from_tasks (tasks : list Task.t) : t :=
  match tasks with
  | [] => init
  | _ =>
      let completed := len (by_status COMPLETED tasks) in
      let in_progress := len (by_status IN_PROGRESS tasks) in
      let blocked := len (by_status BLOCKED tasks) in
      let estimated := sum_Z (map Task.estimated_minutes tasks) in
      let actual := sum_Z (map Task.actual_minutes tasks) in
      {| total_tasks := len tasks;
         completed_tasks := completed;
         in_progress_tasks := in_progress;
         blocked_tasks := blocked;
         total_estimated_minutes := estimated;
         total_actual_minutes := actual;
         completion_percentage := Float64.round1 (completion completed tasks);
         categories :=
           breakdown (fun x => Category_value (Task.category x)) tasks;
         priorities :=
           breakdown (fun x => Priority_value (Task.priority x)) tasks |}
  end.

End DaySummary.

Module DailyTasks.

Record t := {
    date : string;
    tasks : list Task.t;
    summary : DaySummary.t
  }.

Definition update_summary (d : t) : t :=
  Build_t (date d) (tasks d) (DaySummary.from_tasks (tasks d)).

(** *** Construction *)

(** The keyword arguments of [DailyTasks(...)] with the tasks and the
    summary as dictionaries, as they come out of a JSON file or a row. *)
Record data := {
    d_date : option string;
    d_tasks : option (list Task.data);
    d_summary : option DaySummary.t
  }.

(** What the interpreter and the libraries give to a construction:
    whether [date.fromisoformat] accepts a string, [date.today()], the
    generated values of the [n]-th task, and [str(e)] of a
    [ValidationError] on the given fields. *)
Record runtime := {
    fromisoformat_ok : string -> bool;
    today : string;
    generated : nat -> Task.generated;
    error_text : list string -> string
  }.

(** [validate_date_format]. *)
Definition validate_date_format (rt : runtime) (v : string) : option string :=
  if fromisoformat_ok rt v then Some v else None.

(** [DailyTasks] built from [d]. *)
Definition validate (rt : runtime) (d : data) : result t :=
  let r_date :=
    match d_date d with
    | None => Some (today rt)
    | Some v => validate_date_format rt v
    end in
  let r_tasks :=
    match d_tasks d with
    | None => Some []
    | Some l => validate_list (fun i => Task.validate (generated rt i)) 0 l
    end in
  match r_date, r_tasks with
  | Some date, Some tasks =>
      Ok (Build_t date tasks (default DaySummary.init (d_summary d)))
  | _, _ =>
      ValidationError (field_error "date" r_date ++ field_error "tasks" r_tasks)
  end.

(** [DailyTasks(date=date, tasks=tasks)] on task instances, which are
    taken as they are. *)
Definition create (rt : runtime) (date : string) (tasks : list Task.t)
    : result t :=
  match validate_date_format rt date with
  | Some date => Ok (Build_t date tasks DaySummary.init)
  | None => ValidationError ["date"]
  end.

Definition model_dump (d : t) : data :=
  {| d_date := Some (date d);
     d_tasks := Some (map Task.model_dump (tasks d));
     d_summary := Some (summary d) |}.

Definition is_valid (rt : runtime) (d : t) : bool :=
  fromisoformat_ok rt (date d) && forallb Task.is_valid (tasks d).

Definition add_task (task : Task.t) (d : t) : t :=
  update_summary (Build_t (date d) (tasks d ++ [task]) (summary d)).

(** [remove_task]: the set after the call and the returned flag. *)
Definition remove_task (task_id : string) (d : t) : t * bool :=
  let original_length := len (tasks d) in
  let d1 :=
    Build_t (date d)
      (List.filter (fun x => negb (String.eqb (Task.id x) task_id)) (tasks d))
      (summary d) in
  if len (tasks d1) <? original_length
  then (update_summary d1, true)
  else (d1, false).

Definition ids (d : t) : list string := map Task.id (tasks d).

Definition get_task (task_id : string) (d : t) : option Task.t :=
  List.find (fun x => String.eqb (Task.id x) task_id) (tasks d).

Definition get_tasks_by_priority (p : Priority) (d : t) : list Task.t :=
  List.filter (fun x => bool_decide (Task.priority x = p)) (tasks d).

Definition get_tasks_by_status (s : TaskStatus) (d : t) : list Task.t :=
  DaySummary.by_status s (tasks d).

Definition get_tasks_by_time_block (b : TimeBlock) (d : t) : list Task.t :=
  List.filter (fun x => bool_decide (Task.time_block x = Some b)) (tasks d).

End DailyTasks.

(** ** The stores of the sync layer *)

(** [str(n)] of an integer, as an f-string prints it. *)
Definition str_int (n : Z) : string := NilEmpty.string_of_int (Z.to_int n).

(** [s.lower()], on ASCII letters. *)
Definition lower_ascii (c : ascii) : ascii :=
  let n := nat_of_ascii c in
  if ((65 <=? n)%nat && (n <=? 90)%nat)%bool then ascii_of_nat (n + 32) else c.

Fixpoint lower (s : string) : string :=
  match s with
  | EmptyString => EmptyString
  | String c rest => String (lower_ascii c) (lower rest)
  end.

(** [sub in s]. *)
Fixpoint contains (sub s : string) : bool :=
  String.prefix sub s
  || match s with
     | EmptyString => false
     | String _ rest => contains sub rest
     end.

(** The directory [data/daily]: the file [<date>.json] under its date. *)
Module Disk.

Inductive file :=
| Json (d : DailyTasks.data)
| Unreadable.

Abbreviation t := (gmap string file).

(** How [open(path, 'w')] followed by [json.dump] ends. *)
Inductive write := Written | OpenFails | DumpFails.

End Disk.

(** The table [daily_tasks] of the remote store, with [date] as its
    primary key, and the replies of the client library. *)
Module Remote.

Inductive reply (A : Type) : Type :=
| Raises (msg : string)
| Returns (a : A).

Arguments Raises {A} msg.
Arguments Returns {A} a.

Definition row : Type := DailyTasks.data.

Abbreviation table := (gmap string row).

(** The message of a unique-constraint violation (SQLSTATE 23505). *)
Definition duplicate_key_message : string :=
  "duplicate key value violates unique constraint daily_tasks_pkey".

(** The message of [.single()] on a result that is not one row. *)
Definition no_rows_message : string :=
  "JSON object requested, multiple (or no) rows returned".

(** A call reaches the table unless the transport fails: [fault] is the
    message of that failure, if any. *)
Definition select (fault : option string) (tbl : table) (date : string)
    : reply (list row) :=
  match fault with
  | Some msg => Raises msg
  | None => Returns (match tbl !! date with Some r => [r] | None => [] end)
  end.

Definition single (fault : option string) (tbl : table) (date : string)
    : reply (option row) :=
  match fault with
  | Some msg => Raises msg
  | None =>
      match tbl !! date with
      | Some r => Returns (Some r)
      | None => Raises no_rows_message
      end
  end.

Definition insert (fault : option string) (tbl : table) (date : string)
    (r : row) : table * reply (list row) :=
  match fault with
  | Some msg => (tbl, Raises msg)
  | None =>
      match tbl !! date with
      | Some _ => (tbl, Raises duplicate_key_message)
      | None => (<[date := r]> tbl, Returns [r])
      end
  end.

Definition update (fault : option string) (tbl : table) (date : string)
    (r : row) : table * reply (list row) :=
  match fault with
  | Some msg => (tbl, Raises msg)
  | None =>
      match tbl !! date with
      | Some _ => (<[date := r]> tbl, Returns [r])
      | None => (tbl, Returns [])
      end
  end.

Definition upsert (fault : option string) (tbl : table) (date : string)
    (r : row) : table * reply (list row) :=
  match fault with
  | Some msg => (tbl, Raises msg)
  | None => (<[date := r]> tbl, Returns [r])
  end.

End Remote.

Record world := {
    disk : Disk.t;
    remote : Remote.table
  }.

(** [target_date] after [if not target_date: target_date = today]. *)
Definition date_or_today (rt : DailyTasks.runtime) (target_date : option string)
    : string :=
  match target_date with
  | None => DailyTasks.today rt
  | Some s => if String.eqb s "" then DailyTasks.today rt else s
  end.

(** [_save_local_copy] (the same in both sync classes): an I/O error is
    caught and printed. *)
Definition _save_local_copy (io : Disk.write) (daily_tasks : DailyTasks.t)
    (d : Disk.t) : Disk.t :=
  match io with
  | Disk.Written =>
      <[DailyTasks.date daily_tasks
        := Disk.Json (DailyTasks.model_dump daily_tasks)]> d
  | Disk.OpenFails => d
  | Disk.DumpFails => <[DailyTasks.date daily_tasks := Disk.Unreadable]> d
  end.

(** [_load_local_copy] (the same in both sync classes): [None] when the
    file is missing, does not parse or fails validation. *)
Definition _load_local_copy (rt : DailyTasks.runtime) (d : Disk.t)
    (target_date : string) : option DailyTasks.t :=
  match d !! target_date with
  | Some (Disk.Json data) =>
      match DailyTasks.validate rt data with
      | Ok daily_tasks => Some daily_tasks
      | ValidationError _ => None
      end
  | Some Disk.Unreadable => None
  | None => None
  end.

(** The payload [task_data] sent to the remote store. *)
Definition task_data (target_date : string) (tasks : list Task.t)
    (daily_tasks : DailyTasks.t) : Remote.row :=
  {| DailyTasks.d_date := Some target_date;
     DailyTasks.d_tasks := Some (map Task.model_dump tasks);
     DailyTasks.d_summary := Some (DailyTasks.summary daily_tasks) |}.

(** ** [backend/sync.py] *)

Module TaskSync.

Record SyncResult := {
    success : bool;
    message : string;
    data : option DailyTasks.data;
    error : option string
  }.

Definition push_tasks (rt : DailyTasks.runtime) (io : Disk.write)
    (fault : option string) (tasks : list Task.t)
    (target_date : option string) (w : world) : world * SyncResult :=
  let target_date := date_or_today rt target_date in
  let failed msg :=
    {| success := false;
       message := "Error pushing tasks for " ++ target_date;
       data := None;
       error := Some msg |} in
  match DailyTasks.create rt target_date tasks with
  | ValidationError loc => (w, failed (DailyTasks.error_text rt loc))
  | Ok daily_tasks =>
      let daily_tasks := DailyTasks.update_summary daily_tasks in
      let payload := task_data target_date tasks daily_tasks in
      let d := _save_local_copy io daily_tasks (disk w) in
      match Remote.upsert fault (remote w) target_date payload with
      | (tbl, Remote.Raises msg) => (Build_world d tbl, failed msg)
      | (tbl, Remote.Returns (r :: _)) =>
          (Build_world d tbl,
           {| success := true;
              message := "Successfully pushed " ++ str_int (len tasks)
                         ++ " tasks for " ++ target_date;
              data := Some r;
              error := None |})
      | (tbl, Remote.Returns []) =>
          (Build_world d tbl,
           {| success := false;
              message := "Failed to push tasks for " ++ target_date;
              data := None;
              error := Some "No data returned from Supabase" |})
      end
  end.

(** The construction in [pull_tasks]: [data['date']], [Task] built from
    each of [data['tasks']], [data.get('summary', {})]. *)
Definition parse_row (rt : DailyTasks.runtime) (r : Remote.row)
    : Remote.reply DailyTasks.t :=
  match DailyTasks.d_date r, DailyTasks.d_tasks r with
  | None, _ => Remote.Raises "'date'"
  | Some _, None => Remote.Raises "'tasks'"
  | Some date, Some l =>
      match validate_list
              (fun i => Task.validate (DailyTasks.generated rt i)) 0 l with
      | None => Remote.Raises (DailyTasks.error_text rt ["tasks"])
      | Some tasks =>
          match DailyTasks.validate_date_format rt date with
          | None => Remote.Raises (DailyTasks.error_text rt ["date"])
          | Some date =>
              Remote.Returns
                (DailyTasks.Build_t date tasks
                   (default DaySummary.init (DailyTasks.d_summary r)))
          end
      end
  end.

Definition loaded_from_cache (suffix : string) (local_data : DailyTasks.t)
    : SyncResult :=
  {| success := true;
     message := "Loaded " ++ str_int (len (DailyTasks.tasks local_data))
                ++ " tasks from local cache" ++ suffix;
     data := Some (DailyTasks.model_dump local_data);
     error := None |}.

(** The [except] branch of [pull_tasks]. *)
Definition pull_failed (rt : DailyTasks.runtime) (target_date : string)
    (use_cache : bool) (msg : string) (w : world) : world * SyncResult :=
  let failed :=
    {| success := false;
       message := "Error pulling tasks for " ++ target_date;
       data := None;
       error := Some msg |} in
  if use_cache then (w, failed)
  else
    match _load_local_copy rt (disk w) target_date with
    | Some local_data =>
        (w, loaded_from_cache " (Supabase unavailable)" local_data)
    | None => (w, failed)
    end.

(** [pull_tasks], given what the query [.single().execute()] does:
    it raises, or returns with [response.data] a row or nothing. *)
Definition pull_tasks_on (rt : DailyTasks.runtime) (io : Disk.write)
    (response : Remote.reply (option Remote.row)) (target_date : string)
    (use_cache : bool) (w : world) : world * SyncResult :=
  let cached :=
    if use_cache then _load_local_copy rt (disk w) target_date else None in
  match cached with
  | Some local_data =>
      (w, loaded_from_cache (" for " ++ target_date) local_data)
  | None =>
      match response with
      | Remote.Raises msg => pull_failed rt target_date use_cache msg w
      | Remote.Returns (Some r) =>
          match parse_row rt r with
          | Remote.Raises msg => pull_failed rt target_date use_cache msg w
          | Remote.Returns daily_tasks =>
              (Build_world (_save_local_copy io daily_tasks (disk w)) (remote w),
               {| success := true;
                  message := "Pulled "
                             ++ str_int (len (DailyTasks.tasks daily_tasks))
                             ++ " tasks for " ++ target_date;
                  data := Some (DailyTasks.model_dump daily_tasks);
                  error := None |})
          end
      | Remote.Returns None =>
          (w,
           {| success := false;
              message := "No tasks found for " ++ target_date;
              data := Some {| DailyTasks.d_date := Some target_date;
                              DailyTasks.d_tasks := Some [];
                              DailyTasks.d_summary := None |};
              error := None |})
      end
  end.

Definition pull_tasks (rt : DailyTasks.runtime) (io : Disk.write)
    (fault : option string) (target_date : option string)
    (use_cache : bool) (w : world) : world * SyncResult :=
  let target_date := date_or_today rt target_date in
  pull_tasks_on rt io (Remote.single fault (remote w) target_date)
    target_date use_cache w.

Section UpdateTask.

(** The values of an [updates] dictionary are arbitrary Python objects,
    and [hasattr] / [setattr] belong to the interpreter and to
    pydantic: [hasattr key] tells whether a [Task] has the attribute
    and [setattr x key v] gives the task after [setattr(x, key, v)], or
    the exception it raises. *)
Context {V : Type}.
Variable hasattr : string -> bool.
Variable setattr : Task.t -> string -> V -> Remote.reply Task.t.

(** The loop over [updates.items()]. *)
Fixpoint apply_updates (task : Task.t) (updates : list (string * V))
    : Remote.reply Task.t :=
  match updates with
  | [] => Remote.Returns task
  | (key, value) :: rest =>
      if hasattr key then
        match setattr task key value with
        | Remote.Raises msg => Remote.Raises msg
        | Remote.Returns task' => apply_updates task' rest
        end
      else apply_updates task rest
  end.

(** The loop over [daily_tasks.tasks]: the first task with the id is
    updated and stamped; [None] when no task has it. *)
Fixpoint update_first (now : string) (task_id : string)
    (updates : list (string * V)) (tasks : list Task.t)
    : Remote.reply (option (list Task.t)) :=
  match tasks with
  | [] => Remote.Returns None
  | task :: rest =>
      if String.eqb (Task.id task) task_id then
        match apply_updates task updates with
        | Remote.Raises msg => Remote.Raises msg
        | Remote.Returns task' =>
            Remote.Returns (Some (Task.with_updated_at now task' :: rest))
        end
      else
        match update_first now task_id updates rest with
        | Remote.Raises msg => Remote.Raises msg
        | Remote.Returns None => Remote.Returns None
        | Remote.Returns (Some rest') => Remote.Returns (Some (task :: rest'))
        end
  end.

(** [update_task]. [io_pull], [fault_pull] go to the pull and
    [io_push], [fault_push] to the push; [now] is the new
    [updated_at]. *)
Definition update_task (rt : DailyTasks.runtime)
    (io_pull io_push : Disk.write) (fault_pull fault_push : option string)
    (now : string) (task_id : string) (updates : list (string * V))
    (target_date : option string) (w : world) : world * SyncResult :=
  let target_date := date_or_today rt target_date in
  let failed msg :=
    {| success := false;
       message := "Error updating task " ++ task_id;
       data := None;
       error := Some msg |} in
  let '(w1, result) :=
    pull_tasks rt io_pull fault_pull (Some target_date) true w in
  if negb (success result) then (w1, result)
  else
    match data result with
    | None => (w1, failed "argument after ** must be a mapping")
    | Some d =>
        match DailyTasks.validate rt d with
        | ValidationError loc => (w1, failed (DailyTasks.error_text rt loc))
        | Ok daily_tasks =>
            match update_first now task_id updates
                    (DailyTasks.tasks daily_tasks) with
            | Remote.Raises msg => (w1, failed msg)
            | Remote.Returns None =>
                (w1,
                 {| success := false;
                    message := "Task " ++ task_id ++ " not found in "
                               ++ target_date;
                    data := None;
                    error := Some "Task not found" |})
            | Remote.Returns (Some tasks) =>
                push_tasks rt io_push fault_push tasks (Some target_date) w1
            end
        end
    end.

End UpdateTask.

(** [active_subscriptions]: the subscription ids with their channels, a
    channel being known by its name. *)
Definition subscriptions : Type := list (string * string).



(** [cleanup]: every channel is removed, errors are printed, and the list
    is cleared. *)
Definition cleanup (subs : subscriptions) : subscriptions := [].

End TaskSync.

(** ** [backend/sync_improved.py] *)

Module ImprovedTaskSync.

Record SyncResult := {
    success : bool;
    message : string;
    data : option DailyTasks.data;
    error : option string;
    error_type : option string;
    suggested_fix : option string
  }.

(** [_record_exists]: an exception counts as no record. *)
Definition _record_exists (fault : option string) (tbl : Remote.table)
    (target_date : string) : bool :=
  match Remote.select fault tbl target_date with
  | Remote.Returns rows => 0 <? len rows
  | Remote.Raises _ => false
  end.

(** The [except] branch of [push_tasks_smart]: the error type and the
    suggested fix chosen from the text of the exception. *)
Definition classify (error_message : string) : string * string :=
  if contains "duplicate key" (lower error_message) then
    ("constraint_violation",
     "Record already exists. Try using UPDATE instead of INSERT.")
  else if contains "permission" (lower error_message) then
    ("permission_error", "Check Supabase API key permissions")
  else if contains "network" (lower error_message)
          || contains "connection" (lower error_message) then
    ("network_error", "Check internet connection and Supabase URL")
  else ("unknown_error", "Check logs for details").

Definition push_failed (target_date error_message : string) : SyncResult :=
  {| success := false;
     message := "❌ Error syncing tasks for " ++ target_date;
     data := None;
     error := Some error_message;
     error_type := Some (fst (classify error_message));
     suggested_fix := Some (snd (classify error_message)) |}.

(** What [push_tasks_smart] has in hand once the existence check is
    done and before it writes. *)
Record pending := {
    p_date : string;
    p_tasks : list Task.t;
    p_payload : Remote.row;
    p_record_exists : bool
  }.

(** First half of [push_tasks_smart]: build the set, save the local copy,
    check whether the remote record exists. *)
Definition push_prepare (rt : DailyTasks.runtime) (io : Disk.write)
    (fault : option string) (tasks : list Task.t)
    (target_date : option string) (w : world) : world * (SyncResult + pending) :=
  let target_date := date_or_today rt target_date in
  match DailyTasks.create rt target_date tasks with
  | ValidationError loc =>
      (w, inl (push_failed target_date (DailyTasks.error_text rt loc)))
  | Ok daily_tasks =>
      let daily_tasks := DailyTasks.update_summary daily_tasks in
      let payload := task_data target_date tasks daily_tasks in
      let d := _save_local_copy io daily_tasks (disk w) in
      (Build_world d (remote w),
       inr {| p_date := target_date;
              p_tasks := tasks;
              p_payload := payload;
              p_record_exists := _record_exists fault (remote w) target_date |})
  end.

(** Second half: update if the record was seen, insert otherwise. *)
Definition push_write (fault : option string) (p : pending) (w : world)
    : world * SyncResult :=
  let '(tbl, response) :=
    if p_record_exists p
    then Remote.update fault (remote w) (p_date p) (p_payload p)
    else Remote.insert fault (remote w) (p_date p) (p_payload p) in
  (Build_world (disk w) tbl,
   match response with
   | Remote.Raises msg => push_failed (p_date p) msg
   | Remote.Returns (r :: _) =>
       {| success := true;
          message := "✅ Successfully "
                     ++ (if p_record_exists p then "updated" else "created")
                     ++ " " ++ str_int (len (p_tasks p)) ++ " tasks for "
                     ++ p_date p;
          data := Some r;
          error := None;
          error_type := None;
          suggested_fix := None |}
   | Remote.Returns [] =>
       {| success := false;
          message := "❌ Failed to sync tasks for " ++ p_date p;
          data := None;
          error := Some "No data returned from Supabase";
          error_type := Some "database_error";
          suggested_fix := Some "Check Supabase table permissions and schema" |}
   end).

Definition push_tasks_smart (rt : DailyTasks.runtime) (io : Disk.write)
    (fault_exists fault_write : option string) (tasks : list Task.t)
    (target_date : option string) (w : world) : world * SyncResult :=
  match push_prepare rt io fault_exists tasks target_date w with
  | (w1, inl result) => (w1, result)
  | (w1, inr p) => push_write fault_write p w1
  end.

(** [push_tasks_from_file]. *)
Definition push_tasks_from_file (rt : DailyTasks.runtime) (io : Disk.write)
    (fault_exists fault_write : option string) (target_date : option string)
    (w : world) : world * SyncResult :=
  let target_date := date_or_today rt target_date in
  match _load_local_copy rt (disk w) target_date with
  | None =>
      (w,
       {| success := false;
          message := "❌ No local file found for " ++ target_date;
          data := None;
          error := None;
          error_type := Some "file_not_found";
          suggested_fix := Some ("Create data/daily/" ++ target_date
                                 ++ ".json with task data") |})
  | Some daily_tasks =>
      push_tasks_smart rt io fault_exists fault_write
        (DailyTasks.tasks daily_tasks) (Some target_date) w
  end.

(** Two callers pushing to the same date, interleaved as a race on a new
    date goes: both check, then both write. *)
Definition racing_pushes (rt : DailyTasks.runtime)
    (tasks_a tasks_b : list Task.t) (target_date : option string) (w : world)
    : world * option (SyncResult * SyncResult) :=
  match push_prepare rt Disk.Written None tasks_a target_date w with
  | (w1, inl _) => (w1, None)
  | (w1, inr p_a) =>
      match push_prepare rt Disk.Written None tasks_b target_date w1 with
      | (w2, inl _) => (w2, None)
      | (w2, inr p_b) =>
          let '(w3, result_a) := push_write None p_a w2 in
          let '(w4, result_b) := push_write None p_b w3 in
          (w4, Some (result_a, result_b))
      end
  end.

Definition loaded_from_cache (suffix : string) (local_data : DailyTasks.t)
    : SyncResult :=
  {| success := true;
     message := "📁 Loaded " ++ str_int (len (DailyTasks.tasks local_data))
                ++ " tasks from local cache" ++ suffix;
     data := Some (DailyTasks.model_dump local_data);
     error := None;
     error_type := None;
     suggested_fix := None |}.

(** The [except] branch of [pull_tasks]. *)
Definition pull_failed (rt : DailyTasks.runtime) (target_date msg : string)
    (w : world) : world * SyncResult :=
  match _load_local_copy rt (disk w) target_date with
  | Some local_data =>
      (w, loaded_from_cache (" (Supabase error: " ++ msg ++ ")") local_data)
  | None =>
      (w,
       {| success := false;
          message := "❌ Error pulling tasks for " ++ target_date;
          data := None;
          error := Some msg;
          error_type := Some "database_error";
          suggested_fix := Some "Check connection and try local cache" |})
  end.

(** [pull_tasks], given what the query [.execute()] does: it raises, or
    returns with [response.data] a list of rows. *)
Definition pull_tasks_on (rt : DailyTasks.runtime) (io : Disk.write)
    (response : Remote.reply (list Remote.row)) (target_date : string)
    (use_cache : bool) (w : world) : world * SyncResult :=
  let cached :=
    if use_cache then _load_local_copy rt (disk w) target_date else None in
  match cached with
  | Some local_data =>
      (w, loaded_from_cache (" for " ++ target_date) local_data)
  | None =>
      match response with
      | Remote.Raises msg => pull_failed rt target_date msg w
      | Remote.Returns (r :: _) =>
          match DailyTasks.validate rt r with
          | ValidationError loc =>
              pull_failed rt target_date (DailyTasks.error_text rt loc) w
          | Ok daily_tasks =>
              (Build_world (_save_local_copy io daily_tasks (disk w)) (remote w),
               {| success := true;
                  message := "📥 Pulled "
                             ++ str_int (len (DailyTasks.tasks daily_tasks))
                             ++ " tasks for " ++ target_date;
                  data := Some (DailyTasks.model_dump daily_tasks);
                  error := None;
                  error_type := None;
                  suggested_fix := None |})
          end
      | Remote.Returns [] =>
          match _load_local_copy rt (disk w) target_date with
          | Some local_data =>
              (w, loaded_from_cache " (Supabase returned no data)" local_data)
          | None =>
              match DailyTasks.create rt target_date [] with
              | ValidationError loc =>
                  pull_failed rt target_date (DailyTasks.error_text rt loc) w
              | Ok empty =>
                  (w,
                   {| success := true;
                      message := "📭 No tasks found for " ++ target_date;
                      data := Some (DailyTasks.model_dump empty);
                      error := None;
                      error_type := None;
                      suggested_fix := None |})
              end
          end
      end
  end.

Definition pull_tasks (rt : DailyTasks.runtime) (io : Disk.write)
    (fault : option string) (target_date : option string)
    (use_cache : bool) (w : world) : world * SyncResult :=
  let target_date := date_or_today rt target_date in
  pull_tasks_on rt io (Remote.select fault (remote w) target_date)
    target_date use_cache w.

End ImprovedTaskSync.

(** ** Sample data *)

Module Sample.

Definition name (prefix : string) (n : nat) : string :=
  prefix ++ NilEmpty.string_of_uint (Nat.to_uint n).

Definition stamp : string := "2025-01-29T09:00:00".

(** [n] times the letter e with an acute accent: [n] characters in [2 * n]
    bytes. *)
Fixpoint accented (n : nat) : string :=
  match n with
  | O => ""
  | S n => "é" ++ accented n
  end.

Definition clk : Task.clock := fun n => name "2025-01-29T10:00:0" n.

(** A task as the constructor leaves it, with [progress] and
    [completed_at] in line with the status. *)
Definition task (i : string) (s : TaskStatus) : Task.t :=
  {| Task.id := i;
     Task.title := "task";
     Task.description := "";
     Task.priority := P2;
     Task.status := s;
     Task.progress := if bool_decide (s = COMPLETED) then 100 else 0;
     Task.category := ADMIN;
     Task.estimated_minutes := 30;
     Task.actual_minutes := 0;
     Task.time_block := None;
     Task.subtasks := [];
     Task.notes := [];
     Task.success_criteria := None;
     Task.dependencies := [];
     Task.tags := [];
     Task.created_at := stamp;
     Task.updated_at := stamp;
     Task.completed_at :=
       if bool_decide (s = COMPLETED) then Some stamp else None |}.

(** [done] completed tasks followed by [todo] tasks not started. *)
Definition day (done todo : nat) : list Task.t :=
  map (fun n => task (name "t" n) COMPLETED) (seq 0 done)
  ++ map (fun n => task (name "t" n) NOT_STARTED) (seq done todo).

(** [total] subtasks [s0], [s1], ..., the first [done] of them completed. *)
Definition steps (done total : nat) : list Subtask.t :=
  map (fun n => Subtask.Build_t (name "s" n) "step" (n <? done)%nat None)
    (seq 0 total).

Definition task_with_steps (s : TaskStatus) (p : Z) (done total : nat) : Task.t :=
  Task.with_progress p (Task.with_subtasks (steps done total) (task "t0" s)).

Definition empty_day : DailyTasks.t :=
  DailyTasks.Build_t "2025-01-29" [] DaySummary.init.

(** A stand-in for [date.fromisoformat]: the shape [YYYY-MM-DD]. *)
Definition is_digit (c : ascii) : bool :=
  ((48 <=? nat_of_ascii c)%nat && (nat_of_ascii c <=? 57)%nat)%bool.

Definition iso_shape (s : string) : bool :=
  match list_ascii_of_string s with
  | [y1; y2; y3; y4; h1; m1; m2; h2; d1; d2] =>
      forallb is_digit [y1; y2; y3; y4; m1; m2; d1; d2]
      && Ascii.eqb h1 "-" && Ascii.eqb h2 "-"
  | _ => false
  end.

Definition rt : DailyTasks.runtime :=
  {| DailyTasks.fromisoformat_ok := iso_shape;
     DailyTasks.today := "2025-01-29";
     DailyTasks.generated := fun n =>
       {| Task.gen_id := name "task-" n;
          Task.gen_subtask_id := fun i => name (name "sub-" n ++ "-") i;
          Task.gen_created_at := stamp;
          Task.gen_updated_at := stamp;
          Task.gen_now := stamp |};
     DailyTasks.error_text := fun loc =>
       "validation error for " ++ String.concat ", " loc |}.

(** The three tasks of the scenario of the specification, with their
    summary. *)
Definition scenario : DailyTasks.t :=
  DailyTasks.update_summary
    (DailyTasks.Build_t "2025-01-29"
       [Task.with_estimated_minutes 120
          (Task.with_category DEVELOPMENT
             (Task.with_priority P1 (task "t1" NOT_STARTED)));
        Task.with_estimated_minutes 60 (task "t2" NOT_STARTED);
        Task.with_estimated_minutes 45
          (Task.with_category PLANNING
             (Task.with_priority P3 (task "t3" NOT_STARTED)))]
       DaySummary.init).

(** Keyword arguments with a title, a status and a progress. *)
Definition draft (title : string) (status : option string)
    (progress : option Z) : Task.data :=
  {| Task.d_id := None;
     Task.d_title := Some title;
     Task.d_description := None;
     Task.d_priority := None;
     Task.d_status := status;
     Task.d_progress := progress;
     Task.d_category := None;
     Task.d_estimated_minutes := None;
     Task.d_actual_minutes := None;
     Task.d_time_block := None;
     Task.d_subtasks := None;
     Task.d_notes := None;
     Task.d_success_criteria := None;
     Task.d_dependencies := None;
     Task.d_tags := None;
     Task.d_created_at := None;
     Task.d_updated_at := None;
     Task.d_completed_at := None |}.

Definition empty_world : world := Build_world ∅ ∅.

(** The world after the scenario was saved locally, with no remote
    record. *)
Definition cached_world : world :=
  Build_world (_save_local_copy Disk.Written scenario ∅) ∅.

(** Integer-valued updates: [hasattr] holds for the fields and methods of
    [Task], and [setattr] stores into the integer fields; pydantic raises
    on a name that is no field. Other assignments are outside this
    sample. *)
Definition hasattr (key : string) : bool :=
  existsb (String.eqb key) (Task.field_names ++ Task.method_names).

Definition setattr (x : Task.t) (key : string) (v : Z) : Remote.reply Task.t :=
  if String.eqb key "progress" then Remote.Returns (Task.with_progress v x)
  else if String.eqb key "estimated_minutes"
  then Remote.Returns (Task.with_estimated_minutes v x)
  else if String.eqb key "actual_minutes"
  then Remote.Returns (Task.with_actual_minutes v x)
  else Remote.Raises ("Task object has no field " ++ key).

End Sample.

(** * Properties *)

(** ** Floats: the integer percentage is always defined *)

Lemma digits2_pos_size p : digits2_pos p = Pos.size p.
Proof. induction p; simpl; congruence. Qed.

Lemma Zdigits2_nonneg m : 0 <= Zdigits2 m.
Proof. destruct m; simpl; lia. Qed.

(** A nonnegative integer is below two to the number of its digits. *)
Lemma Zdigits2_gt m : 0 <= m -> m < 2 ^ Zdigits2 m.
Proof.
  destruct m as [|p|p]; intros H; cbn [Zdigits2]; [reflexivity| |lia].
  rewrite digits2_pos_size.
  pose proof (Pos.size_gt p) as Hp.
  rewrite <- Pos2Z.inj_pow. lia.
Qed.

Lemma Zdigits2_le m k : 0 <= k -> 0 <= m < 2 ^ k -> Zdigits2 m <= k.
Proof.
  intros Hk [H0 Hm]. destruct m as [|p|p]; cbn [Zdigits2]; [lia| |lia].
  rewrite digits2_pos_size.
  pose proof (Pos.size_le p) as Hp.
  destruct (Z.le_gt_cases (Z.pos (Pos.size p)) k) as [|Hgt]; [assumption|].
  exfalso.
  assert (2 ^ (k + 1) <= 2 ^ Z.pos (Pos.size p)) by (apply Z.pow_le_mono_r; lia).
  rewrite <- Pos2Z.inj_pow in H.
  rewrite Z.pow_add_r in H by lia. lia.
Qed.

(** One step of [shr] halves the mantissa. *)
Lemma shr_1_m mrs : 0 <= shr_m mrs -> shr_m (shr_1 mrs) = shr_m mrs / 2.
Proof.
  destruct mrs as [m r s]. simpl. intros H.
  destruct m as [|[p|p|]|p]; simpl; try reflexivity; try lia.
  - rewrite Pos2Z.inj_xI. apply Z.div_unique with (r := 1); lia.
  - rewrite Pos2Z.inj_xO. apply Z.div_unique with (r := 0); lia.
Qed.

Lemma iter_shr_1_m p : forall mrs,
  0 <= shr_m mrs ->
  shr_m (SpecFloat.iter_pos shr_1 p mrs) = shr_m mrs / 2 ^ Z.pos p.
Proof.
  induction p as [p IH|p IH|]; intros mrs H; simpl SpecFloat.iter_pos.
  - assert (H1 : 0 <= shr_m (shr_1 mrs)).
    { rewrite shr_1_m by assumption. apply Z.div_pos; lia. }
    assert (H2 : 0 <= shr_m (SpecFloat.iter_pos shr_1 p (shr_1 mrs))).
    { rewrite IH by assumption. apply Z.div_pos; lia. }
    rewrite IH, IH, shr_1_m by assumption.
    rewrite !Z.div_div by lia. f_equal.
    replace (Z.pos p~1) with (Z.pos p + Z.pos p + 1) by lia.
    rewrite !Z.pow_add_r by lia. ring.
  - assert (H2 : 0 <= shr_m (SpecFloat.iter_pos shr_1 p mrs)).
    { rewrite IH by assumption. apply Z.div_pos; lia. }
    rewrite IH, IH by assumption.
    rewrite !Z.div_div by lia. f_equal.
    replace (Z.pos p~0) with (Z.pos p + Z.pos p) by lia.
    rewrite !Z.pow_add_r by lia. ring.
  - rewrite shr_1_m by assumption. reflexivity.
Qed.

Lemma fexp64_eq k : Float64.fexp64 k = Z.max (k - 53) (-1074).
Proof. reflexivity. Qed.

Lemma shr_record_of_loc_m m l : shr_m (shr_record_of_loc m l) = m.
Proof. destruct l as [|[]]; reflexivity. Qed.

(** [shr_fexp] brings a mantissa under 53 bits and never lowers the
    exponent. *)
Lemma shr_fexp_bounds m e l :
  0 <= m ->
  0 <= shr_m (fst (shr_fexp 53 1024 m e l)) <= m
  /\ shr_m (fst (shr_fexp 53 1024 m e l)) < 2 ^ 53
  /\ snd (shr_fexp 53 1024 m e l) = Z.max e (Float64.fexp64 (Zdigits2 m + e)).
Proof.
  intros Hm. unfold shr_fexp, shr.
  pose proof (Zdigits2_gt m Hm) as Hd.
  pose proof (Zdigits2_nonneg m) as Hd0.
  rewrite fexp64_eq.
  set (d := Zdigits2 m) in *.
  destruct (Z.max (d + e - 53) (-1074) - e) as [|p|p] eqn:En; cbn [fst snd].
  - rewrite shr_record_of_loc_m.
    assert (2 ^ d <= 2 ^ 53) by (apply Z.pow_le_mono_r; lia).
    repeat split; lia.
  - rewrite iter_shr_1_m by (rewrite shr_record_of_loc_m; exact Hm).
    rewrite shr_record_of_loc_m.
    assert (Hp : 0 < 2 ^ Z.pos p) by (apply Z.pow_pos_nonneg; lia).
    assert (2 ^ d <= 2 ^ (Z.pos p + 53)) by (apply Z.pow_le_mono_r; lia).
    rewrite Z.pow_add_r in H by lia.
    repeat split.
    + apply Z.div_pos; lia.
    + apply Z.div_le_upper_bound; nia.
    + apply Z.div_lt_upper_bound; lia.
    + lia.
  - rewrite shr_record_of_loc_m.
    assert (2 ^ d <= 2 ^ 53) by (apply Z.pow_le_mono_r; lia).
    repeat split; lia.
Qed.

Lemma round_nearest_even_bounds m l :
  m <= round_nearest_even m l <= m + 1.
Proof.
  unfold round_nearest_even. destruct l as [|[]]; try lia.
  destruct (Z.even m); lia.
Qed.

(** A rounded result is a zero or a finite float with a mantissa of at
    most 54 bits, unless the exponent overflows. *)
Lemma binary_round_aux_bounds s mx ex lx :
  0 <= mx ->
  Z.max ex (Float64.fexp64 (Zdigits2 mx + ex)) + 1 <= 971 ->
  binary_round_aux 53 1024 s mx ex lx = S754_zero s
  \/ exists m e,
       binary_round_aux 53 1024 s mx ex lx = S754_finite s m e
       /\ Z.pos m <= 2 ^ 53
       /\ ex <= e <= Z.max ex (Float64.fexp64 (Zdigits2 mx + ex)) + 1.
Proof.
  intros Hm He. unfold binary_round_aux.
  pose proof (shr_fexp_bounds mx ex lx Hm) as (H1 & H2 & H3).
  destruct (shr_fexp 53 1024 mx ex lx) as [mrs' e']. cbn [fst snd] in *.
  pose proof (round_nearest_even_bounds (shr_m mrs') (loc_of_shr_record mrs'))
    as Hr.
  set (m' := round_nearest_even (shr_m mrs') (loc_of_shr_record mrs')) in *.
  assert (Hm' : 0 <= m') by lia.
  pose proof (shr_fexp_bounds m' e' loc_Exact Hm') as (H4 & _ & H6).
  destruct (shr_fexp 53 1024 m' e' loc_Exact) as [mrs'' e'']. cbn [fst snd] in *.
  assert (Hd' : Zdigits2 m' <= 54).
  { apply Zdigits2_le; [lia|]. split; [lia|].
    change (2 ^ 54) with (2 * 2 ^ 53). lia. }
  rewrite fexp64_eq in H3, H6, He |- *.
  destruct (shr_m mrs'') as [|m|m] eqn:Em.
  - left. reflexivity.
  - right. exists m, e''.
    assert (Hle : e'' <= 971) by lia.
    apply Z.leb_le in Hle. change (1024 - 53) with 971. rewrite Hle.
    repeat split; lia.
  - lia.
Qed.

Lemma digits2_pos_iter_xO p k :
  Z.pos (digits2_pos (Pos.iter xO p k)) = Z.pos (digits2_pos p) + Z.pos k.
Proof.
  induction k as [|k IH] using Pos.peano_ind.
  - simpl. lia.
  - rewrite Pos.iter_succ. cbn [digits2_pos]. lia.
Qed.

Lemma binary_round_aux_exact s m e :
  Zdigits2 (Z.pos m) = 53 -> -1074 <= e <= 971 ->
  binary_round_aux 53 1024 s (Z.pos m) e loc_Exact = S754_finite s m e.
Proof.
  intros Hd He. unfold binary_round_aux, shr_fexp. rewrite Hd, fexp64_eq.
  replace (Z.max (53 + e - 53) (-1074) - e) with 0 by lia.
  cbn [shr shr_record_of_loc shr_m loc_of_shr_record round_nearest_even].
  rewrite Hd, fexp64_eq.
  replace (Z.max (53 + e - 53) (-1074) - e) with 0 by lia.
  cbn [shr shr_record_of_loc shr_m].
  change (1024 - 53) with 971.
  destruct (Z.leb_spec e 971); [reflexivity|lia].
Qed.

(** [float(n)] is exact for [0 < n < 2^53]: a normal float. *)
Lemma of_Z_pos p :
  Z.pos p < 2 ^ 53 ->
  exists m e, Float64.of_Z (Z.pos p) = S754_finite false m e
              /\ Zdigits2 (Z.pos m) = 53 /\ -52 <= e <= 0.
Proof.
  intros Hp. unfold Float64.of_Z, binary_normalize, binary_round, shl_align.
  assert (Hd : 1 <= Z.pos (digits2_pos p) <= 53).
  { split; [lia|]. apply (Zdigits2_le (Z.pos p) 53); lia. }
  rewrite fexp64_eq.
  replace (Z.max (Z.pos (digits2_pos p) + 0 - 53) (-1074))
    with (Z.pos (digits2_pos p) - 53) by lia.
  destruct (Z.pos (digits2_pos p) - 53 - 0) as [|k|k] eqn:Ek.
  - exists p, 0. rewrite binary_round_aux_exact; [|cbn [Zdigits2]; lia|lia].
    repeat split; cbn [Zdigits2]; lia.
  - lia.
  - exists (Pos.iter xO p k), (Z.pos (digits2_pos p) - 53).
    assert (Hdk : Zdigits2 (Z.pos (Pos.iter xO p k)) = 53).
    { cbn [Zdigits2]. rewrite digits2_pos_iter_xO. lia. }
    rewrite binary_round_aux_exact; [|exact Hdk|lia].
    repeat split; [exact Hdk|lia|lia].
Qed.

Lemma of_Z_bounded n :
  0 <= n < 2 ^ 53 -> Float64.bounded_by (-52) 0 (Float64.of_Z n).
Proof.
  intros [H0 Hn]. destruct n as [|p|p]; [exact I| |lia].
  destruct (of_Z_pos p Hn) as (m & e & -> & Hd & He).
  split; [|exact He].
  pose proof (Zdigits2_gt (Z.pos m)) as Hm. rewrite Hd in Hm. lia.
Qed.

Lemma bounded_digits m : Z.pos m <= 2 ^ 53 -> 1 <= Zdigits2 (Z.pos m) <= 54.
Proof.
  intros H. split; [cbn [Zdigits2]; lia|].
  apply Zdigits2_le; [lia|]. split; [lia|].
  change (2 ^ 54) with (2 * 2 ^ 53). lia.
Qed.

(** A quotient of two floats that came from integers below [2^53] is
    finite. *)
Lemma div_bounded x my ey :
  Float64.bounded_by (-52) 0 x ->
  Float64.bounded_by (-52) 0 (S754_finite false my ey) ->
  Float64.bounded_by (-160) 300 (SFdiv 53 1024 x (S754_finite false my ey)).
Proof.
  intros Hx [Hmy Hey].
  destruct x as [[]| | |[] mx ex]; try contradiction; [exact I|].
  destruct Hx as [Hmx Hex]. cbn [SFdiv xorb].
  unfold SFdiv_core_binary.
  pose proof (bounded_digits mx Hmx) as Hd1.
  pose proof (bounded_digits my Hmy) as Hd2.
  set (d1 := Zdigits2 (Z.pos mx)) in *. set (d2 := Zdigits2 (Z.pos my)) in *.
  rewrite fexp64_eq.
  set (e' := Z.min (Z.max (d1 + ex - (d2 + ey) - 53) (-1074)) (ex - ey)).
  assert (He' : -160 <= e' <= 52) by (unfold e'; lia).
  set (m' := match ex - ey - e' with
             | 0 => Z.pos mx
             | Z.pos _ => Z.shiftl (Z.pos mx) (ex - ey - e')
             | Z.neg _ => 0
             end).
  assert (Hm' : 0 <= m' < 2 ^ 300).
  { unfold m'. destruct (ex - ey - e') as [|s|s] eqn:Es.
    - split; [lia|].
      assert (2 ^ 53 < 2 ^ 300) by (apply Z.pow_lt_mono_r; lia). lia.
    - rewrite Z.shiftl_mul_pow2 by lia.
      assert (0 < 2 ^ Z.pos s) by (apply Z.pow_pos_nonneg; lia).
      assert (2 ^ Z.pos s <= 2 ^ 212) by (apply Z.pow_le_mono_r; lia).
      assert (2 ^ 53 * 2 ^ 212 < 2 ^ 300)
        by (rewrite <- Z.pow_add_r by lia; apply Z.pow_lt_mono_r; lia).
      split; [lia|]. nia.
    - split; [lia|]. apply Z.pow_pos_nonneg; lia. }
  assert (Hq : fst (Z.div_eucl m' (Z.pos my)) = m' / Z.pos my) by reflexivity.
  destruct (Z.div_eucl m' (Z.pos my)) as [q r]. cbn [fst] in Hq. subst q.
  assert (Hq : 0 <= m' / Z.pos my <= m').
  { split; [apply Z.div_pos; lia|]. apply Z.div_le_upper_bound; nia. }
  assert (Hdq : Zdigits2 (m' / Z.pos my) <= 300).
  { apply Zdigits2_le; lia. }
  pose proof (Zdigits2_nonneg (m' / Z.pos my)) as Hdq0.
  destruct (binary_round_aux_bounds false (m' / Z.pos my) e'
              (new_location (Z.pos my) r)) as [->|(m & e & -> & Hm & He)].
  - lia.
  - rewrite fexp64_eq. lia.
  - exact I.
  - rewrite fexp64_eq in He. split; [exact Hm|]. lia.
Qed.

Lemma mul_bounded x y :
  Float64.bounded_by (-160) 300 x -> Float64.bounded_by (-52) 0 y ->
  Float64.bounded_by (-212) 355 (SFmul 53 1024 x y).
Proof.
  intros Hx Hy.
  destruct x as [[]| | |[] mx ex]; try contradiction;
    destruct y as [[]| | |[] my ey]; try contradiction; try exact I.
  destruct Hx as [Hmx Hex], Hy as [Hmy Hey]. cbn [SFmul xorb].
  assert (Hm : 0 <= Z.pos (mx * my) < 2 ^ 107).
  { split; [lia|]. rewrite Pos2Z.inj_mul.
    change (2 ^ 107) with (2 * (2 ^ 53 * 2 ^ 53)). nia. }
  assert (Hd : Zdigits2 (Z.pos (mx * my)) <= 107) by (apply Zdigits2_le; lia).
  pose proof (Zdigits2_nonneg (Z.pos (mx * my))) as Hd0.
  destruct (binary_round_aux_bounds false (Z.pos (mx * my)) (ex + ey) loc_Exact)
    as [->|(m & e & -> & Hm' & He)].
  - lia.
  - rewrite fexp64_eq. lia.
  - exact I.
  - rewrite fexp64_eq in He. split; [exact Hm'|]. lia.
Qed.


Lemma to_int_bounded lo hi x :
  Float64.bounded_by lo hi x -> exists p, Float64.to_int x = Some p /\ 0 <= p.
Proof.
  destruct x as [[]| | |[] m e]; try contradiction; intros _.
  - exists 0. split; [reflexivity|lia].
  - eexists. split; [reflexivity|].
    destruct e as [|q|q]; [lia| |].
    + assert (0 < 2 ^ Z.pos q) by (apply Z.pow_pos_nonneg; lia). nia.
    + apply Z.div_pos; [lia|]. apply Z.pow_pos_nonneg; lia.
Qed.

(** [int((completed / total) * 100)] raises nothing: it is an integer, and
    not a negative one, for every count of a list below [2^53] elements. *)
Lemma percent_of_defined completed total :
  0 <= completed < 2 ^ 53 -> 0 < total < 2 ^ 53 ->
  exists p, Task.percent_of completed total = Some p /\ 0 <= p.
Proof.
  intros Hc Ht. unfold Task.percent_of, Float64.int_truediv, Float64.div,
    Float64.mul.
  destruct total as [|t|t]; try lia.
  pose proof (of_Z_bounded (Z.pos t)) as Hbt.
  destruct (of_Z_pos t) as (m & e & Hm & _); [lia|].
  rewrite Hm in Hbt |- *.
  apply (to_int_bounded (-212) 355), mul_bounded.
  - apply div_bounded; [apply of_Z_bounded; lia|apply Hbt; lia].
  - apply of_Z_bounded. split; [lia|]. reflexivity.
Qed.

(** [x / x] is [1.0], so all subtasks completed gives 100. *)
Lemma percent_of_all total :
  0 < total < 2 ^ 53 -> Task.percent_of total total = Some 100.
Proof.
  intros Ht. unfold Task.percent_of, Float64.int_truediv, Float64.div.
  destruct total as [|t|t]; try lia.
  destruct (of_Z_pos t) as (m & e & -> & Hd & He); [lia|].
  assert (Hone : SFdiv 53 1024 (S754_finite false m e) (S754_finite false m e)
                 = S754_finite false (2 ^ 52) (-52)).
  { cbn [SFdiv xorb]. unfold SFdiv_core_binary. rewrite Hd.
    replace (53 + e - (53 + e)) with 0 by lia.
    replace (e - e) with 0 by lia.
    change (Z.min (Float64.fexp64 0) 0) with (-53).
    change (0 - -53) with 53.
    cbn match.
    rewrite Z.shiftl_mul_pow2 by lia.
    assert (Hq : fst (Z.div_eucl (Z.pos m * 2 ^ 53) (Z.pos m)) = 2 ^ 53).
    { change (fst (Z.div_eucl ?a ?b)) with (a / b).
      rewrite Z.mul_comm. apply Z.div_mul. lia. }
    assert (Hr : snd (Z.div_eucl (Z.pos m * 2 ^ 53) (Z.pos m)) = 0).
    { change (snd (Z.div_eucl ?a ?b)) with (a mod b).
      rewrite Z.mul_comm. apply Z.mod_mul. lia. }
    destruct (Z.div_eucl (Z.pos m * 2 ^ 53) (Z.pos m)) as [q r].
    cbn [fst snd] in Hq, Hr. subst q r.
    assert (Hloc : new_location (Z.pos m) 0 = loc_Exact).
    { unfold new_location. destruct (Z.even (Z.pos m)); reflexivity. }
    rewrite Hloc. vm_compute. reflexivity. }
  unfold Float64.prec, Float64.emax. rewrite Hone. vm_compute. reflexivity.
Qed.

Section Breakdown.

Variable key : Task.t -> string.

Lemma occurrences_nonneg k tasks : 0 <= DaySummary.occurrences key k tasks.
Proof. unfold DaySummary.occurrences, len. lia. Qed.

Lemma occurrences_cons k x tasks :
  DaySummary.occurrences key k (x :: tasks)
  = (if String.eqb (key x) k then 1 else 0)
    + DaySummary.occurrences key k tasks.
Proof.
  unfold DaySummary.occurrences, len. simpl.
  destruct (String.eqb (key x) k); simpl length; lia.
Qed.

Lemma bump_lookup k k' (d : gmap string Z) :
  DaySummary.bump k d !! k'
  = if String.eqb k k' then Some (default 0 (d !! k) + 1) else d !! k'.
Proof.
  unfold DaySummary.bump.
  destruct (String.eqb_spec k k') as [->|Hne].
  - apply lookup_insert_eq.
  - by apply lookup_insert_ne.
Qed.

Lemma fold_bump_lookup tasks : forall (d : gmap string Z) k,
  fold_left (fun d x => DaySummary.bump (key x) d) tasks d !! k
  = if DaySummary.occurrences key k tasks =? 0 then d !! k
    else Some (default 0 (d !! k) + DaySummary.occurrences key k tasks).
Proof.
  induction tasks as [|x tasks IH]; intros d k.
  - reflexivity.
  - simpl fold_left. rewrite IH, occurrences_cons, bump_lookup.
    pose proof (occurrences_nonneg k tasks) as Hn.
    destruct (String.eqb_spec (key x) k) as [->|Hne].
    + destruct (Z.eqb_spec (DaySummary.occurrences key k tasks) 0) as [->|H0].
      * simpl. f_equal.
      * destruct (Z.eqb_spec (1 + DaySummary.occurrences key k tasks) 0);
          [lia|]. simpl. f_equal. lia.
    + rewrite Z.add_0_l. reflexivity.
Qed.

(** The breakdown holds, for each key, the number of tasks with that key,
    and has no entry for a key no task has. *)
Lemma breakdown_lookup tasks k :
  DaySummary.breakdown key tasks !! k
  = if DaySummary.occurrences key k tasks =? 0 then None
    else Some (DaySummary.occurrences key k tasks).
Proof.
  unfold DaySummary.breakdown. rewrite fold_bump_lookup, lookup_empty.
  reflexivity.
Qed.

End Breakdown.

(** ** The summary aggregator *)

Lemma sum_Z_from (l : list Z) : forall a, fold_left Z.add l a = a + sum_Z l.
Proof.
  unfold sum_Z. induction l as [|x l IH]; intros a; simpl.
  - lia.
  - rewrite (IH (a + x)), (IH (0 + x)). lia.
Qed.

Lemma sum_Z_cons x l : sum_Z (x :: l) = x + sum_Z l.
Proof. unfold sum_Z at 1. simpl. apply sum_Z_from. Qed.

(** Every task is in exactly one status bucket. *)
Lemma status_partition (tasks : list Task.t) :
  len (DaySummary.by_status COMPLETED tasks)
  + len (DaySummary.by_status IN_PROGRESS tasks)
  + len (DaySummary.by_status BLOCKED tasks)
  + (len (DaySummary.by_status NOT_STARTED tasks)
     + len (DaySummary.by_status CANCELLED tasks))
  = len tasks.
Proof.
  unfold len, DaySummary.by_status.
  induction tasks as [|x tasks IH]; [reflexivity|].
  simpl. destruct (Task.status x); simpl; lia.
Qed.

(** The integer fields of the summary, on every list (the empty one too). *)
Lemma from_tasks_counts (tasks : list Task.t) :
  let s := DaySummary.from_tasks tasks in
  DaySummary.total_tasks s = len tasks
  /\ DaySummary.completed_tasks s = len (DaySummary.by_status COMPLETED tasks)
  /\ DaySummary.in_progress_tasks s
     = len (DaySummary.by_status IN_PROGRESS tasks)
  /\ DaySummary.blocked_tasks s = len (DaySummary.by_status BLOCKED tasks)
  /\ DaySummary.total_estimated_minutes s
     = sum_Z (map Task.estimated_minutes tasks)
  /\ DaySummary.total_actual_minutes s = sum_Z (map Task.actual_minutes tasks).
Proof. destruct tasks; repeat split; reflexivity. Qed.

Lemma Category_value_inj c c' : Category_value c = Category_value c' -> c = c'.
Proof. destruct c, c'; simpl; intros H; try reflexivity; discriminate H. Qed.

Lemma Priority_value_inj p p' : Priority_value p = Priority_value p' -> p = p'.
Proof. destruct p, p'; simpl; intros H; try reflexivity; discriminate H. Qed.

Lemma occurrences_0_iff key k (tasks : list Task.t) :
  DaySummary.occurrences key k tasks = 0 <-> forall x, In x tasks -> key x <> k.
Proof.
  induction tasks as [|x tasks IH].
  - split; [intros _ y []|reflexivity].
  - rewrite occurrences_cons.
    pose proof (occurrences_nonneg key k tasks) as Hn.
    destruct (String.eqb_spec (key x) k) as [He|Hne]; split.
    + lia.
    + intros H. exfalso. apply (H x); [left; reflexivity|exact He].
    + intros H0 y [<-|Hy]; [exact Hne|]. apply IH; [lia|exact Hy].
    + intros H. rewrite Z.add_0_l. apply IH. intros y Hy. apply H.
      right. exact Hy.
Qed.

(** The two frequency maps: a key is present exactly when a task has it,
    and then holds the number of such tasks. *)
Lemma from_tasks_breakdowns (tasks : list Task.t) (k : string) :
  let s := DaySummary.from_tasks tasks in
  let cat x := Category_value (Task.category x) in
  let pri x := Priority_value (Task.priority x) in
  DaySummary.categories s !! k
  = (if DaySummary.occurrences cat k tasks =? 0 then None
     else Some (DaySummary.occurrences cat k tasks))
  /\ DaySummary.priorities s !! k
     = (if DaySummary.occurrences pri k tasks =? 0 then None
        else Some (DaySummary.occurrences pri k tasks)).
Proof.
  destruct tasks as [|x tasks].
  - split; apply lookup_empty.
  - split; apply breakdown_lookup.
Qed.

Lemma from_tasks_category_present (tasks : list Task.t) (k : string) :
  is_Some (DaySummary.categories (DaySummary.from_tasks tasks) !! k)
  <-> exists x, In x tasks /\ Category_value (Task.category x) = k.
Proof.
  destruct (from_tasks_breakdowns tasks k) as [-> _].
  set (cat := fun x => Category_value (Task.category x)).
  destruct (Z.eqb_spec (DaySummary.occurrences cat k tasks) 0) as [H0|H0].
  - split; [intros [? ?]; discriminate|].
    intros (x & Hx & Hk). exfalso.
    exact (proj1 (occurrences_0_iff cat k tasks) H0 x Hx Hk).
  - split; [intros _|eauto].
    destruct (List.Exists_dec (fun x => cat x = k) tasks) as [He|Hn].
    + intros x. apply string_dec.
    + apply List.Exists_exists in He. exact He.
    + exfalso. apply H0, occurrences_0_iff. intros x Hx Hk. apply Hn.
      apply List.Exists_exists. eauto.
Qed.

Lemma from_tasks_completion_percentage (tasks : list Task.t) :
  DaySummary.completion_percentage (DaySummary.from_tasks tasks)
  = match tasks with
    | [] => Float64.zero
    | _ =>
        Float64.round1
          (Float64.mul
             (Float64.int_truediv
                (len (DaySummary.by_status COMPLETED tasks)) (len tasks))
             (Float64.of_Z 100))
    end.
Proof. destruct tasks; reflexivity. Qed.

(** The scenario of the specification: three tasks not started, then the
    first one completed. *)
Example scenario_summary :
  let s := DailyTasks.summary Sample.scenario in
  DaySummary.total_tasks s = 3
  /\ DaySummary.completed_tasks s = 0
  /\ DaySummary.completion_percentage s = Float64.zero
  /\ DaySummary.total_estimated_minutes s = 225
  /\ DaySummary.categories s
     = {[ "development" := 1; "admin" := 1; "planning" := 1 ]}
  /\ DaySummary.priorities s = {[ "P1" := 1; "P2" := 1; "P3" := 1 ]}.
Proof. vm_compute. repeat split; reflexivity. Qed.

Example scenario_one_completed :
  let tasks :=
    match DailyTasks.tasks Sample.scenario with
    | first :: rest => Task.mark_completed Sample.clk first :: rest
    | [] => []
    end in
  DaySummary.completed_tasks (DaySummary.from_tasks tasks) = 1
  /\ DaySummary.completion_percentage (DaySummary.from_tasks tasks)
     = Float64.of_tenths false 333.
Proof. vm_compute. split; reflexivity. Qed.

(** C1 (the percentage). With 23 of 80 tasks completed the summary reports
    28.7: [(23 / 80) * 100] is [28.749999999999996] in floats. The
    specification's [round(100 * 23 / 80, 1)] is 28.8, in floats as well as
    on the exact quotient 28.75 with ties to even or away from zero. *)
Theorem from_tasks_percentage_23_of_80 :
  let tasks := Sample.day 23 57 in
  let s := DaySummary.from_tasks tasks in
  DaySummary.total_tasks s = 80
  /\ DaySummary.completed_tasks s = 23
  /\ DaySummary.completion_percentage s = Float64.of_tenths false 287
  /\ DaySummary.completion_percentage_spec 23 80 = Float64.of_tenths false 288
  /\ Float64.round_half_even (10 * (100 * 23)) 80 = 288
  /\ (2 * (10 * (100 * 23)) + 80) / (2 * 80) = 288.
Proof. vm_compute. repeat split; reflexivity. Qed.

(** ** Subtasks and progress *)

(** What the loop of [complete_subtask] does to the list. *)
Lemma mark_subtask_Some subtask_id (l l' : list Subtask.t) :
  Task.mark_subtask subtask_id l = Some l' ->
  exists l1 st l2,
    l = (l1 ++ st :: l2)%list
    /\ Subtask.id st = subtask_id
    /\ ~ In subtask_id (map Subtask.id l1)
    /\ l' = (l1 ++ Subtask.with_completed true st :: l2)%list.
Proof.
  revert l'. induction l as [|st l IH]; intros l' H; [discriminate H|].
  simpl in H. destruct (String.eqb_spec (Subtask.id st) subtask_id) as [He|Hne].
  - injection H as <-. exists [], st, l. repeat split; [exact He|intros []].
  - destruct (Task.mark_subtask subtask_id l) as [l0|]; [|discriminate H].
    injection H as <-.
    destruct (IH l0 eq_refl) as (l1 & st' & l2 & -> & Hid & Hl1 & ->).
    exists (st :: l1), st', l2. repeat split; [exact Hid|].
    intros [H|H]; [contradiction|exact (Hl1 H)].
Qed.

Lemma mark_subtask_None subtask_id (l : list Subtask.t) :
  Task.mark_subtask subtask_id l = None <-> ~ In subtask_id (map Subtask.id l).
Proof.
  induction l as [|st l IH]; simpl.
  - split; [intros _ []|reflexivity].
  - destruct (String.eqb_spec (Subtask.id st) subtask_id) as [He|Hne].
    + split; [discriminate|]. intros H. exfalso. apply H. left. exact He.
    + destruct (Task.mark_subtask subtask_id l); simpl.
      * split; [discriminate|]. intros H. exfalso.
        destruct IH as [_ IH]. 
        assert (Hn : ~ In subtask_id (map Subtask.id l)) by tauto.
        discriminate (IH Hn).
      * split; [|reflexivity]. intros _ [H|H]; [contradiction|].
        destruct IH as [IH _]. exact (IH eq_refl H).
Qed.

(** [complete_subtask] with an id no subtask has: [False], and the task is
    as it was. *)
Lemma complete_subtask_missing clk subtask_id (x : Task.t) :
  ~ In subtask_id (map Subtask.id (Task.subtasks x)) ->
  Task.complete_subtask clk subtask_id x = Some (x, false).
Proof.
  intros H. unfold Task.complete_subtask.
  apply mark_subtask_None in H. rewrite H. reflexivity.
Qed.

(** [complete_subtask] with the id of a subtask, where [p] is the integer
    the float computation gives. If that was the last open subtask and the
    task is not completed yet, the task becomes completed with progress 100
    and [completed_at] set. Otherwise the status and [completed_at] stay
    and the progress is [p]. *)
Lemma complete_subtask_found clk subtask_id (x : Task.t) l p :
  Task.mark_subtask subtask_id (Task.subtasks x) = Some l ->
  Task.percent_of (Task.completed_count l) (len l) = Some p ->
  exists x',
    Task.complete_subtask clk subtask_id x = Some (x', true)
    /\ Task.subtasks x' = l
    /\ if bool_decide (Task.completed_count l = len l)
          && negb (bool_decide (Task.status x = COMPLETED))
       then Task.status x' = COMPLETED
            /\ Task.progress x' = 100
            /\ Task.completed_at x' = Some (clk 1%nat)
       else Task.status x' = Task.status x
            /\ Task.progress x' = p
            /\ Task.completed_at x' = Task.completed_at x.
Proof.
  intros Hl Hp. unfold Task.complete_subtask. rewrite Hl.
  unfold Task._update_progress_from_subtasks.
  cbn [Task.subtasks Task.with_updated_at Task.with_subtasks].
  destruct l as [|st l].
  - apply mark_subtask_Some in Hl as (l1 & st & l2 & _ & _ & _ & Hnil).
    destruct l1; discriminate Hnil.
  - rewrite Hp.
    change (Task.status (Task.with_progress p
              (Task.with_updated_at (clk 0%nat)
                 (Task.with_subtasks (st :: l) x))))
      with (Task.status x).
    destruct (bool_decide (Task.completed_count (st :: l) = len (st :: l))
              && negb (bool_decide (Task.status x = COMPLETED))).
    + eexists. split; [reflexivity|]. repeat split; reflexivity.
    + eexists. split; [reflexivity|]. repeat split; reflexivity.
Qed.

Lemma completed_count_bounds (l : list Subtask.t) :
  0 <= Task.completed_count l <= len l.
Proof.
  unfold Task.completed_count, len.
  pose proof (List.filter_length_le Subtask.completed l). lia.
Qed.

(** [complete_subtask] with the id of a subtask returns [True] (it raises
    nothing for a list below [2^53] subtasks). When every subtask is then
    completed, the task is completed with progress 100, and [completed_at]
    is set if it was not completed before. When some subtask is still open,
    the status and [completed_at] are unchanged and the progress is the
    integer the float computation gives. *)
Lemma complete_subtask_existing clk subtask_id (x : Task.t) :
  In subtask_id (map Subtask.id (Task.subtasks x)) ->
  len (Task.subtasks x) < 2 ^ 53 ->
  exists x' l,
    Task.complete_subtask clk subtask_id x = Some (x', true)
    /\ Task.mark_subtask subtask_id (Task.subtasks x) = Some l
    /\ Task.subtasks x' = l
    /\ (Task.completed_count l = len l ->
        Task.status x' = COMPLETED
        /\ Task.progress x' = 100
        /\ (Task.status x <> COMPLETED ->
            Task.completed_at x' = Some (clk 1%nat))
        /\ (Task.status x = COMPLETED ->
            Task.completed_at x' = Task.completed_at x))
    /\ (Task.completed_count l <> len l ->
        Task.status x' = Task.status x
        /\ Task.completed_at x' = Task.completed_at x
        /\ Task.percent_of (Task.completed_count l) (len l)
           = Some (Task.progress x')
        /\ 0 <= Task.progress x').
Proof.
  intros Hin Hlen.
  destruct (Task.mark_subtask subtask_id (Task.subtasks x)) as [l|] eqn:Hl;
    [|apply mark_subtask_None in Hl; contradiction].
  assert (Hll : len l = len (Task.subtasks x)).
  { destruct (mark_subtask_Some _ _ _ Hl) as (l1 & st & l2 & -> & _ & _ & ->).
    unfold len. rewrite !length_app. reflexivity. }
  assert (Hpos : 0 < len l).
  { destruct (mark_subtask_Some _ _ _ Hl) as (l1 & st & l2 & _ & _ & _ & ->).
    unfold len. rewrite length_app. simpl. lia. }
  pose proof (completed_count_bounds l) as Hc.
  destruct (percent_of_defined (Task.completed_count l) (len l))
    as (p & Hp & Hp0); [lia|lia|].
  destruct (complete_subtask_found clk subtask_id x l p Hl Hp)
    as (x' & Hx' & Hsub & Hcase).
  exists x', l. split; [exact Hx'|]. split; [reflexivity|].
  split; [exact Hsub|].
  case_bool_decide as Hall; cbn [andb] in Hcase.
  - split; [|intros H; contradiction].
    intros _. rewrite Hall in Hp.
    rewrite (percent_of_all (len l)) in Hp by lia. injection Hp as <-.
    case_bool_decide as Hst; cbn [negb] in Hcase.
    + destruct Hcase as (H1 & H2 & H3). rewrite H1, H2, H3, Hst.
      repeat split; try reflexivity. intros H. contradiction.
    + destruct Hcase as (H1 & H2 & H3). rewrite H1, H2, H3.
      repeat split; try reflexivity. intros H. contradiction.
  - split; [intros H; contradiction|].
    intros _. destruct Hcase as (H1 & H2 & H3). rewrite H1, H2, H3.
    repeat split; assumption.
Qed.

(** C2. A task in progress with 50 subtasks, 28 of them completed: after
    [complete_subtask] of the 29th the progress is 57, where
    [floor(100 * 29 / 50)] is 58; [(29 / 50) * 100] is [57.99999999999999]
    in floats and [int] truncates it. *)
Theorem complete_subtask_29_of_50 :
  let x := Sample.task_with_steps IN_PROGRESS 56 28 50 in
  option_map (fun r => (Task.progress (fst r), Task.status (fst r), snd r))
    (Task.complete_subtask Sample.clk (Sample.name "s" 28) x)
  = Some (57, IN_PROGRESS, true)
  /\ 100 * 29 / 50 = 58.
Proof. vm_compute. split; reflexivity. Qed.

(** C9. The same call on a task that is already completed: the status and
    [completed_at] stay, and the progress drops from 100 to 57, again one
    below [floor(100 * 29 / 50)]. *)
Theorem complete_subtask_completed_29_of_50 :
  let x := Sample.task_with_steps COMPLETED 100 28 50 in
  option_map
    (fun r => (Task.progress (fst r), Task.status (fst r),
               Task.completed_at (fst r), snd r))
    (Task.complete_subtask Sample.clk (Sample.name "s" 28) x)
  = Some (57, COMPLETED, Task.completed_at x, true)
  /\ 100 * 29 / 50 = 58.
Proof. vm_compute. split; reflexivity. Qed.

(** ** The daily task set *)

(** C6. [add_task] leaves the summary equal to [from_tasks] of the new task
    list, and so does [remove_task] whenever it returns [True]; when it
    returns [False] nothing was removed and the summary is the old one. *)
Theorem summary_recomputed (d : DailyTasks.t) (task : Task.t) (task_id : string) :
  DailyTasks.summary (DailyTasks.add_task task d)
  = DaySummary.from_tasks (DailyTasks.tasks (DailyTasks.add_task task d))
  /\ DailyTasks.tasks (DailyTasks.add_task task d)
     = (DailyTasks.tasks d ++ [task])%list
  /\ DailyTasks.summary (fst (DailyTasks.remove_task task_id d))
     = (if snd (DailyTasks.remove_task task_id d)
        then DaySummary.from_tasks
               (DailyTasks.tasks (fst (DailyTasks.remove_task task_id d)))
        else DailyTasks.summary d)
  /\ (snd (DailyTasks.remove_task task_id d) = true
      <-> In task_id (DailyTasks.ids d)).
Proof.
  split; [reflexivity|]. split; [reflexivity|].
  unfold DailyTasks.remove_task.
  set (kept := List.filter _ (DailyTasks.tasks d)).
  assert (Hlen : len kept < len (DailyTasks.tasks d)
                 <-> In task_id (DailyTasks.ids d)).
  { unfold kept, len, DailyTasks.ids.
    induction (DailyTasks.tasks d) as [|x l IH]; simpl.
    - split; [lia|intros []].
    - pose proof (List.filter_length_le
        (fun x => negb (String.eqb (Task.id x) task_id)) l) as Hle.
      destruct (String.eqb_spec (Task.id x) task_id) as [He|Hne]; simpl.
      + split; [intros _; left; exact He|lia].
      + split.
        * intros H. right. apply IH. lia.
        * intros [H|H]; [contradiction|]. apply IH in H. lia.
  }
  cbn [DailyTasks.tasks].
  destruct (Z.ltb_spec (len kept) (len (DailyTasks.tasks d))) as [Hlt|Hge];
    cbn [fst snd]; split; try reflexivity.
  - split; [intros _; apply Hlen; exact Hlt|reflexivity].
  - split; [discriminate|]. intros H. apply Hlen in H. lia.
Qed.

Lemma summary_recomputed_witness :
  snd (DailyTasks.remove_task "t2" Sample.scenario) = true
  /\ DailyTasks.summary (fst (DailyTasks.remove_task "t2" Sample.scenario))
     = DaySummary.from_tasks
         (DailyTasks.tasks (fst (DailyTasks.remove_task "t2" Sample.scenario))).
Proof.
  destruct (summary_recomputed Sample.scenario (Sample.task "t9" NOT_STARTED)
              "t2") as (_ & _ & Hsum & Hret).
  assert (Hin : In "t2" (DailyTasks.ids Sample.scenario))
    by (right; left; reflexivity).
  apply Hret in Hin. split; [exact Hin|].
  rewrite Hin in Hsum. exact Hsum.
Defined.

(** C8, as the code has it: [add_task] appends without looking at the ids,
    so the ids stay distinct exactly when they were distinct and the new id
    is not among them. *)
Theorem add_task_unique_ids (d : DailyTasks.t) (task : Task.t) :
  NoDup (DailyTasks.ids (DailyTasks.add_task task d))
  <-> NoDup (DailyTasks.ids d) /\ ~ In (Task.id task) (DailyTasks.ids d).
Proof.
  unfold DailyTasks.ids, DailyTasks.add_task. cbn [DailyTasks.tasks
    DailyTasks.update_summary].
  rewrite map_app. cbn [map].
  rewrite NoDup_app, <- list_elem_of_In.
  split.
  - intros (H1 & H2 & _). split; [exact H1|].
    intros Hin. apply (H2 _ Hin). constructor.
  - intros [H1 H2]. split; [exact H1|]. split; [|apply NoDup_singleton].
    intros x Hx Hx'. apply H2. inversion Hx' as [|? ? ? Hnil]; subst.
    + exact Hx.
    + inversion Hnil.
Qed.

Lemma add_task_unique_ids_witness :
  NoDup (DailyTasks.ids
           (DailyTasks.add_task (Sample.task "t1" NOT_STARTED)
              (DailyTasks.add_task (Sample.task "t0" NOT_STARTED)
                 Sample.empty_day))).
Proof.
  apply (add_task_unique_ids _ (Sample.task "t1" NOT_STARTED)).
  split.
  - apply (add_task_unique_ids Sample.empty_day (Sample.task "t0" NOT_STARTED)).
    split; [constructor|intros []].
  - simpl. intros [H|[]]. discriminate H.
Defined.

(** C8, the claim as stated fails: adding a task whose id is already in the
    set gives two tasks with that id. *)
Lemma add_task_duplicate_id :
  let d := DailyTasks.add_task (Sample.task "t0" NOT_STARTED) Sample.empty_day in
  NoDup (DailyTasks.ids d)
  /\ ~ NoDup (DailyTasks.ids
                (DailyTasks.add_task (Sample.task "t0" IN_PROGRESS) d)).
Proof.
  split.
  - apply NoDup_ListNoDup. repeat constructor. intros [].
  - intros H. apply NoDup_ListNoDup in H. inversion H as [|? ? Hin _].
    apply Hin. left. reflexivity.
Qed.

(** ** Construction, dump and reload *)

Lemma Priority_of_value_value p : Priority_of_value (Priority_value p) = Some p.
Proof. destruct p; reflexivity. Qed.

Lemma TaskStatus_of_value_value s :
  TaskStatus_of_value (TaskStatus_value s) = Some s.
Proof. destruct s; reflexivity. Qed.

Lemma Category_of_value_value c : Category_of_value (Category_value c) = Some c.
Proof. destruct c; reflexivity. Qed.

Lemma TimeBlock_of_value_value b :
  TimeBlock_of_value (TimeBlock_value b) = Some b.
Proof. destruct b; reflexivity. Qed.

Lemma check_length_Some lo hi s :
  (lo <=? str_len s)%nat = true ->
  (str_len s <=? hi)%nat = true ->
  check_length lo hi s = Some s.
Proof. intros H1 H2. unfold check_length. rewrite H1, H2. reflexivity. Qed.

Lemma check_range_Some lo hi v :
  (lo <=? v) = true -> (v <=? hi) = true -> check_range lo hi v = Some v.
Proof. intros H1 H2. unfold check_range. rewrite H1, H2. reflexivity. Qed.

Lemma validate_list_dump {A B} (f : nat -> A -> result B) (dump : B -> A)
    (ok : B -> bool) :
  (forall i b, ok b = true -> f i (dump b) = Ok b) ->
  forall l i, forallb ok l = true -> validate_list f i (map dump l) = Some l.
Proof.
  intros Hf l. induction l as [|b l IH]; intros i Hl; [reflexivity|].
  simpl in Hl. apply andb_prop in Hl as [Hb Hl].
  simpl. rewrite (Hf i b Hb), (IH (S i) Hl). reflexivity.
Qed.

Lemma Subtask_validate_dump new_id (x : Subtask.t) :
  Subtask.is_valid x = true ->
  Subtask.validate new_id (Subtask.model_dump x) = Ok x.
Proof.
  unfold Subtask.is_valid. intros H. apply andb_prop in H as [H1 H2].
  destruct x as [i t c n]. unfold Subtask.validate. simpl in *.
  rewrite (check_length_Some 1 200 t H1 H2). reflexivity.
Qed.

(** A valid task is a fixed point of dump-then-construct: every constraint
    passes and neither validator changes the value it is given. *)
Lemma Task_validate_dump g (x : Task.t) :
  Task.is_valid x = true -> Task.validate g (Task.model_dump x) = Ok x.
Proof.
  unfold Task.is_valid. intros H.
  repeat rewrite andb_true_iff in H.
  destruct H as [[[[[[[[[[[Ht1 Ht2] Hde] Hp0] Hp1] He0] He1] Hac] Hsu] Hc1] Hc2] Hc3].
  destruct x as [i ti de pr st pg ca es ac tb su no sc dp tg cr up co].
  unfold Task.validate. cbn -[check_length check_range Task.validate_progress
    Task.set_completed_at validate_list Priority_of_value TaskStatus_of_value
    Category_of_value TimeBlock_of_value] in *.
  rewrite (check_length_Some 1 200 ti Ht1 Ht2).
  rewrite (check_length_Some 0 1000 de eq_refl Hde).
  rewrite Priority_of_value_value, TaskStatus_of_value_value,
    Category_of_value_value.
  rewrite (check_range_Some 0 100 pg Hp0 Hp1), (check_range_Some 5 480 es He0 He1).
  unfold check_ge. rewrite Hac.
  rewrite (validate_list_dump _ Subtask.model_dump Subtask.is_valid
             (fun i => Subtask_validate_dump _) su 0%nat Hsu).
  assert (Htb : match option_map TimeBlock_value tb with
                | Some s => option_map Some (TimeBlock_of_value s)
                | None => Some None
                end = Some tb).
  { destruct tb as [b|]; simpl; [rewrite TimeBlock_of_value_value|]; reflexivity. }
  rewrite Htb. cbn [option_map default].
  assert (Hpg : Task.validate_progress pg (Some st) = pg).
  { unfold Task.validate_progress.
    destruct st; cbn in *; try reflexivity.
    - apply Z.eqb_eq in Hc2. subst pg. reflexivity.
    - apply Z.eqb_eq in Hc1. subst pg. reflexivity. }
  assert (Hco : Task.set_completed_at (Task.gen_now g) co (Some st) = co).
  { unfold Task.set_completed_at.
    destruct st; cbn in *;
      try (apply bool_decide_eq_true in Hc3; subst co; reflexivity).
    destruct (Task.falsy co); [discriminate|reflexivity]. }
  rewrite Hpg, Hco. reflexivity.
Qed.

Lemma DailyTasks_validate_dump rt (d : DailyTasks.t) :
  DailyTasks.is_valid rt d = true ->
  DailyTasks.validate rt (DailyTasks.model_dump d) = Ok d.
Proof.
  unfold DailyTasks.is_valid. intros H. apply andb_prop in H as [Hd Ht].
  destruct d as [date tasks summary]. unfold DailyTasks.validate.
  cbn -[validate_list] in *. unfold DailyTasks.validate_date_format.
  rewrite Hd.
  rewrite (validate_list_dump _ Task.model_dump Task.is_valid)
    by (try assumption; intros; apply Task_validate_dump; assumption).
  reflexivity.
Qed.

(** C7. Saving a valid set and loading its date gives the set back: the
    same date, the same tasks field by field, the same summary. Valid means
    the constraints and invariants of the data model; the file is written
    ([Disk.Written]). *)
Theorem save_load_round_trip rt (d : Disk.t) (daily_tasks : DailyTasks.t) :
  DailyTasks.is_valid rt daily_tasks = true ->
  _load_local_copy rt (_save_local_copy Disk.Written daily_tasks d)
    (DailyTasks.date daily_tasks)
  = Some daily_tasks.
Proof.
  intros Hv. unfold _load_local_copy, _save_local_copy.
  rewrite lookup_insert_eq, (DailyTasks_validate_dump rt daily_tasks Hv).
  reflexivity.
Qed.

Lemma save_load_round_trip_witness :
  DailyTasks.is_valid Sample.rt Sample.scenario = true
  /\ _load_local_copy Sample.rt
       (_save_local_copy Disk.Written Sample.scenario ∅) "2025-01-29"
     = Some Sample.scenario.
Proof.
  split; [reflexivity|].
  apply (save_load_round_trip Sample.rt ∅ Sample.scenario). reflexivity.
Defined.

(** Without the invariants the round trip can change a task: a completed
    task whose progress is 57 is loaded with progress 100. *)
Example reload_normalises_progress :
  let x := Task.with_progress 57 (Sample.task "t0" COMPLETED) in
  Task.is_valid x = false
  /\ option_map Task.progress
       (match Task.validate (DailyTasks.generated Sample.rt 0) (Task.model_dump x)
        with Ok y => Some y | ValidationError _ => None end)
     = Some 100.
Proof. split; reflexivity. Qed.

(** ** Validation at construction, none at assignment *)

Lemma assemble_spec g d r1 r2 r3 r4 r5 r6 r7 r8 r9 r10 c :
  match Task.assemble g d r1 r2 r3 r4 r5 r6 r7 r8 r9 r10 c with
  | Ok x =>
      r1 = Some (Task.title x) /\ r2 = Some (Task.description x)
      /\ r3 = Some (Task.priority x) /\ r4 = Some (Task.status x)
      /\ r5 = Some (Task.progress x) /\ r6 = Some (Task.category x)
      /\ r7 = Some (Task.estimated_minutes x)
      /\ r8 = Some (Task.actual_minutes x)
      /\ r9 = Some (Task.time_block x) /\ r10 = Some (Task.subtasks x)
  | ValidationError loc =>
      loc = (field_error "title" r1 ++ field_error "description" r2
             ++ field_error "priority" r3 ++ field_error "status" r4
             ++ field_error "progress" r5 ++ field_error "category" r6
             ++ field_error "estimated_minutes" r7
             ++ field_error "actual_minutes" r8
             ++ field_error "time_block" r9 ++ field_error "subtasks" r10)%list
      /\ (r1 = None \/ r2 = None \/ r3 = None \/ r4 = None \/ r5 = None
          \/ r6 = None \/ r7 = None \/ r8 = None \/ r9 = None \/ r10 = None)
  end.
Proof.
  destruct r1; [|split; [reflexivity|tauto]].
  destruct r2; [|split; [reflexivity|tauto]].
  destruct r3; [|split; [reflexivity|tauto]].
  destruct r4; [|split; [reflexivity|tauto]].
  destruct r5; [|split; [reflexivity|tauto]].
  destruct r6; [|split; [reflexivity|tauto]].
  destruct r7; [|split; [reflexivity|tauto]].
  destruct r8; [|split; [reflexivity|tauto]].
  destruct r9; [|split; [reflexivity|tauto]].
  destruct r10; [|split; [reflexivity|tauto]].
  simpl. repeat split; reflexivity.
Qed.


Lemma check_length_None lo hi s :
  ~ (lo <= str_len s <= hi)%nat -> check_length lo hi s = None.
Proof.
  intros H. unfold check_length.
  destruct (Nat.leb_spec lo (str_len s));
    destruct (Nat.leb_spec (str_len s) hi); simpl; try reflexivity.
  exfalso. apply H. split; assumption.
Qed.







(** Lengths count characters, not bytes: a title of 101 accented letters
    takes 202 bytes and is accepted by the constructor and by
    [add_subtask]; a title of 201 of them is refused. *)
Example accented_title_counts_characters :
  String.length (Sample.accented 101) = 202%nat
  /\ str_len (Sample.accented 101) = 101%nat
  /\ is_ok (Task.validate (DailyTasks.generated Sample.rt 0)
              (Sample.draft (Sample.accented 101) None None)) = true
  /\ is_ok (Task.add_subtask "s9" Sample.clk (Sample.accented 101)
              (Sample.task "t0" IN_PROGRESS)) = true
  /\ is_ok (Task.validate (DailyTasks.generated Sample.rt 0)
              (Sample.draft (Sample.accented 201) None None)) = false.
Proof. repeat split; vm_compute; reflexivity. Qed.

(** ** Pushing: insert conflicts *)

Lemma insert_raises fault (tbl : Remote.table) date r msg :
  snd (Remote.insert fault tbl date r) = Remote.Raises msg ->
  fst (Remote.insert fault tbl date r) = tbl.
Proof.
  unfold Remote.insert. destruct fault; [reflexivity|].
  destruct (tbl !! date); [reflexivity|discriminate].
Qed.

Lemma classify_duplicate_key msg :
  contains "duplicate key" (lower msg) = true ->
  ImprovedTaskSync.classify msg
  = ("constraint_violation",
     "Record already exists. Try using UPDATE instead of INSERT.").
Proof. intros H. unfold ImprovedTaskSync.classify. rewrite H. reflexivity. Qed.

(** C3, as the code has it. A push whose insert raises a duplicate-key
    error is not retried as an update: [push_tasks_smart] leaves the remote
    table as it is and reports failure, with error type
    [constraint_violation] and the fix it suggests. When two pushes race on
    a new date (both check, then both write), the first creates the record,
    the second fails in this way, and the table holds the first one's
    record for the date. *)
Theorem push_duplicate_key_not_retried
    (rt : DailyTasks.runtime) (tasks_a tasks_b : list Task.t)
    (target_date : option string) (w : world) :
  (forall fault p msg,
      ImprovedTaskSync.p_record_exists p = false ->
      snd (Remote.insert fault (remote w) (ImprovedTaskSync.p_date p)
             (ImprovedTaskSync.p_payload p)) = Remote.Raises msg ->
      contains "duplicate key" (lower msg) = true ->
      let result := snd (ImprovedTaskSync.push_write fault p w) in
      fst (ImprovedTaskSync.push_write fault p w) = w
      /\ ImprovedTaskSync.success result = false
      /\ ImprovedTaskSync.error result = Some msg
      /\ ImprovedTaskSync.error_type result = Some "constraint_violation"
      /\ ImprovedTaskSync.suggested_fix result
         = Some "Record already exists. Try using UPDATE instead of INSERT.")
  /\ (let date := date_or_today rt target_date in
      DailyTasks.fromisoformat_ok rt date = true ->
      remote w !! date = None ->
      exists w' result_a result_b,
        ImprovedTaskSync.racing_pushes rt tasks_a tasks_b target_date w
        = (w', Some (result_a, result_b))
        /\ ImprovedTaskSync.success result_a = true
        /\ ImprovedTaskSync.success result_b = false
        /\ ImprovedTaskSync.error_type result_b = Some "constraint_violation"
        /\ remote w'
           = <[date := task_data date tasks_a
                         (DailyTasks.update_summary
                            (DailyTasks.Build_t date tasks_a DaySummary.init))]>
               (remote w)).
Proof.
  split.
  - intros fault p msg Hex Hins Hdup. unfold ImprovedTaskSync.push_write.
    rewrite Hex.
    pose proof (insert_raises _ _ _ _ _ Hins) as Htbl.
    destruct (Remote.insert fault (remote w) (ImprovedTaskSync.p_date p)
                (ImprovedTaskSync.p_payload p)) as [tbl response].
    simpl in Hins, Htbl. subst tbl response. cbn [fst snd].
    unfold ImprovedTaskSync.push_failed. cbn.
    rewrite (classify_duplicate_key msg Hdup).
    destruct w. repeat split; reflexivity.
  - intros date Hiso Hnone.
    unfold ImprovedTaskSync.racing_pushes, ImprovedTaskSync.push_prepare.
    fold date. unfold DailyTasks.create, DailyTasks.validate_date_format.
    rewrite Hiso. cbn [remote disk].
    unfold ImprovedTaskSync._record_exists, Remote.select. rewrite Hnone.
    change (0 <? len (@nil Remote.row)) with false.
    unfold ImprovedTaskSync.push_write.
    cbn [ImprovedTaskSync.p_record_exists ImprovedTaskSync.p_date
         ImprovedTaskSync.p_payload ImprovedTaskSync.p_tasks remote disk].
    unfold Remote.insert at 1. rewrite Hnone.
    cbv beta iota. cbn [remote disk].
    unfold Remote.insert. rewrite lookup_insert_eq. cbv beta iota.
    do 3 eexists. split; [reflexivity|].
    repeat split; reflexivity.
Qed.

Lemma push_duplicate_key_not_retried_witness :
  let row := DailyTasks.model_dump Sample.scenario in
  let w := Build_world ∅ {[ "2025-01-29" := row ]} in
  let p := {| ImprovedTaskSync.p_date := "2025-01-29";
              ImprovedTaskSync.p_tasks := [Sample.task "t9" IN_PROGRESS];
              ImprovedTaskSync.p_payload := row;
              ImprovedTaskSync.p_record_exists := false |} in
  (fst (ImprovedTaskSync.push_write None p w) = w
   /\ ImprovedTaskSync.success (snd (ImprovedTaskSync.push_write None p w))
      = false)
  /\ DailyTasks.fromisoformat_ok Sample.rt "2025-01-29" = true
  /\ remote Sample.empty_world !! "2025-01-29" = None
  /\ exists w' result_a result_b,
       ImprovedTaskSync.racing_pushes Sample.rt
         (DailyTasks.tasks Sample.scenario) [Sample.task "t9" IN_PROGRESS]
         (Some "2025-01-29") Sample.empty_world
       = (w', Some (result_a, result_b))
       /\ ImprovedTaskSync.success result_a = true
       /\ ImprovedTaskSync.success result_b = false.
Proof.
  intros row w p.
  destruct (push_duplicate_key_not_retried Sample.rt
              (DailyTasks.tasks Sample.scenario)
              [Sample.task "t9" IN_PROGRESS] (Some "2025-01-29") w)
    as [Hdup _].
  destruct (Hdup None p Remote.duplicate_key_message eq_refl eq_refl eq_refl)
    as (Hw & Hs & _).
  split; [split; assumption|].
  split; [reflexivity|]. split; [reflexivity|].
  destruct (push_duplicate_key_not_retried Sample.rt
              (DailyTasks.tasks Sample.scenario)
              [Sample.task "t9" IN_PROGRESS] (Some "2025-01-29")
              Sample.empty_world) as [_ Hrace].
  destruct (Hrace eq_refl eq_refl) as (w' & ra & rb & H & Ha & Hb & _).
  exists w', ra, rb. repeat split; assumption.
Defined.

(** C3, the claim as stated fails: of two pushes racing on a new date the
    second one's insert hits the record of the first, and that push reports
    failure; nothing is retried. *)
Lemma racing_push_reports_failure :
  let outcome :=
    ImprovedTaskSync.racing_pushes Sample.rt
      (DailyTasks.tasks Sample.scenario) [Sample.task "t9" IN_PROGRESS]
      (Some "2025-01-29") Sample.empty_world in
  option_map
    (fun r => (ImprovedTaskSync.success (fst r),
               ImprovedTaskSync.success (snd r),
               ImprovedTaskSync.error (snd r),
               ImprovedTaskSync.error_type (snd r)))
    (snd outcome)
  = Some (true, false, Some Remote.duplicate_key_message,
          Some "constraint_violation")
  /\ option_map DailyTasks.d_tasks (remote (fst outcome) !! "2025-01-29")
     = Some (Some (map Task.model_dump (DailyTasks.tasks Sample.scenario))).
Proof. vm_compute. split; reflexivity. Qed.

(** With [upsert], as [TaskSync.push_tasks] writes, a push cannot hit an
    insert conflict: it succeeds whether or not the record is there. *)
Lemma push_tasks_upsert_succeeds rt io tasks target_date (w : world) :
  DailyTasks.fromisoformat_ok rt (date_or_today rt target_date) = true ->
  let date := date_or_today rt target_date in
  let out := TaskSync.push_tasks rt io None tasks target_date w in
  TaskSync.success (snd out) = true
  /\ remote (fst out)
     = <[date := task_data date tasks
                   (DailyTasks.update_summary
                      (DailyTasks.Build_t date tasks DaySummary.init))]>
         (remote w).
Proof.
  intros Hiso date out. subst out date. unfold TaskSync.push_tasks.
  unfold DailyTasks.create, DailyTasks.validate_date_format.
  rewrite Hiso. split; reflexivity.
Qed.

(** ** Pulling: fallback to the local copy *)

(** [ImprovedTaskSync.pull_tasks] without the cache: when the query raises
    or returns no row, the local copy is returned if there is one; with no
    local copy and no row, the result is a success with an empty set. *)
Lemma ImprovedTaskSync_pull_fallback rt io response target_date (w : world) :
  DailyTasks.fromisoformat_ok rt target_date = true ->
  (exists msg, response = Remote.Raises msg) \/ response = Remote.Returns [] ->
  let out := ImprovedTaskSync.pull_tasks_on rt io response target_date false w in
  fst out = w
  /\ match _load_local_copy rt (disk w) target_date with
     | Some local_data =>
         ImprovedTaskSync.success (snd out) = true
         /\ ImprovedTaskSync.data (snd out)
            = Some (DailyTasks.model_dump local_data)
     | None =>
         response = Remote.Returns [] ->
         ImprovedTaskSync.success (snd out) = true
         /\ ImprovedTaskSync.data (snd out)
            = Some (DailyTasks.model_dump
                      (DailyTasks.Build_t target_date [] DaySummary.init))
     end.
Proof.
  intros Hiso Hr out. subst out. unfold ImprovedTaskSync.pull_tasks_on.
  destruct Hr as [[msg ->]| ->].
  - unfold ImprovedTaskSync.pull_failed.
    destruct (_load_local_copy rt (disk w) target_date) as [local|].
    + repeat split; reflexivity.
    + split; [reflexivity|discriminate].
  - destruct (_load_local_copy rt (disk w) target_date) as [local|].
    + repeat split; reflexivity.
    + unfold DailyTasks.create, DailyTasks.validate_date_format.
      rewrite Hiso. repeat split; reflexivity.
Qed.

(** [TaskSync.pull_tasks] without the cache reports a failure whenever the
    query returns no data, whatever is on disk. *)
Lemma TaskSync_pull_no_data rt io target_date (w : world) :
  let out :=
    TaskSync.pull_tasks_on rt io (Remote.Returns None) target_date false w in
  fst out = w
  /\ TaskSync.success (snd out) = false
  /\ TaskSync.data (snd out)
     = Some {| DailyTasks.d_date := Some target_date;
               DailyTasks.d_tasks := Some [];
               DailyTasks.d_summary := None |}.
Proof. repeat split; reflexivity. Qed.

(** And when [.single()] raises on the missing row, it reports a failure
    unless a local copy loads. *)
Lemma TaskSync_pull_no_row rt io target_date (w : world) :
  remote w !! date_or_today rt target_date = None ->
  _load_local_copy rt (disk w) (date_or_today rt target_date) = None ->
  let out := TaskSync.pull_tasks rt io None target_date false w in
  fst out = w
  /\ TaskSync.success (snd out) = false
  /\ TaskSync.error (snd out) = Some Remote.no_rows_message.
Proof.
  intros Hrow Hlocal out. subst out.
  unfold TaskSync.pull_tasks, TaskSync.pull_tasks_on, Remote.single.
  rewrite Hrow. unfold TaskSync.pull_failed. rewrite Hlocal.
  repeat split; reflexivity.
Qed.

(** What [TaskSync.pull_tasks] does right: when the query raises, the
    local copy is returned if it loads. *)
Lemma TaskSync_pull_raises rt io msg target_date (w : world) local_data :
  _load_local_copy rt (disk w) target_date = Some local_data ->
  let out :=
    TaskSync.pull_tasks_on rt io (Remote.Raises msg) target_date false w in
  fst out = w
  /\ TaskSync.success (snd out) = true
  /\ TaskSync.data (snd out) = Some (DailyTasks.model_dump local_data).
Proof.
  intros Hl. cbn. unfold TaskSync.pull_failed. rewrite Hl.
  repeat split; reflexivity.
Qed.

(** C4. [TaskSync.pull_tasks] with [use_cache=False]: for a date with no
    remote record and no local copy the result is a failure, where the
    claim has a success with an empty set; and when the query returns no
    data, the local copy of the scenario is not returned. On the same
    inputs [ImprovedTaskSync.pull_tasks] returns a success, with the empty
    set and with the local copy. *)
Theorem pull_tasks_no_record_is_failure :
  let date := "2025-01-29" in
  let unwritten := TaskSync.pull_tasks Sample.rt Disk.Written None (Some date)
                     false Sample.empty_world in
  let no_data := TaskSync.pull_tasks_on Sample.rt Disk.Written
                   (Remote.Returns None) date false Sample.cached_world in
  let improved_unwritten :=
    ImprovedTaskSync.pull_tasks Sample.rt Disk.Written None (Some date) false
      Sample.empty_world in
  let improved_no_data :=
    ImprovedTaskSync.pull_tasks Sample.rt Disk.Written None (Some date) false
      Sample.cached_world in
  TaskSync.success (snd unwritten) = false
  /\ TaskSync.data (snd unwritten) = None
  /\ _load_local_copy Sample.rt (disk Sample.cached_world) date
     = Some Sample.scenario
  /\ TaskSync.success (snd no_data) = false
  /\ option_map DailyTasks.d_tasks (TaskSync.data (snd no_data))
     = Some (Some [])
  /\ ImprovedTaskSync.success (snd improved_unwritten) = true
  /\ option_map DailyTasks.d_tasks (ImprovedTaskSync.data (snd improved_unwritten))
     = Some (Some [])
  /\ ImprovedTaskSync.success (snd improved_no_data) = true
  /\ ImprovedTaskSync.data (snd improved_no_data)
     = Some (DailyTasks.model_dump Sample.scenario).
Proof. vm_compute. repeat split; reflexivity. Qed.

(** ** Updating one task *)

Section UpdateTaskProperties.

Context {V : Type}.
Variable hasattr : string -> bool.
Variable setattr : Task.t -> string -> V -> Remote.reply Task.t.

Lemma apply_updates_filter updates : forall task,
  TaskSync.apply_updates hasattr setattr task updates
  = TaskSync.apply_updates hasattr setattr task
      (List.filter (fun kv => hasattr (fst kv)) updates).
Proof.
  induction updates as [|[key value] updates IH]; intros task; [reflexivity|].
  simpl.
  destruct (hasattr key) eqn:Hk; simpl.
  - rewrite Hk. destruct (setattr task key value); [reflexivity|apply IH].
  - apply IH.
Qed.

Lemma apply_updates_unknown updates task :
  Forall (fun kv => hasattr (fst kv) = false) updates ->
  TaskSync.apply_updates hasattr setattr task updates = Remote.Returns task.
Proof.
  induction 1 as [|[key value] updates Hk _ IH]; [reflexivity|].
  simpl in *. rewrite Hk. exact IH.
Qed.

Lemma update_first_filter now task_id updates tasks :
  TaskSync.update_first hasattr setattr now task_id updates tasks
  = TaskSync.update_first hasattr setattr now task_id
      (List.filter (fun kv => hasattr (fst kv)) updates) tasks.
Proof.
  induction tasks as [|task tasks IH]; [reflexivity|].
  simpl. rewrite IH, <- apply_updates_filter. reflexivity.
Qed.

(** With no known key, the first task with the id is stamped and nothing
    else changes. *)
Lemma update_first_unknown now task_id updates tasks :
  Forall (fun kv => hasattr (fst kv) = false) updates ->
  In task_id (map Task.id tasks) ->
  exists l1 task l2,
    tasks = (l1 ++ task :: l2)%list
    /\ Task.id task = task_id
    /\ ~ In task_id (map Task.id l1)
    /\ TaskSync.update_first hasattr setattr now task_id updates tasks
       = Remote.Returns (Some (l1 ++ Task.with_updated_at now task :: l2)%list).
Proof.
  intros Hu. induction tasks as [|task tasks IH]; intros Hin; [destruct Hin|].
  simpl. destruct (String.eqb_spec (Task.id task) task_id) as [He|Hne].
  - exists [], task, tasks. rewrite (apply_updates_unknown _ _ Hu).
    repeat split; [exact He|intros []].
  - destruct Hin as [Hin|Hin]; [contradiction|].
    destruct (IH Hin) as (l1 & t & l2 & -> & Hid & Hl1 & ->).
    exists (task :: l1), t, l2. repeat split; [exact Hid|].
    intros [H|H]; [contradiction|exact (Hl1 H)].
Qed.

(** C10. [update_task] applies a key only under [hasattr]: the outcome,
    result and stores, is that of the same call without the keys that
    name no attribute of the task. When no key names one and the task is
    found, the call is the push of the pulled tasks with nothing but the
    [updated_at] of that task changed, so it reports what that push
    reports. *)
Theorem update_task_skips_unknown_keys
    (rt : DailyTasks.runtime) (io_pull io_push : Disk.write)
    (fault_pull fault_push : option string) (now task_id : string)
    (updates : list (string * V)) (target_date : option string)
    (w : world) :
  TaskSync.update_task hasattr setattr rt io_pull io_push fault_pull
    fault_push now task_id updates target_date w
  = TaskSync.update_task hasattr setattr rt io_pull io_push fault_pull
      fault_push now task_id
      (List.filter (fun kv => hasattr (fst kv)) updates) target_date w
  /\ (Forall (fun kv => hasattr (fst kv) = false) updates ->
      forall w1 result d daily_tasks,
        TaskSync.pull_tasks rt io_pull fault_pull
          (Some (date_or_today rt target_date)) true w = (w1, result) ->
        TaskSync.success result = true ->
        TaskSync.data result = Some d ->
        DailyTasks.validate rt d = Ok daily_tasks ->
        In task_id (DailyTasks.ids daily_tasks) ->
        exists l1 task l2,
          DailyTasks.tasks daily_tasks = (l1 ++ task :: l2)%list
          /\ Task.id task = task_id
          /\ ~ In task_id (map Task.id l1)
          /\ TaskSync.update_task hasattr setattr rt io_pull io_push
               fault_pull fault_push now task_id updates target_date w
             = TaskSync.push_tasks rt io_push fault_push
                 (l1 ++ Task.with_updated_at now task :: l2)%list
                 (Some (date_or_today rt target_date)) w1).
Proof.
  split.
  - unfold TaskSync.update_task.
    destruct (TaskSync.pull_tasks rt io_pull fault_pull
                (Some (date_or_today rt target_date)) true w) as [w1 result].
    destruct (negb (TaskSync.success result)); [reflexivity|].
    destruct (TaskSync.data result) as [d|]; [|reflexivity].
    destruct (DailyTasks.validate rt d) as [daily_tasks|loc]; [|reflexivity].
    rewrite update_first_filter. reflexivity.
  - intros Hu w1 result d daily_tasks Hpull Hs Hd Hv Hin.
    destruct (update_first_unknown now task_id updates
                (DailyTasks.tasks daily_tasks) Hu Hin)
      as (l1 & task & l2 & Htasks & Hid & Hl1 & Hup).
    exists l1, task, l2. repeat split; try assumption.
    unfold TaskSync.update_task. rewrite Hpull, Hs, Hd, Hv, Hup.
    reflexivity.
Qed.

End UpdateTaskProperties.

Lemma update_task_skips_unknown_keys_witness :
  let updates := [("colour", 3); ("bogus", 7)] in
  let out :=
    TaskSync.update_task Sample.hasattr Sample.setattr Sample.rt Disk.Written
      Disk.Written None None "2025-01-29T11:00:00" "t2" updates
      (Some "2025-01-29") Sample.cached_world in
  Forall (fun kv : string * Z => Sample.hasattr (fst kv) = false) updates
  /\ TaskSync.success (snd out) = true
  /\ exists l1 task l2,
       DailyTasks.tasks Sample.scenario = (l1 ++ task :: l2)%list
       /\ Task.id task = "t2"
       /\ out
          = TaskSync.push_tasks Sample.rt Disk.Written None
              (l1 ++ Task.with_updated_at "2025-01-29T11:00:00" task :: l2)%list
              (Some "2025-01-29") Sample.cached_world.
Proof.
  intros updates out.
  assert (Hu : Forall (fun kv : string * Z => Sample.hasattr (fst kv) = false)
                 updates) by (repeat constructor).
  split; [exact Hu|]. split; [reflexivity|].
  destruct (update_task_skips_unknown_keys Sample.hasattr Sample.setattr
              Sample.rt Disk.Written Disk.Written None None
              "2025-01-29T11:00:00" "t2" updates (Some "2025-01-29")
              Sample.cached_world) as [_ H].
  destruct (H Hu Sample.cached_world
              (TaskSync.loaded_from_cache " for 2025-01-29" Sample.scenario)
              (DailyTasks.model_dump Sample.scenario) Sample.scenario
              eq_refl eq_refl eq_refl eq_refl)
    as (l1 & task & l2 & Ht & Hid & _ & Hout).
  - simpl. auto.
  - exists l1, task, l2. repeat split; assumption.
Defined.


(** * Further properties of the entity model *)

Lemma is_valid_in_range (x : Task.t) :
  Task.is_valid x = true -> Task.in_range x = true.
Proof.
  unfold Task.is_valid, Task.in_range. intros H.
  do 3 (apply andb_prop in H as [H _]). exact H.
Qed.

Lemma in_range_bounds (x : Task.t) :
  Task.in_range x = true ->
  0 <= Task.progress x <= 100
  /\ 5 <= Task.estimated_minutes x <= 480
  /\ 0 <= Task.actual_minutes x
  /\ forallb Subtask.is_valid (Task.subtasks x) = true.
Proof.
  unfold Task.in_range. intros H. repeat rewrite andb_true_iff in H.
  destruct H as [[[[[[_ Hp0] Hp1] He0] He1] Hac] Hsu].
  repeat split; try lia; assumption.
Qed.

Lemma filter_length_Permutation {A} (f : A -> bool) (l l' : list A) :
  Permutation l l' -> length (List.filter f l) = length (List.filter f l').
Proof.
  induction 1 as [|x l l' _ IH|x y l|l l' l'' _ IH1 _ IH2]; simpl.
  - reflexivity.
  - destruct (f x); simpl; congruence.
  - destruct (f x), (f y); reflexivity.
  - congruence.
Qed.

Lemma sum_Z_Permutation (l l' : list Z) :
  Permutation l l' -> sum_Z l = sum_Z l'.
Proof.
  induction 1 as [|x l l' _ IH|x y l|l l' l'' _ IH1 _ IH2].
  - reflexivity.
  - rewrite !sum_Z_cons. lia.
  - rewrite !sum_Z_cons. lia.
  - congruence.
Qed.

Lemma sum_Z_bounds (f : Task.t -> Z) lo hi (tasks : list Task.t) :
  Forall (fun x => lo <= f x <= hi) tasks ->
  lo * len tasks <= sum_Z (map f tasks) <= hi * len tasks.
Proof.
  unfold len. induction 1 as [|x l Hx _ IH]; simpl map.
  - cbn. lia.
  - rewrite sum_Z_cons. simpl length. lia.
Qed.

Lemma sum_Z_nonneg (f : Task.t -> Z) (tasks : list Task.t) :
  Forall (fun x => 0 <= f x) tasks -> 0 <= sum_Z (map f tasks).
Proof.
  induction 1 as [|x l Hx _ IH]; simpl map; [cbn; lia|].
  rewrite sum_Z_cons. lia.
Qed.

Lemma forallb_in_range (tasks : list Task.t) :
  forallb Task.in_range tasks = true ->
  Forall (fun x => Task.in_range x = true) tasks.
Proof.
  intros H. apply Forall_forall. intros x Hx.
  rewrite forallb_forall in H. apply H. apply list_elem_of_In. exact Hx.
Qed.

(** X1. The integer fields of the summary: the total is the number of
    tasks, every task is counted in exactly one status, so the three
    reported counts never exceed the total; for tasks within their field
    ranges the estimated minutes lie between 5 and 480 per task and the
    actual minutes are not negative. *)
Theorem from_tasks_counts_and_minutes (tasks : list Task.t) :
  let s := DaySummary.from_tasks tasks in
  DaySummary.total_tasks s = len tasks
  /\ DaySummary.completed_tasks s + DaySummary.in_progress_tasks s
     + DaySummary.blocked_tasks s
     + len (DaySummary.by_status NOT_STARTED tasks)
     + len (DaySummary.by_status CANCELLED tasks)
     = DaySummary.total_tasks s
  /\ 0 <= DaySummary.completed_tasks s
  /\ 0 <= DaySummary.in_progress_tasks s
  /\ 0 <= DaySummary.blocked_tasks s
  /\ DaySummary.completed_tasks s + DaySummary.in_progress_tasks s
     + DaySummary.blocked_tasks s <= DaySummary.total_tasks s
  /\ (forallb Task.in_range tasks = true ->
      5 * DaySummary.total_tasks s <= DaySummary.total_estimated_minutes s
      /\ DaySummary.total_estimated_minutes s <= 480 * DaySummary.total_tasks s
      /\ 0 <= DaySummary.total_actual_minutes s).
Proof.
  intros s.
  destruct (from_tasks_counts tasks) as (Ht & Hc & Hi & Hb & He & Ha).
  fold s in Ht, Hc, Hi, Hb, He, Ha.
  pose proof (status_partition tasks) as Hp.
  rewrite Ht, Hc, Hi, Hb, He, Ha.
  assert (Hn : forall st, 0 <= len (DaySummary.by_status st tasks))
    by (intros st; unfold len; lia).
  pose proof (Hn COMPLETED). pose proof (Hn IN_PROGRESS).
  pose proof (Hn BLOCKED). pose proof (Hn NOT_STARTED).
  pose proof (Hn CANCELLED).
  do 6 (split; [lia|]).
  intros Hr. apply forallb_in_range in Hr.
  assert (Hb' : Forall (fun x => 5 <= Task.estimated_minutes x <= 480) tasks).
  { eapply List.Forall_impl; [|exact Hr]. intros x Hx. apply in_range_bounds, Hx. }
  assert (Ha' : Forall (fun x => 0 <= Task.actual_minutes x) tasks).
  { eapply List.Forall_impl; [|exact Hr]. intros x Hx. apply in_range_bounds, Hx. }
  pose proof (sum_Z_bounds Task.estimated_minutes 5 480 tasks Hb').
  pose proof (sum_Z_nonneg Task.actual_minutes tasks Ha').
  repeat split; lia.
Qed.

Lemma from_tasks_counts_and_minutes_witness :
  let s := DailyTasks.summary Sample.scenario in
  forallb Task.in_range (DailyTasks.tasks Sample.scenario) = true
  /\ 5 * DaySummary.total_tasks s <= DaySummary.total_estimated_minutes s
  /\ DaySummary.total_estimated_minutes s <= 480 * DaySummary.total_tasks s.
Proof.
  split; [reflexivity|].
  destruct (from_tasks_counts_and_minutes (DailyTasks.tasks Sample.scenario))
    as (_ & _ & _ & _ & _ & _ & H).
  destruct (H eq_refl) as (H1 & H2 & _). split; assumption.
Defined.

Lemma occurrences_Permutation key k (l l' : list Task.t) :
  Permutation l l' ->
  DaySummary.occurrences key k l = DaySummary.occurrences key k l'.
Proof.
  intros H. unfold DaySummary.occurrences, len.
  rewrite (filter_length_Permutation _ l l' H). reflexivity.
Qed.

Lemma breakdown_Permutation key (l l' : list Task.t) :
  Permutation l l' -> DaySummary.breakdown key l = DaySummary.breakdown key l'.
Proof.
  intros H. apply map_eq. intros k.
  rewrite !breakdown_lookup, (occurrences_Permutation key k l l' H).
  reflexivity.
Qed.

(** X2. The summary does not depend on the order of the tasks: two lists
    with the same tasks in another order have the same summary, field by
    field. *)
Theorem from_tasks_order_independent (tasks tasks' : list Task.t) :
  Permutation tasks tasks' ->
  DaySummary.from_tasks tasks = DaySummary.from_tasks tasks'.
Proof.
  intros H.
  destruct tasks as [|x l].
  { apply Permutation_nil in H. subst tasks'. reflexivity. }
  destruct tasks' as [|x' l'].
  { apply Permutation_sym, Permutation_nil in H. discriminate H. }
  unfold DaySummary.from_tasks, DaySummary.completion, DaySummary.by_status, len.
  rewrite (Permutation_length H).
  rewrite !(filter_length_Permutation _ _ _ H).
  rewrite (sum_Z_Permutation _ _ (Permutation_map Task.estimated_minutes H)).
  rewrite (sum_Z_Permutation _ _ (Permutation_map Task.actual_minutes H)).
  rewrite (breakdown_Permutation
             (fun x => Category_value (Task.category x)) _ _ H).
  rewrite (breakdown_Permutation
             (fun x => Priority_value (Task.priority x)) _ _ H).
  reflexivity.
Qed.

Lemma from_tasks_order_independent_witness :
  DaySummary.from_tasks (rev (DailyTasks.tasks Sample.scenario))
  = DailyTasks.summary Sample.scenario.
Proof.
  symmetry.
  apply (from_tasks_order_independent (DailyTasks.tasks Sample.scenario)).
  apply Permutation_rev.
Defined.
Lemma default_count (n : Z) :
  default 0 (if n =? 0 then None else Some n) = n.
Proof. destruct (Z.eqb_spec n 0); simpl; congruence. Qed.

Lemma category_occurrences_total (tasks : list Task.t) :
  sum_Z (map (fun c => DaySummary.occurrences
                         (fun x => Category_value (Task.category x))
                         (Category_value c) tasks) all_categories)
  = len tasks.
Proof.
  unfold all_categories, sum_Z. cbn [map fold_left].
  induction tasks as [|x l IH]; [reflexivity|].
  rewrite !occurrences_cons.
  replace (len (x :: l)) with (1 + len l) by (unfold len; simpl length; lia).
  rewrite <- IH. destruct (Task.category x); cbn [Category_value]; simpl; lia.
Qed.

Lemma priority_occurrences_total (tasks : list Task.t) :
  sum_Z (map (fun p => DaySummary.occurrences
                         (fun x => Priority_value (Task.priority x))
                         (Priority_value p) tasks) all_priorities)
  = len tasks.
Proof.
  unfold all_priorities, sum_Z. cbn [map fold_left].
  induction tasks as [|x l IH]; [reflexivity|].
  rewrite !occurrences_cons.
  replace (len (x :: l)) with (1 + len l) by (unfold len; simpl length; lia).
  rewrite <- IH. destruct (Task.priority x); cbn [Priority_value]; simpl; lia.
Qed.

(** X3. The two frequency maps of the summary account for every task
    once: the counts over the categories add up to the total, and so do the
    counts over the priorities; every entry is a positive count under the
    value of an enumeration member. *)
Theorem from_tasks_breakdown_totals (tasks : list Task.t) :
  let s := DaySummary.from_tasks tasks in
  sum_Z (map (fun c => default 0 (DaySummary.categories s !! Category_value c))
           all_categories) = DaySummary.total_tasks s
  /\ sum_Z (map (fun p => default 0 (DaySummary.priorities s !! Priority_value p))
             all_priorities) = DaySummary.total_tasks s
  /\ (forall k v, DaySummary.categories s !! k = Some v ->
        0 < v /\ exists c, Category_value c = k)
  /\ (forall k v, DaySummary.priorities s !! k = Some v ->
        0 < v /\ exists p, Priority_value p = k).
Proof.
  intros s.
  destruct (from_tasks_counts tasks) as (Ht & _). fold s in Ht. rewrite Ht.
  assert (Hc : forall k, DaySummary.categories s !! k
             = if DaySummary.occurrences
                    (fun x => Category_value (Task.category x)) k tasks =? 0
               then None
               else Some (DaySummary.occurrences
                            (fun x => Category_value (Task.category x)) k tasks))
    by (intros k; apply from_tasks_breakdowns).
  assert (Hp : forall k, DaySummary.priorities s !! k
             = if DaySummary.occurrences
                    (fun x => Priority_value (Task.priority x)) k tasks =? 0
               then None
               else Some (DaySummary.occurrences
                            (fun x => Priority_value (Task.priority x)) k tasks))
    by (intros k; apply from_tasks_breakdowns).
  split; [|split; [|split]].
  - rewrite <- (category_occurrences_total tasks). f_equal.
    apply map_ext. intros c. rewrite Hc. apply default_count.
  - rewrite <- (priority_occurrences_total tasks). f_equal.
    apply map_ext. intros c. rewrite Hp. apply default_count.
  - intros k v Hk. rewrite Hc in Hk.
    pose proof (occurrences_nonneg
                  (fun x => Category_value (Task.category x)) k tasks) as Hn.
    destruct (Z.eqb_spec (DaySummary.occurrences
                (fun x => Category_value (Task.category x)) k tasks) 0)
      as [H0|H0]; [discriminate|].
    injection Hk as <-. split; [lia|].
    destruct (proj1 (from_tasks_category_present tasks k)) as (x & _ & Hx).
    + fold s. rewrite Hc.
      destruct (Z.eqb_spec (DaySummary.occurrences
                  (fun x => Category_value (Task.category x)) k tasks) 0);
        [contradiction|eauto].
    + eauto.
  - intros k v Hk. rewrite Hp in Hk.
    pose proof (occurrences_nonneg
                  (fun x => Priority_value (Task.priority x)) k tasks) as Hn.
    destruct (Z.eqb_spec (DaySummary.occurrences
                (fun x => Priority_value (Task.priority x)) k tasks) 0)
      as [H0|H0]; [discriminate|].
    injection Hk as <-. split; [lia|].
    destruct (List.Exists_dec
                (fun x => Priority_value (Task.priority x) = k) tasks)
      as [He|Hne]; [intros x; apply string_dec| |].
    + apply List.Exists_exists in He as (x & _ & Hx). eauto.
    + exfalso. apply H0, occurrences_0_iff. intros x Hx Hk. apply Hne.
      apply List.Exists_exists. eauto.
Qed.

Lemma from_tasks_breakdown_totals_witness :
  0 < 1 /\ exists c, Category_value c = "development".
Proof.
  destruct (from_tasks_breakdown_totals (DailyTasks.tasks Sample.scenario))
    as (_ & _ & H & _).
  apply (H "development" 1). reflexivity.
Defined.

(** ** The methods of a task *)

Lemma mark_subtask_fresh subtask_id (l : list Subtask.t) (st : Subtask.t) :
  ~ In subtask_id (map Subtask.id l) ->
  Subtask.id st = subtask_id ->
  Task.mark_subtask subtask_id (l ++ [st])
  = Some (l ++ [Subtask.with_completed true st])%list.
Proof.
  intros Hn Hid. induction l as [|a l IH]; cbn [Task.mark_subtask app].
  - rewrite (proj2 (String.eqb_eq _ _) Hid). reflexivity.
  - cbn [map In] in Hn.
    destruct (String.eqb_spec (Subtask.id a) subtask_id) as [E|E];
      [exfalso; apply Hn; left; exact E|].
    rewrite IH by (intros H; apply Hn; right; exact H). reflexivity.
Qed.

Lemma completed_count_app (l1 l2 : list Subtask.t) :
  Task.completed_count (l1 ++ l2)
  = Task.completed_count l1 + Task.completed_count l2.
Proof.
  unfold Task.completed_count, len.
  rewrite List.filter_app, length_app. lia.
Qed.

Lemma completed_count_all (l : list Subtask.t) :
  Task.completed_count l = len l <-> forallb Subtask.completed l = true.
Proof.
  induction l as [|a l IH]; [split; reflexivity|].
  pose proof (completed_count_bounds l) as Hb.
  change (a :: l) with ([a] ++ l)%list at 1 2.
  rewrite completed_count_app. unfold len in *. rewrite length_app.
  cbn [forallb]. unfold Task.completed_count at 1. cbn [List.filter].
  destruct (Subtask.completed a); cbn [length andb len]; unfold len.
  - rewrite <- IH. unfold len. simpl length. lia.
  - split; [simpl length; lia|discriminate].
Qed.

(** X4. Whatever state a task with fields in range is in, after
    [mark_completed] it satisfies every constraint and invariant of the data
    model: it is completed at 100 percent with the completion time read
    from the clock, and it survives a dump and a reconstruction unchanged. *)
Theorem mark_completed_establishes_invariants
    (g : Task.generated) (clk : Task.clock) (x : Task.t) :
  Task.in_range x = true ->
  clk 0%nat <> "" ->
  let y := Task.mark_completed clk x in
  Task.is_valid y = true
  /\ Task.status y = COMPLETED
  /\ Task.progress y = 100
  /\ Task.completed_at y = Some (clk 0%nat)
  /\ Task.updated_at y = clk 1%nat
  /\ Task.validate g (Task.model_dump y) = Ok y.
Proof.
  intros Hr Hclk y.
  assert (Hv : Task.is_valid y = true).
  { destruct x as [i ti de pr st pg ca es ac tb su no sc dp tg cr up co].
    unfold Task.in_range in Hr. unfold Task.is_valid, y, Task.mark_completed.
    cbn -[Nat.leb Z.leb str_len forallb] in *.
    repeat rewrite andb_true_iff in Hr.
    destruct Hr as [[[[[[[[Ht1 Ht2] Hde] _] _] He0] He1] Hac] Hsu].
    rewrite Ht1, Ht2, Hde, He0, He1, Hac, Hsu. cbn.
    destruct (String.eqb_spec (clk 0%nat) ""); [contradiction|reflexivity]. }
  repeat split; try assumption. apply Task_validate_dump, Hv.
Qed.

Lemma mark_completed_establishes_invariants_witness :
  Task.is_valid
    (Task.mark_completed Sample.clk
       (Task.with_progress 40 (Sample.task "t0" BLOCKED))) = true.
Proof.
  apply (mark_completed_establishes_invariants
           (DailyTasks.generated Sample.rt 0) Sample.clk
           (Task.with_progress 40 (Sample.task "t0" BLOCKED))).
  - reflexivity.
  - discriminate.
Defined.

(** X5. [add_subtask] checks the title as the [Subtask] constructor does:
    a title that is empty or longer than 200 characters raises and adds
    nothing; any other title appends one open subtask under the generated
    id, which is returned. Progress and status are not recomputed, so a
    completed task stays completed at its progress with an open subtask. *)
Theorem add_subtask_checks_title
    (new_id : string) (clk : Task.clock) (title : string) (x : Task.t) :
  (~ (1 <= str_len title <= 200)%nat ->
   rejects "title" (Task.add_subtask new_id clk title x))
  /\ ((1 <= str_len title <= 200)%nat ->
      exists x',
        Task.add_subtask new_id clk title x = Ok (x', new_id)
        /\ Task.subtasks x'
           = (Task.subtasks x ++ [Subtask.Build_t new_id title false None])%list
        /\ Task.status x' = Task.status x
        /\ Task.progress x' = Task.progress x
        /\ Task.completed_at x' = Task.completed_at x
        /\ (Task.is_valid x = true -> Task.is_valid x' = true)).
Proof.
  unfold Task.add_subtask, Subtask.validate.
  cbn [Subtask.d_title Subtask.d_id Subtask.d_completed Subtask.d_notes
       mbind option_bind default].
  split.
  - intros Hn. change (Some title ≫= check_length 1 200)
      with (check_length 1 200 title).
    rewrite (check_length_None 1 200 title Hn).
    exists ["title"]. split; [reflexivity|left; reflexivity].
  - intros [H1 H2]. change (Some title ≫= check_length 1 200)
      with (check_length 1 200 title).
    assert (Hl1 : (1 <=? str_len title)%nat = true)
      by (apply Nat.leb_le; exact H1).
    assert (Hl2 : (str_len title <=? 200)%nat = true)
      by (apply Nat.leb_le; exact H2).
    rewrite (check_length_Some 1 200 title Hl1 Hl2).
    eexists. split; [reflexivity|].
    destruct x as [i ti de pr st pg ca es ac tb su no sc dp tg cr up co].
    do 4 (split; [reflexivity|]).
    unfold Task.is_valid.
    cbn -[Nat.leb Z.leb str_len forallb].
    intros Hv. repeat rewrite andb_true_iff in Hv.
    destruct Hv as [[[[[[[[[Hf Hp0] Hp1] He0] He1] Hac] Hsu] Hc1] Hc2] Hc3].
    rewrite forallb_app, Hsu. cbn [forallb]. unfold Subtask.is_valid.
    cbn [Subtask.title]. rewrite Hl1, Hl2.
    destruct Hf as [[-> ->] ->].
    rewrite Hp0, Hp1, He0, He1, Hac, Hc1, Hc2, Hc3. reflexivity.
Qed.

Lemma add_subtask_checks_title_witness :
  rejects "title"
    (Task.add_subtask "s9" Sample.clk "" (Sample.task "t0" COMPLETED))
  /\ exists x',
       Task.add_subtask "s9" Sample.clk "review" (Sample.task "t0" COMPLETED)
       = Ok (x', "s9")
       /\ Task.status x' = COMPLETED
       /\ Task.progress x' = 100
       /\ Task.is_valid x' = true
       /\ exists x'',
            Task.add_subtask "s9" Sample.clk (Sample.accented 101) x'
            = Ok (x'', "s9").
Proof.
  destruct (add_subtask_checks_title "s9" Sample.clk ""
              (Sample.task "t0" COMPLETED)) as [Hrej _].
  destruct (add_subtask_checks_title "s9" Sample.clk "review"
              (Sample.task "t0" COMPLETED)) as [_ Hok].
  split.
  - apply Hrej. simpl. lia.
  - destruct Hok as (x' & E & _ & Hs & Hp & _ & Hv); [simpl; lia|].
    exists x'. repeat split; try assumption; [apply Hv; reflexivity|].
    destruct (add_subtask_checks_title "s9" Sample.clk (Sample.accented 101) x')
      as [_ Hacc].
    destruct Hacc as (x'' & E' & _).
    + split; apply Nat.leb_le; vm_compute; reflexivity.
    + exists x''. exact E'.
Defined.

(** X6. A subtask that was added can be completed under the id that
    [add_subtask] returned, provided that id is not the id of an earlier
    subtask: the call returns [True], only the new subtask changes, and if
    every earlier subtask was completed (in particular if there was none)
    the task is completed at 100 percent. *)
Theorem add_subtask_then_complete
    (new_id : string) (clk clk' : Task.clock) (title : string)
    (x x1 : Task.t) (subtask_id : string) :
  Task.add_subtask new_id clk title x = Ok (x1, subtask_id) ->
  ~ In new_id (map Subtask.id (Task.subtasks x)) ->
  len (Task.subtasks x) < 2 ^ 53 - 1 ->
  exists x2,
    Task.complete_subtask clk' subtask_id x1 = Some (x2, true)
    /\ Task.subtasks x2
       = (Task.subtasks x ++ [Subtask.Build_t new_id title true None])%list
    /\ (forallb Subtask.completed (Task.subtasks x) = true ->
        Task.status x2 = COMPLETED /\ Task.progress x2 = 100).
Proof.
  intros Hadd Hfresh Hlen.
  unfold Task.add_subtask, Subtask.validate in Hadd.
  cbn [Subtask.d_title Subtask.d_id Subtask.d_completed Subtask.d_notes
       default] in Hadd.
  change (Some title ≫= check_length 1 200)
    with (check_length 1 200 title) in Hadd.
  unfold check_length in Hadd.
  destruct ((1 <=? str_len title)%nat
            && (str_len title <=? 200)%nat)%bool; [|discriminate].
  cbn [Subtask.id] in Hadd. injection Hadd as Hx1 Hid. subst subtask_id.
  set (st := Subtask.Build_t new_id title false None) in *.
  assert (Hsub : Task.subtasks x1 = (Task.subtasks x ++ [st])%list)
    by (subst x1; destruct x; reflexivity).
  assert (Hmark : Task.mark_subtask new_id (Task.subtasks x1)
                  = Some (Task.subtasks x
                          ++ [Subtask.Build_t new_id title true None])%list).
  { rewrite Hsub. apply (mark_subtask_fresh new_id _ st Hfresh eq_refl). }
  destruct (complete_subtask_existing clk' new_id x1)
    as (x2 & l & Hc & Hm & Hl & Hall & _).
  { rewrite Hsub, map_app. apply in_or_app. right. left. reflexivity. }
  { rewrite Hsub. unfold len in *. rewrite length_app. simpl length. lia. }
  rewrite Hmark in Hm. injection Hm as <-.
  exists x2. split; [exact Hc|]. split; [exact Hl|].
  intros Hdone. destruct Hall as (Hs & Hp & _); [|split; assumption].
  apply completed_count_all. rewrite forallb_app, Hdone. reflexivity.
Qed.

Lemma add_subtask_then_complete_witness :
  exists x2,
    Task.complete_subtask Sample.clk "s9"
      (Task.with_updated_at (Sample.clk 0%nat)
         (Task.with_subtasks [Subtask.Build_t "s9" "review" false None]
            (Sample.task "t0" IN_PROGRESS)))
    = Some (x2, true)
    /\ Task.status x2 = COMPLETED /\ Task.progress x2 = 100.
Proof.
  destruct (add_subtask_then_complete "s9" Sample.clk Sample.clk "review"
              (Sample.task "t0" IN_PROGRESS)
              (Task.with_updated_at (Sample.clk 0%nat)
                 (Task.with_subtasks [Subtask.Build_t "s9" "review" false None]
                    (Sample.task "t0" IN_PROGRESS)))
              "s9") as (x2 & Hc & _ & Hdone).
  - reflexivity.
  - simpl. tauto.
  - vm_compute. reflexivity.
  - exists x2. split; [exact Hc|]. apply Hdone. reflexivity.
Defined.

Lemma completed_count_cons (a : Subtask.t) (l : list Subtask.t) :
  Task.completed_count (a :: l)
  = (if Subtask.completed a then 1 else 0) + Task.completed_count l.
Proof.
  unfold Task.completed_count, len. cbn [List.filter].
  destruct (Subtask.completed a); simpl length; lia.
Qed.

Lemma mark_subtask_ids subtask_id (l l' : list Subtask.t) :
  Task.mark_subtask subtask_id l = Some l' ->
  map Subtask.id l' = map Subtask.id l
  /\ Task.completed_count l <= Task.completed_count l'
     <= Task.completed_count l + 1
  /\ Task.mark_subtask subtask_id l' = Some l'.
Proof.
  intros H. apply mark_subtask_Some in H as (l1 & st & l2 & -> & Hid & Hn & ->).
  split; [|split].
  - rewrite !map_app. destruct st; reflexivity.
  - rewrite !completed_count_app, !completed_count_cons.
    cbn [Subtask.with_completed Subtask.completed].
    destruct (Subtask.completed st); lia.
  - clear -Hid Hn. induction l1 as [|a l1 IH]; cbn [Task.mark_subtask app].
    + destruct st as [i t c n]. cbn in *.
      rewrite (proj2 (String.eqb_eq _ _) Hid). reflexivity.
    + cbn [map In] in Hn.
      destruct (String.eqb_spec (Subtask.id a) subtask_id) as [E|E];
        [exfalso; apply Hn; left; exact E|].
      rewrite IH by (intros H; apply Hn; right; exact H). reflexivity.
Qed.

Lemma subtasks_pointwise_refl subtask_id (l : list Subtask.t) :
  Forall2
    (fun st st' =>
       Subtask.id st' = Subtask.id st
       /\ Subtask.title st' = Subtask.title st
       /\ Subtask.notes st' = Subtask.notes st
       /\ (Subtask.completed st = true -> Subtask.completed st' = true)
       /\ (Subtask.completed st' = true ->
           Subtask.completed st = true \/ Subtask.id st = subtask_id))
    l l.
Proof.
  induction l as [|a l IH]; constructor; [|exact IH].
  repeat split; auto.
Qed.

Lemma mark_subtask_pointwise subtask_id (l l' : list Subtask.t) :
  Task.mark_subtask subtask_id l = Some l' ->
  Forall2
    (fun st st' =>
       Subtask.id st' = Subtask.id st
       /\ Subtask.title st' = Subtask.title st
       /\ Subtask.notes st' = Subtask.notes st
       /\ (Subtask.completed st = true -> Subtask.completed st' = true)
       /\ (Subtask.completed st' = true ->
           Subtask.completed st = true \/ Subtask.id st = subtask_id))
    l l'.
Proof.
  intros H. apply mark_subtask_Some in H as (l1 & st & l2 & -> & Hid & Hn & ->).
  apply List.Forall2_app; [apply subtasks_pointwise_refl|].
  constructor; [|apply subtasks_pointwise_refl].
  destruct st as [i t c n]. cbn in *. repeat split; auto.
Qed.

(** X7. [complete_subtask] on a task with fewer than [2^53] subtasks
    always returns. It returns [True] exactly when a subtask has the id, and
    then the first subtask with the id is marked completed and every other
    subtask is what it was. So, position by position, a subtask keeps its
    id, title and notes, a completed subtask is never reopened, and a
    subtask is completed afterwards only if it was before or has the id; at
    most one more subtask is completed. When the call returns [False] the
    task is as it was. *)
Theorem complete_subtask_invariants
    (clk : Task.clock) (subtask_id : string) (x : Task.t) :
  len (Task.subtasks x) < 2 ^ 53 ->
  exists x' found,
    Task.complete_subtask clk subtask_id x = Some (x', found)
    /\ (found = true <-> In subtask_id (map Subtask.id (Task.subtasks x)))
    /\ (found = false -> x' = x)
    /\ (found = true ->
        exists l1 st l2,
          Task.subtasks x = (l1 ++ st :: l2)%list
          /\ Subtask.id st = subtask_id
          /\ ~ In subtask_id (map Subtask.id l1)
          /\ Task.subtasks x'
             = (l1 ++ Subtask.with_completed true st :: l2)%list)
    /\ Forall2
         (fun st st' =>
            Subtask.id st' = Subtask.id st
            /\ Subtask.title st' = Subtask.title st
            /\ Subtask.notes st' = Subtask.notes st
            /\ (Subtask.completed st = true -> Subtask.completed st' = true)
            /\ (Subtask.completed st' = true ->
                Subtask.completed st = true \/ Subtask.id st = subtask_id))
         (Task.subtasks x) (Task.subtasks x')
    /\ map Subtask.id (Task.subtasks x') = map Subtask.id (Task.subtasks x)
    /\ Task.completed_count (Task.subtasks x)
       <= Task.completed_count (Task.subtasks x')
       <= Task.completed_count (Task.subtasks x) + 1
    /\ Task.id x' = Task.id x.
Proof.
  intros Hlen.
  destruct (in_dec string_dec subtask_id (map Subtask.id (Task.subtasks x)))
    as [Hin|Hout].
  - destruct (complete_subtask_existing clk subtask_id x Hin Hlen)
      as (x' & l & Hc & Hm & Hl & _).
    destruct (mark_subtask_ids _ _ _ Hm) as (Hids & Hcount & _).
    exists x', true. rewrite Hl.
    split; [exact Hc|]. split; [tauto|]. split; [discriminate|].
    split; [intros _; exact (mark_subtask_Some _ _ _ Hm)|].
    split; [exact (mark_subtask_pointwise _ _ _ Hm)|].
    split; [exact Hids|]. split; [exact Hcount|].
    unfold Task.complete_subtask in Hc. rewrite Hm in Hc.
    unfold Task._update_progress_from_subtasks in Hc.
    destruct x as [i ti de pr st pg ca es ac tb su no sc dp tg cr up co].
    cbn -[Task.percent_of bool_decide] in Hc.
    destruct l as [|a l]; [injection Hc as <-; reflexivity|].
    destruct (Task.percent_of _ _); [|discriminate].
    cbn -[bool_decide] in Hc.
    destruct (_ && _); injection Hc as <-; reflexivity.
  - exists x, false. rewrite (complete_subtask_missing clk subtask_id x Hout).
    split; [reflexivity|]. split; [split; [discriminate|contradiction]|].
    split; [reflexivity|]. split; [discriminate|].
    split; [apply subtasks_pointwise_refl|].
    split; [reflexivity|]. split; [lia|reflexivity].
Qed.

Lemma complete_subtask_invariants_witness :
  exists x' found,
    Task.complete_subtask Sample.clk "s3"
      (Sample.task_with_steps IN_PROGRESS 50 2 4) = Some (x', found)
    /\ (found = true
        <-> In "s3" (map Subtask.id
                       (Task.subtasks (Sample.task_with_steps IN_PROGRESS 50 2 4)))).
Proof.
  destruct (complete_subtask_invariants Sample.clk "s3"
              (Sample.task_with_steps IN_PROGRESS 50 2 4))
    as (x' & found & Hc & Hf & _).
  - vm_compute. reflexivity.
  - exists x', found. split; assumption.
Defined.

(** X8. Completing the same subtask a second time changes nothing but
    [updated_at]: the call returns [True] again, and subtasks, progress,
    status and completion time stay as the first call left them. *)
Theorem complete_subtask_twice
    (clk clk' : Task.clock) (subtask_id : string) (x x1 : Task.t) :
  len (Task.subtasks x) < 2 ^ 53 ->
  Task.complete_subtask clk subtask_id x = Some (x1, true) ->
  Task.complete_subtask clk' subtask_id x1
  = Some (Task.with_updated_at (clk' 0%nat) x1, true).
Proof.
  intros Hlen H1.
  assert (Hin : In subtask_id (map Subtask.id (Task.subtasks x))).
  { destruct (in_dec string_dec subtask_id (map Subtask.id (Task.subtasks x)))
      as [Hin|Hout]; [exact Hin|].
    rewrite (complete_subtask_missing clk subtask_id x Hout) in H1.
    discriminate. }
  destruct (complete_subtask_existing clk subtask_id x Hin Hlen)
    as (x' & l & Hc & Hm & Hl & Hall & Hsome).
  rewrite H1 in Hc. injection Hc as <-.
  destruct (mark_subtask_ids _ _ _ Hm) as (Hids & _ & Hagain).
  assert (Hlen' : 0 < len l < 2 ^ 53).
  { assert (length l = length (Task.subtasks x)) as E
      by (rewrite <- (length_map Subtask.id l), Hids, length_map; reflexivity).
    unfold len in *. rewrite E. split; [|exact Hlen].
    destruct (Task.subtasks x); [contradiction|simpl length; lia]. }
  unfold Task.complete_subtask. rewrite Hl, Hagain.
  unfold Task._update_progress_from_subtasks.
  destruct x1 as [i ti de pr st pg ca es ac tb su no sc dp tg cr up co].
  cbn -[Task.percent_of bool_decide] in *. subst su.
  destruct l as [|a l]; [unfold len in Hlen'; simpl in Hlen'; lia|].
  destruct (decide (Task.completed_count (a :: l) = len (a :: l))) as [E|E].
  - destruct (Hall E) as (-> & -> & _).
    rewrite E, (percent_of_all _ Hlen').
    cbn -[bool_decide]. rewrite (bool_decide_eq_true_2 (COMPLETED = COMPLETED))
      by reflexivity.
    rewrite andb_false_r. reflexivity.
  - destruct (Hsome E) as (_ & _ & -> & _).
    cbn -[bool_decide]. rewrite (bool_decide_eq_false_2 _ E). reflexivity.
Qed.

Lemma complete_subtask_twice_witness :
  exists x1,
    Task.complete_subtask Sample.clk "s2"
      (Sample.task_with_steps IN_PROGRESS 50 2 4) = Some (x1, true)
    /\ Task.complete_subtask (Task.later 5 Sample.clk) "s2" x1
       = Some (Task.with_updated_at (Sample.clk 5%nat) x1, true).
Proof.
  eexists. split; [vm_compute; reflexivity|].
  apply (complete_subtask_twice Sample.clk (Task.later 5 Sample.clk) "s2"
           (Sample.task_with_steps IN_PROGRESS 50 2 4)).
  - vm_compute. reflexivity.
  - vm_compute. reflexivity.
Defined.

(** ** Looking tasks up in the daily set *)

Lemma find_filter_other (task_id other : string) (l : list Task.t) :
  other <> task_id ->
  List.find (fun x => String.eqb (Task.id x) other)
    (List.filter (fun x => negb (String.eqb (Task.id x) task_id)) l)
  = List.find (fun x => String.eqb (Task.id x) other) l.
Proof.
  intros Hne. induction l as [|a l IH]; [reflexivity|].
  cbn [List.filter List.find].
  destruct (String.eqb_spec (Task.id a) task_id) as [E|E]; cbn [negb List.find].
  - destruct (String.eqb_spec (Task.id a) other) as [E'|E']; [congruence|exact IH].
  - destruct (String.eqb (Task.id a) other); [reflexivity|exact IH].
Qed.

Lemma find_filter_same (task_id : string) (l : list Task.t) :
  List.find (fun x => String.eqb (Task.id x) task_id)
    (List.filter (fun x => negb (String.eqb (Task.id x) task_id)) l)
  = None.
Proof.
  induction l as [|a l IH]; [reflexivity|]. cbn [List.filter].
  destruct (String.eqb (Task.id a) task_id) eqn:E; cbn [negb List.find];
    [exact IH|]. rewrite E. exact IH.
Qed.

(** X9. After [remove_task] no task with the id can be got, however many
    tasks had it; every other id gets the task it got before; and the tasks
    that remain keep their order. *)
Theorem remove_task_then_get_task (task_id other : string) (d : DailyTasks.t) :
  let d' := fst (DailyTasks.remove_task task_id d) in
  DailyTasks.get_task task_id d' = None
  /\ ~ In task_id (DailyTasks.ids d')
  /\ (other <> task_id ->
      DailyTasks.get_task other d' = DailyTasks.get_task other d)
  /\ DailyTasks.ids d'
     = List.filter (fun i => negb (String.eqb i task_id)) (DailyTasks.ids d)
  /\ DailyTasks.date d' = DailyTasks.date d.
Proof.
  intros d'.
  assert (Ht : DailyTasks.tasks d'
               = List.filter (fun x => negb (String.eqb (Task.id x) task_id))
                   (DailyTasks.tasks d)).
  { unfold d', DailyTasks.remove_task. cbn [DailyTasks.tasks].
    destruct (_ <? _); reflexivity. }
  assert (Hids : DailyTasks.ids d'
                 = List.filter (fun i => negb (String.eqb i task_id))
                     (DailyTasks.ids d)).
  { unfold DailyTasks.ids. rewrite Ht. clear.
    induction (DailyTasks.tasks d) as [|a l IH]; [reflexivity|].
    cbn [List.filter map]. destruct (String.eqb (Task.id a) task_id);
      cbn [negb map]; rewrite IH; reflexivity. }
  split; [|split; [|split; [|split]]].
  - unfold DailyTasks.get_task. rewrite Ht. apply find_filter_same.
  - rewrite Hids. intros Hin. apply List.filter_In in Hin as [_ Hin].
    rewrite String.eqb_refl in Hin. discriminate.
  - intros Hne. unfold DailyTasks.get_task. rewrite Ht.
    apply find_filter_other, Hne.
  - exact Hids.
  - unfold d', DailyTasks.remove_task. destruct (_ <? _); reflexivity.
Qed.

Lemma remove_task_then_get_task_witness :
  DailyTasks.get_task "t1" (fst (DailyTasks.remove_task "t2" Sample.scenario))
  = DailyTasks.get_task "t1" Sample.scenario.
Proof.
  destruct (remove_task_then_get_task "t2" "t1" Sample.scenario)
    as (_ & _ & H & _).
  apply H. discriminate.
Defined.

(** X10. [get_task] returns the first task with the id. So after
    [add_task] the new task is returned under its id only if no earlier
    task had that id; otherwise the earlier task still is; and every other
    id gets what it got before. *)
Theorem add_task_then_get_task (task : Task.t) (other : string) (d : DailyTasks.t) :
  DailyTasks.get_task (Task.id task) (DailyTasks.add_task task d)
  = match DailyTasks.get_task (Task.id task) d with
    | Some earlier => Some earlier
    | None => Some task
    end
  /\ (other <> Task.id task ->
      DailyTasks.get_task other (DailyTasks.add_task task d)
      = DailyTasks.get_task other d)
  /\ (forall x, DailyTasks.get_task other d = Some x ->
        Task.id x = other /\ In x (DailyTasks.tasks d)).
Proof.
  unfold DailyTasks.get_task, DailyTasks.add_task, DailyTasks.update_summary.
  cbn [DailyTasks.tasks].
  assert (Happ : forall k,
             List.find (fun x => String.eqb (Task.id x) k)
               (DailyTasks.tasks d ++ [task])
             = match List.find (fun x => String.eqb (Task.id x) k)
                       (DailyTasks.tasks d) with
               | Some earlier => Some earlier
               | None => if String.eqb (Task.id task) k then Some task else None
               end).
  { intros k. induction (DailyTasks.tasks d) as [|a l IH]; cbn [app List.find].
    - reflexivity.
    - destruct (String.eqb (Task.id a) k); [reflexivity|exact IH]. }
  split; [|split].
  - rewrite Happ, String.eqb_refl. reflexivity.
  - intros Hne. rewrite Happ.
    destruct (String.eqb_spec (Task.id task) other) as [E|E]; [congruence|].
    destruct (List.find _ _); reflexivity.
  - intros x Hx. apply List.find_some in Hx as [Hin Hid].
    apply String.eqb_eq in Hid. split; assumption.
Qed.

Lemma add_task_then_get_task_witness :
  DailyTasks.get_task "t2"
    (DailyTasks.add_task (Sample.task "t9" IN_PROGRESS) Sample.scenario)
  = DailyTasks.get_task "t2" Sample.scenario.
Proof.
  destruct (add_task_then_get_task (Sample.task "t9" IN_PROGRESS) "t2"
              Sample.scenario) as (_ & H & _).
  apply H. discriminate.
Defined.

(** X11. The queries agree with the summary once it is recomputed: the
    completed, in-progress and blocked counts are the lengths of
    [get_tasks_by_status], each priority entry is the length of
    [get_tasks_by_priority] (and is absent when that list is empty), and the
    five status lists together have as many tasks as the set. *)
Theorem queries_agree_with_summary (d : DailyTasks.t) (p : Priority) :
  let d' := DailyTasks.update_summary d in
  let s := DailyTasks.summary d' in
  DaySummary.completed_tasks s = len (DailyTasks.get_tasks_by_status COMPLETED d')
  /\ DaySummary.in_progress_tasks s
     = len (DailyTasks.get_tasks_by_status IN_PROGRESS d')
  /\ DaySummary.blocked_tasks s = len (DailyTasks.get_tasks_by_status BLOCKED d')
  /\ default 0 (DaySummary.priorities s !! Priority_value p)
     = len (DailyTasks.get_tasks_by_priority p d')
  /\ (DaySummary.priorities s !! Priority_value p = None
      <-> DailyTasks.get_tasks_by_priority p d' = [])
  /\ sum_Z (map (fun st => len (DailyTasks.get_tasks_by_status st d'))
              all_statuses)
     = DaySummary.total_tasks s.
Proof.
  intros d' s.
  unfold DailyTasks.get_tasks_by_status, DailyTasks.get_tasks_by_priority.
  change (DailyTasks.tasks d') with (DailyTasks.tasks d).
  change s with (DaySummary.from_tasks (DailyTasks.tasks d)).
  set (tasks := DailyTasks.tasks d).
  destruct (from_tasks_counts tasks) as (Ht & Hc & Hi & Hb & _).
  assert (Hocc : DaySummary.occurrences
                   (fun x => Priority_value (Task.priority x))
                   (Priority_value p) tasks
                 = len (List.filter
                          (fun x => bool_decide (Task.priority x = p)) tasks)).
  { unfold DaySummary.occurrences. f_equal. apply List.filter_ext. intros x.
    destruct (String.eqb_spec (Priority_value (Task.priority x))
                (Priority_value p)) as [E|E].
    - apply Priority_value_inj in E. rewrite bool_decide_eq_true_2; auto.
    - rewrite bool_decide_eq_false_2; [reflexivity|congruence]. }
  pose proof (proj2 (from_tasks_breakdowns tasks (Priority_value p))) as Hp.
  cbv zeta in Hp. rewrite Hocc in Hp.
  split; [exact Hc|]. split; [exact Hi|]. split; [exact Hb|].
  split; [rewrite Hp; apply default_count|].
  split.
  - rewrite Hp. unfold len.
    destruct (List.filter _ tasks) as [|a l]; [split; reflexivity|].
    split; [|discriminate]. simpl length.
    destruct (Z.eqb_spec (Z.of_nat (S (length l))) 0); [lia|discriminate].
  - rewrite Ht, <- (status_partition tasks).
    unfold all_statuses, sum_Z. cbn [map fold_left]. lia.
Qed.

Lemma queries_agree_with_summary_witness :
  DaySummary.priorities
    (DailyTasks.summary (DailyTasks.update_summary Sample.empty_day))
  !! Priority_value P1 = None.
Proof.
  destruct (queries_agree_with_summary Sample.empty_day P1)
    as (_ & _ & _ & _ & H & _).
  apply H. reflexivity.
Defined.

(** ** Reloading a set whose tasks were changed by assignment *)

Lemma validate_list_Forall2 {A B} (f : nat -> A -> result B) (l : list A) :
  forall i l', validate_list f i l = Some l' ->
  Forall2 (fun a b => exists j, f j a = Ok b) l l'.
Proof.
  induction l as [|a l IH]; intros i l' H; cbn [validate_list] in H.
  - injection H as <-. constructor.
  - destruct (f i a) as [b|loc] eqn:E; [|discriminate].
    destruct (validate_list f (S i) l) as [bs|] eqn:E'; [|discriminate].
    injection H as <-. constructor; [exists i; exact E|exact (IH _ _ E')].
Qed.

Lemma validate_list_total {A B} (f : nat -> A -> result B) (l : list A) :
  (forall i a, In a l -> is_ok (f i a) = true) ->
  forall i, exists l', validate_list f i l = Some l'.
Proof.
  induction l as [|a l IH]; intros H i; cbn [validate_list].
  - eexists; reflexivity.
  - pose proof (H i a (or_introl eq_refl)) as Ha.
    destruct (f i a) as [b|loc]; [|discriminate].
    destruct (IH (fun j x Hx => H j x (or_intror Hx)) (S i)) as [bs ->].
    eexists; reflexivity.
Qed.

Lemma Subtask_validate_dump_Ok new_id (x y : Subtask.t) :
  Subtask.validate new_id (Subtask.model_dump x) = Ok y ->
  Subtask.is_valid x = true.
Proof.
  unfold Subtask.validate, Subtask.is_valid. destruct x as [i t c n].
  cbn [Subtask.model_dump Subtask.d_title Subtask.title].
  change (Some t ≫= check_length 1 200) with (check_length 1 200 t).
  unfold check_length. destruct (_ && _)%bool; [reflexivity|discriminate].
Qed.

Lemma Subtasks_validate_dump_Ok (f : nat -> string) (l : list Subtask.t) :
  forall i l',
  validate_list (fun i => Subtask.validate (f i)) i (map Subtask.model_dump l)
  = Some l' ->
  forallb Subtask.is_valid l = true.
Proof.
  induction l as [|a l IH]; intros i l' H; [reflexivity|].
  cbn [map validate_list] in H.
  destruct (Subtask.validate (f i) (Subtask.model_dump a)) as [b|loc] eqn:E;
    [|discriminate].
  destruct (validate_list _ (S i) _) as [bs|] eqn:E'; [|discriminate].
  cbn [forallb]. rewrite (Subtask_validate_dump_Ok _ _ _ E), (IH _ _ E').
  reflexivity.
Qed.

(** A task whose fields are in range is rebuilt from its dump with
    [progress] and [completed_at] brought in line with the status by the
    two validators. *)
Lemma Task_validate_dump_in_range g (x : Task.t) :
  Task.in_range x = true ->
  Task.validate g (Task.model_dump x)
  = Ok (Task.with_completed_at
          (Task.set_completed_at (Task.gen_now g) (Task.completed_at x)
             (Some (Task.status x)))
          (Task.with_progress
             (Task.validate_progress (Task.progress x) (Some (Task.status x)))
             x)).
Proof.
  unfold Task.in_range. intros H.
  repeat rewrite andb_true_iff in H.
  destruct H as [[[[[[[[Ht1 Ht2] Hde] Hp0] Hp1] He0] He1] Hac] Hsu].
  destruct x as [i ti de pr st pg ca es ac tb su no sc dp tg cr up co].
  unfold Task.validate. cbn -[check_length check_range Task.validate_progress
    Task.set_completed_at validate_list Priority_of_value TaskStatus_of_value
    Category_of_value TimeBlock_of_value] in *.
  rewrite (check_length_Some 1 200 ti Ht1 Ht2).
  rewrite (check_length_Some 0 1000 de eq_refl Hde).
  rewrite Priority_of_value_value, TaskStatus_of_value_value,
    Category_of_value_value.
  rewrite (check_range_Some 0 100 pg Hp0 Hp1), (check_range_Some 5 480 es He0 He1).
  unfold check_ge. rewrite Hac.
  rewrite (validate_list_dump _ Subtask.model_dump Subtask.is_valid
             (fun i => Subtask_validate_dump _) su 0%nat Hsu).
  assert (Htb : match option_map TimeBlock_value tb with
                | Some s => option_map Some (TimeBlock_of_value s)
                | None => Some None
                end = Some tb).
  { destruct tb as [b|]; simpl; [rewrite TimeBlock_of_value_value|]; reflexivity. }
  rewrite Htb. reflexivity.
Qed.

Lemma Task_validate_dump_Ok g (x y : Task.t) :
  Task.validate g (Task.model_dump x) = Ok y -> Task.in_range x = true.
Proof.
  intros H. unfold Task.validate in H.
  match type of H with
  | Task.assemble ?g ?d ?r1 ?r2 ?r3 ?r4 ?r5 ?r6 ?r7 ?r8 ?r9 ?r10 ?c = _ =>
      pose proof (assemble_spec g d r1 r2 r3 r4 r5 r6 r7 r8 r9 r10 c) as Hs;
      rewrite H in Hs;
      destruct Hs as (H1 & H2 & _ & _ & H5 & _ & H7 & H8 & _ & H10)
  end.
  destruct x as [i ti de pr st pg ca es ac tb su no sc dp tg cr up co].
  clear H. unfold Task.in_range.
  cbn [Task.model_dump Task.d_title Task.d_description Task.d_progress
       Task.d_estimated_minutes Task.d_actual_minutes Task.d_subtasks
       Task.title Task.description Task.progress Task.estimated_minutes
       Task.actual_minutes Task.subtasks] in *.
  change (Some ti ≫= check_length 1 200) with (check_length 1 200 ti) in H1.
  unfold check_length in H1, H2. unfold check_range in H5, H7.
  unfold check_ge in H8.
  destruct ((1 <=? str_len ti)%nat && (str_len ti <=? 200)%nat)%bool
    eqn:E1; [|discriminate H1].
  cbn [Nat.leb andb] in H2.
  destruct (str_len de <=? 1000)%nat eqn:E2; [|discriminate H2].
  destruct ((0 <=? pg) && (pg <=? 100)) eqn:E5; [|discriminate H5].
  destruct ((5 <=? es) && (es <=? 480)) eqn:E7; [|discriminate H7].
  destruct (0 <=? ac) eqn:E8; [|discriminate H8].
  apply andb_prop in E5 as [-> ->]. apply andb_prop in E7 as [-> ->].
  rewrite (Subtasks_validate_dump_Ok _ _ _ _ H10). reflexivity.
Qed.

Lemma normalised_is_valid (now : string) (x : Task.t) :
  Task.in_range x = true ->
  now <> "" ->
  Task.is_valid
    (Task.with_completed_at
       (Task.set_completed_at now (Task.completed_at x) (Some (Task.status x)))
       (Task.with_progress
          (Task.validate_progress (Task.progress x) (Some (Task.status x)))
          x)) = true.
Proof.
  unfold Task.in_range. intros H Hnow.
  repeat rewrite andb_true_iff in H.
  destruct H as [[[[[[[[Ht1 Ht2] Hde] Hp0] Hp1] He0] He1] Hac] Hsu].
  destruct x as [i ti de pr st pg ca es ac tb su no sc dp tg cr up co].
  unfold Task.is_valid.
  cbn -[Nat.leb Z.leb str_len forallb Task.validate_progress
        Task.set_completed_at bool_decide] in *.
  rewrite Ht1, Ht2, Hde, He0, He1, Hac, Hsu.
  apply Z.leb_le in Hp0, Hp1.
  assert (Hnow' : String.eqb now "" = false)
    by (destruct (String.eqb_spec now ""); [contradiction|reflexivity]).
  unfold Task.validate_progress, Task.set_completed_at.
  destruct (Z.eqb_spec pg 100) as [E1|E1]; destruct (Z.ltb_spec 0 pg) as [E2|E2];
    destruct (Task.falsy co) eqn:F;
    destruct st; repeat case_bool_decide; try congruence;
    cbn [andb negb] in *; unfold Task.falsy; rewrite ?Hnow'; fold (Task.falsy co);
    rewrite ?F; try congruence;
    repeat rewrite andb_true_iff; repeat split;
    try reflexivity; try (apply Z.leb_le; lia); try (apply Z.eqb_eq; lia).
Qed.

Lemma validate_tasks_Some_in_range (rt : DailyTasks.runtime)
    (tasks : list Task.t) :
  forall i l',
  validate_list (fun i => Task.validate (DailyTasks.generated rt i)) i
    (map Task.model_dump tasks) = Some l' ->
  forallb Task.in_range tasks = true.
Proof.
  induction tasks as [|x l IH]; intros i l' H; [reflexivity|].
  cbn [map validate_list] in H.
  destruct (Task.validate (DailyTasks.generated rt i) (Task.model_dump x))
    as [y|loc] eqn:E; [|discriminate].
  destruct (validate_list _ (S i) _) as [ys|] eqn:E'; [|discriminate].
  cbn [forallb]. rewrite (Task_validate_dump_Ok _ _ _ E), (IH _ _ E').
  reflexivity.
Qed.

(** X12. With a date the runtime accepts, a saved set can be loaded back
    exactly when the fields of every task are in range. One task left out
    of range by an assignment (which is not validated) makes the file of
    the whole day unloadable. *)
Theorem reload_iff_tasks_in_range
    (rt : DailyTasks.runtime) (d : Disk.t) (daily_tasks : DailyTasks.t) :
  DailyTasks.fromisoformat_ok rt (DailyTasks.date daily_tasks) = true ->
  (is_Some (_load_local_copy rt (_save_local_copy Disk.Written daily_tasks d)
              (DailyTasks.date daily_tasks))
   <-> forallb Task.in_range (DailyTasks.tasks daily_tasks) = true).
Proof.
  intros Hd. unfold _load_local_copy, _save_local_copy.
  rewrite lookup_insert_eq. unfold DailyTasks.validate.
  cbn [DailyTasks.model_dump DailyTasks.d_date DailyTasks.d_tasks
       DailyTasks.d_summary].
  unfold DailyTasks.validate_date_format. rewrite Hd.
  split.
  - intros [d' H].
    destruct (validate_list _ 0 _) as [l'|] eqn:E; [|discriminate].
    exact (validate_tasks_Some_in_range rt _ _ _ E).
  - intros Hall.
    destruct (validate_list_total
                (fun i => Task.validate (DailyTasks.generated rt i))
                (map Task.model_dump (DailyTasks.tasks daily_tasks)))
      with (i := 0%nat) as [l' ->]; [|eexists; reflexivity].
    intros i a Ha. apply List.in_map_iff in Ha as (x & <- & Hx).
    rewrite forallb_forall in Hall.
    rewrite (Task_validate_dump_in_range _ x (Hall x Hx)). reflexivity.
Qed.

Lemma reload_iff_tasks_in_range_witness :
  _load_local_copy Sample.rt
    (_save_local_copy Disk.Written
       (DailyTasks.add_task (Task.with_progress 150 (Sample.task "t9" IN_PROGRESS))
          Sample.scenario) ∅)
    "2025-01-29"
  = None.
Proof.
  destruct (reload_iff_tasks_in_range Sample.rt ∅
              (DailyTasks.add_task
                 (Task.with_progress 150 (Sample.task "t9" IN_PROGRESS))
                 Sample.scenario)) as [H _]; [reflexivity|].
  change (DailyTasks.date _) with "2025-01-29" in H.
  destruct (_load_local_copy _ _ _) as [d'|]; [|reflexivity].
  specialize (H (ex_intro _ d' eq_refl)). vm_compute in H. discriminate.
Defined.

Lemma validate_list_tasks_in_range (rt : DailyTasks.runtime) (tasks : list Task.t) :
  forallb Task.in_range tasks = true ->
  forall i, exists l',
    validate_list (fun i => Task.validate (DailyTasks.generated rt i)) i
      (map Task.model_dump tasks) = Some l'
    /\ Forall2
         (fun x y => exists j,
            y = Task.with_completed_at
                  (Task.set_completed_at
                     (Task.gen_now (DailyTasks.generated rt j))
                     (Task.completed_at x) (Some (Task.status x)))
                  (Task.with_progress
                     (Task.validate_progress (Task.progress x)
                        (Some (Task.status x))) x))
         tasks l'.
Proof.
  induction tasks as [|x l IH]; intros H i.
  - exists []. split; [reflexivity|constructor].
  - cbn [forallb] in H. apply andb_prop in H as [Hx Hl].
    destruct (IH Hl (S i)) as (l' & E & HF).
    cbn [map validate_list]. rewrite (Task_validate_dump_in_range _ x Hx), E.
    eexists. split; [reflexivity|]. constructor; [exists i; reflexivity|exact HF].
Qed.

(** X13. A saved set whose tasks are in range is loaded back repaired:
    the two validators run on every task, so the loaded set satisfies the
    invariants of the data model (a completed task has progress 100 and a
    completion time, a task not started has progress 0, no other task has a
    completion time) with the ids, the statuses and the stored summary as
    they were. The loaded set is a fixed point: saved and loaded again, it
    comes back unchanged. *)
Theorem reload_repairs_invariants
    (rt : DailyTasks.runtime) (d : Disk.t) (daily_tasks : DailyTasks.t) :
  DailyTasks.fromisoformat_ok rt (DailyTasks.date daily_tasks) = true ->
  forallb Task.in_range (DailyTasks.tasks daily_tasks) = true ->
  (forall i, Task.gen_now (DailyTasks.generated rt i) <> "") ->
  exists loaded,
    _load_local_copy rt (_save_local_copy Disk.Written daily_tasks d)
      (DailyTasks.date daily_tasks) = Some loaded
    /\ DailyTasks.is_valid rt loaded = true
    /\ DailyTasks.date loaded = DailyTasks.date daily_tasks
    /\ DailyTasks.summary loaded = DailyTasks.summary daily_tasks
    /\ DailyTasks.ids loaded = DailyTasks.ids daily_tasks
    /\ map Task.status (DailyTasks.tasks loaded)
       = map Task.status (DailyTasks.tasks daily_tasks)
    /\ (forall d',
          _load_local_copy rt (_save_local_copy Disk.Written loaded d')
            (DailyTasks.date loaded) = Some loaded).
Proof.
  intros Hd Hall Hnow.
  destruct (validate_list_tasks_in_range rt _ Hall 0%nat) as (l' & E & HF).
  exists (DailyTasks.Build_t (DailyTasks.date daily_tasks) l'
            (DailyTasks.summary daily_tasks)).
  assert (Hload : _load_local_copy rt
                    (_save_local_copy Disk.Written daily_tasks d)
                    (DailyTasks.date daily_tasks)
                  = Some (DailyTasks.Build_t (DailyTasks.date daily_tasks) l'
                            (DailyTasks.summary daily_tasks))).
  { unfold _load_local_copy, _save_local_copy.
    rewrite lookup_insert_eq. unfold DailyTasks.validate.
    cbn [DailyTasks.model_dump DailyTasks.d_date DailyTasks.d_tasks
         DailyTasks.d_summary].
    unfold DailyTasks.validate_date_format. rewrite Hd, E. reflexivity. }
  assert (Hvalid : forallb Task.is_valid l' = true).
  { clear E Hload. rewrite forallb_forall in Hall.
    induction HF as [|x y l k [j ->] HF IH]; [reflexivity|].
    cbn [forallb].
    rewrite (normalised_is_valid _ x (Hall x (or_introl eq_refl)) (Hnow j)).
    apply IH. intros z Hz. apply Hall. right. exact Hz. }
  assert (Hv : DailyTasks.is_valid rt
                 (DailyTasks.Build_t (DailyTasks.date daily_tasks) l'
                    (DailyTasks.summary daily_tasks)) = true).
  { unfold DailyTasks.is_valid. cbn [DailyTasks.date DailyTasks.tasks].
    rewrite Hd, Hvalid. reflexivity. }
  split; [exact Hload|]. split; [exact Hv|].
  split; [reflexivity|]. split; [reflexivity|].
  split; [|split].
  - unfold DailyTasks.ids. cbn [DailyTasks.tasks]. clear -HF.
    induction HF as [|x y l k [j ->] HF IH]; [reflexivity|].
    cbn [map]. rewrite IH. destruct x; reflexivity.
  - cbn [DailyTasks.tasks]. clear -HF.
    induction HF as [|x y l k [j ->] HF IH]; [reflexivity|].
    cbn [map]. rewrite IH. destruct x; reflexivity.
  - intros d'. unfold _load_local_copy, _save_local_copy.
    rewrite lookup_insert_eq, (DailyTasks_validate_dump rt _ Hv). reflexivity.
Qed.

Lemma reload_repairs_invariants_witness :
  exists loaded,
    _load_local_copy Sample.rt
      (_save_local_copy Disk.Written
         (DailyTasks.add_task
            (Task.with_progress 57 (Sample.task "t9" COMPLETED))
            Sample.scenario) ∅)
      "2025-01-29" = Some loaded
    /\ DailyTasks.is_valid Sample.rt loaded = true.
Proof.
  destruct (reload_repairs_invariants Sample.rt ∅
              (DailyTasks.add_task
                 (Task.with_progress 57 (Sample.task "t9" COMPLETED))
                 Sample.scenario))
    as (loaded & Hl & Hv & _).
  - reflexivity.
  - reflexivity.
  - intros i. discriminate.
  - exists loaded. split; [exact Hl|exact Hv].
Defined.

(** ** Pushing and pulling *)

Lemma create_Ok rt date tasks :
  DailyTasks.fromisoformat_ok rt date = true ->
  DailyTasks.create rt date tasks
  = Ok (DailyTasks.Build_t date tasks DaySummary.init).
Proof.
  intros H. unfold DailyTasks.create, DailyTasks.validate_date_format.
  rewrite H. reflexivity.
Qed.

Lemma push_tasks_no_fault rt io tasks target_date (w : world) :
  DailyTasks.fromisoformat_ok rt (date_or_today rt target_date) = true ->
  let date := date_or_today rt target_date in
  let daily_tasks := DailyTasks.Build_t date tasks (DaySummary.from_tasks tasks) in
  TaskSync.push_tasks rt io None tasks target_date w
  = (Build_world (_save_local_copy io daily_tasks (disk w))
       (<[date := DailyTasks.model_dump daily_tasks]> (remote w)),
     {| TaskSync.success := true;
        TaskSync.message := "Successfully pushed " ++ str_int (len tasks)
                            ++ " tasks for " ++ date;
        TaskSync.data := Some (DailyTasks.model_dump daily_tasks);
        TaskSync.error := None |}).
Proof.
  intros Hd date daily_tasks. unfold TaskSync.push_tasks.
  fold date. rewrite (create_Ok rt date tasks Hd). reflexivity.
Qed.

Lemma date_or_today_idem rt target_date :
  date_or_today rt target_date <> "" ->
  date_or_today rt (Some (date_or_today rt target_date))
  = date_or_today rt target_date.
Proof.
  intros H. cbn [date_or_today].
  destruct (String.eqb_spec (date_or_today rt target_date) "");
    [contradiction|reflexivity].
Qed.

(** X14. What [push_tasks] stores, [pull_tasks] returns: with a date the
    runtime accepts, tasks that satisfy the data model and a remote store
    that answers, a push followed by a pull that bypasses the cache succeeds
    with the pushed tasks, field by field, and the summary computed from
    them; the pull leaves the remote table as the push left it. *)
Theorem push_then_pull_round_trip
    (rt : DailyTasks.runtime) (io io' : Disk.write) (tasks : list Task.t)
    (target_date : option string) (w : world) :
  let date := date_or_today rt target_date in
  DailyTasks.fromisoformat_ok rt date = true ->
  forallb Task.is_valid tasks = true ->
  let pushed := TaskSync.push_tasks rt io None tasks target_date w in
  let pulled := TaskSync.pull_tasks rt io' None target_date false (fst pushed) in
  TaskSync.success (snd pushed) = true
  /\ TaskSync.success (snd pulled) = true
  /\ TaskSync.data (snd pulled)
     = Some (DailyTasks.model_dump
               (DailyTasks.Build_t date tasks (DaySummary.from_tasks tasks)))
  /\ TaskSync.data (snd pulled) = TaskSync.data (snd pushed)
  /\ remote (fst pulled) = remote (fst pushed).
Proof.
  intros date Hd Hv pushed pulled.
  unfold pulled, pushed. rewrite (push_tasks_no_fault rt io tasks target_date w Hd).
  fold date. cbn [fst snd TaskSync.success TaskSync.data].
  unfold TaskSync.pull_tasks, TaskSync.pull_tasks_on. fold date.
  cbn [remote disk Remote.single]. rewrite lookup_insert_eq.
  unfold TaskSync.parse_row.
  cbn [DailyTasks.model_dump DailyTasks.d_date DailyTasks.d_tasks
       DailyTasks.d_summary DailyTasks.date DailyTasks.tasks DailyTasks.summary].
  rewrite (validate_list_dump _ Task.model_dump Task.is_valid
             (fun i b => Task_validate_dump _ b) tasks 0%nat Hv).
  unfold DailyTasks.validate_date_format. rewrite Hd.
  cbn [default fst snd TaskSync.success TaskSync.data remote DailyTasks.model_dump
       DailyTasks.date DailyTasks.tasks DailyTasks.summary].
  repeat split; reflexivity.
Qed.

Lemma push_then_pull_round_trip_witness :
  TaskSync.data
    (snd (TaskSync.pull_tasks Sample.rt Disk.Written None (Some "2025-01-29")
            false
            (fst (TaskSync.push_tasks Sample.rt Disk.OpenFails None
                    (DailyTasks.tasks Sample.scenario) (Some "2025-01-29")
                    Sample.empty_world))))
  = Some (DailyTasks.model_dump Sample.scenario).
Proof.
  destruct (push_then_pull_round_trip Sample.rt Disk.OpenFails Disk.Written
              (DailyTasks.tasks Sample.scenario) (Some "2025-01-29")
              Sample.empty_world) as (_ & _ & H & _).
  - reflexivity.
  - reflexivity.
  - exact H.
Defined.

(** X15. A push that the remote store refuses still writes the local
    copy: the result reports the failure with the text of the exception and
    the remote table is untouched, yet the file of the date now holds the
    pushed tasks, and a cached pull returns them as a success without
    consulting the remote store. *)
Theorem failed_push_keeps_local_copy
    (rt : DailyTasks.runtime) (msg : string) (tasks : list Task.t)
    (target_date : option string) (w : world)
    (io : Disk.write) (fault : option string) :
  let date := date_or_today rt target_date in
  DailyTasks.fromisoformat_ok rt date = true ->
  forallb Task.is_valid tasks = true ->
  let pushed := TaskSync.push_tasks rt Disk.Written (Some msg) tasks target_date w in
  let pulled := TaskSync.pull_tasks rt io fault target_date true (fst pushed) in
  TaskSync.success (snd pushed) = false
  /\ TaskSync.error (snd pushed) = Some msg
  /\ remote (fst pushed) = remote w
  /\ _load_local_copy rt (disk (fst pushed)) date
     = Some (DailyTasks.Build_t date tasks (DaySummary.from_tasks tasks))
  /\ fst pulled = fst pushed
  /\ TaskSync.success (snd pulled) = true
  /\ TaskSync.data (snd pulled)
     = Some (DailyTasks.model_dump
               (DailyTasks.Build_t date tasks (DaySummary.from_tasks tasks))).
Proof.
  intros date Hd Hv pushed pulled.
  assert (Hvd : DailyTasks.is_valid rt
                  (DailyTasks.Build_t date tasks (DaySummary.from_tasks tasks))
                = true).
  { unfold DailyTasks.is_valid. cbn [DailyTasks.date DailyTasks.tasks].
    rewrite Hd, Hv. reflexivity. }
  assert (Hp : pushed
               = (Build_world
                    (_save_local_copy Disk.Written
                       (DailyTasks.Build_t date tasks
                          (DaySummary.from_tasks tasks)) (disk w))
                    (remote w),
                  {| TaskSync.success := false;
                     TaskSync.message := "Error pushing tasks for " ++ date;
                     TaskSync.data := None;
                     TaskSync.error := Some msg |})).
  { unfold pushed, TaskSync.push_tasks. fold date.
    rewrite (create_Ok rt date tasks Hd). reflexivity. }
  assert (Hl : _load_local_copy rt (disk (fst pushed)) date
               = Some (DailyTasks.Build_t date tasks
                         (DaySummary.from_tasks tasks))).
  { rewrite Hp. cbn [fst disk]. unfold _load_local_copy, _save_local_copy.
    cbn [DailyTasks.date]. rewrite lookup_insert_eq.
    rewrite (DailyTasks_validate_dump rt _ Hvd). reflexivity. }
  assert (Hpull : pulled
                  = (fst pushed,
                     TaskSync.loaded_from_cache (" for " ++ date)
                       (DailyTasks.Build_t date tasks
                          (DaySummary.from_tasks tasks)))).
  { unfold pulled, TaskSync.pull_tasks, TaskSync.pull_tasks_on. fold date.
    rewrite Hl. reflexivity. }
  rewrite Hpull. rewrite Hp at 1 2 3. cbn [fst snd TaskSync.success
    TaskSync.error TaskSync.data remote TaskSync.loaded_from_cache].
  repeat split; try reflexivity. exact Hl.
Qed.

Lemma failed_push_keeps_local_copy_witness :
  let pushed :=
    TaskSync.push_tasks Sample.rt Disk.Written (Some "connection refused")
      (DailyTasks.tasks Sample.scenario) (Some "2025-01-29") Sample.empty_world in
  TaskSync.success (snd pushed) = false
  /\ TaskSync.success
       (snd (TaskSync.pull_tasks Sample.rt Disk.Written
               (Some "connection refused") (Some "2025-01-29") true
               (fst pushed))) = true.
Proof.
  destruct (failed_push_keeps_local_copy Sample.rt "connection refused"
              (DailyTasks.tasks Sample.scenario) (Some "2025-01-29")
              Sample.empty_world Disk.Written (Some "connection refused"))
    as (H1 & _ & _ & _ & _ & H2 & _).
  - reflexivity.
  - reflexivity.
  - split; [exact H1|exact H2].
Defined.



(** X17. A date that [date.fromisoformat] refuses stops both pushes
    before anything is written: the result is a failure, and neither the
    local directory nor the remote table changes. *)
Theorem push_bad_date_changes_nothing
    (rt : DailyTasks.runtime) (io : Disk.write)
    (fault fault' : option string) (tasks : list Task.t)
    (target_date : option string) (w : world) :
  DailyTasks.fromisoformat_ok rt (date_or_today rt target_date) = false ->
  let pushed := TaskSync.push_tasks rt io fault tasks target_date w in
  let pushed' :=
    ImprovedTaskSync.push_tasks_smart rt io fault fault' tasks target_date w in
  fst pushed = w
  /\ TaskSync.success (snd pushed) = false
  /\ TaskSync.error (snd pushed) = Some (DailyTasks.error_text rt ["date"])
  /\ fst pushed' = w
  /\ ImprovedTaskSync.success (snd pushed') = false
  /\ ImprovedTaskSync.error (snd pushed')
     = Some (DailyTasks.error_text rt ["date"]).
Proof.
  intros Hd pushed pushed'.
  unfold pushed, pushed', TaskSync.push_tasks, ImprovedTaskSync.push_tasks_smart,
    ImprovedTaskSync.push_prepare, DailyTasks.create,
    DailyTasks.validate_date_format.
  rewrite Hd. repeat split; reflexivity.
Qed.

Lemma push_bad_date_changes_nothing_witness :
  fst (TaskSync.push_tasks Sample.rt Disk.Written None
         (DailyTasks.tasks Sample.scenario) (Some "29/01/2025")
         Sample.empty_world)
  = Sample.empty_world.
Proof.
  destruct (push_bad_date_changes_nothing Sample.rt Disk.Written None None
              (DailyTasks.tasks Sample.scenario) (Some "29/01/2025")
              Sample.empty_world) as (H & _).
  - reflexivity.
  - exact H.
Defined.

(** ** The improved synchroniser *)

Lemma push_tasks_smart_no_fault rt io tasks target_date (w : world) :
  DailyTasks.fromisoformat_ok rt (date_or_today rt target_date) = true ->
  let date := date_or_today rt target_date in
  let daily_tasks := DailyTasks.Build_t date tasks (DaySummary.from_tasks tasks) in
  fst (ImprovedTaskSync.push_tasks_smart rt io None None tasks target_date w)
  = Build_world (_save_local_copy io daily_tasks (disk w))
      (<[date := DailyTasks.model_dump daily_tasks]> (remote w))
  /\ ImprovedTaskSync.success
       (snd (ImprovedTaskSync.push_tasks_smart rt io None None tasks
               target_date w)) = true
  /\ ImprovedTaskSync.data
       (snd (ImprovedTaskSync.push_tasks_smart rt io None None tasks
               target_date w)) = Some (DailyTasks.model_dump daily_tasks).
Proof.
  intros Hd date daily_tasks.
  unfold ImprovedTaskSync.push_tasks_smart, ImprovedTaskSync.push_prepare.
  fold date. rewrite (create_Ok rt date tasks Hd).
  unfold ImprovedTaskSync.push_write, ImprovedTaskSync._record_exists.
  cbn [ImprovedTaskSync.p_record_exists ImprovedTaskSync.p_date
       ImprovedTaskSync.p_payload ImprovedTaskSync.p_tasks remote disk
       Remote.select].
  destruct (remote w !! date) as [r|] eqn:E; cbn [len length Z.of_nat Z.ltb
    Z.compare Remote.update Remote.insert]; rewrite E;
    repeat split; reflexivity.
Qed.

(** X18. When nothing fails, [push_tasks_smart] always succeeds, whether
    the date has a remote record or not, and it leaves the local directory
    and the remote table exactly as the upsert of [TaskSync.push_tasks]
    does, returning the same row. *)
Theorem push_tasks_smart_agrees_with_upsert
    (rt : DailyTasks.runtime) (io : Disk.write) (tasks : list Task.t)
    (target_date : option string) (w : world) :
  DailyTasks.fromisoformat_ok rt (date_or_today rt target_date) = true ->
  let smart :=
    ImprovedTaskSync.push_tasks_smart rt io None None tasks target_date w in
  let plain := TaskSync.push_tasks rt io None tasks target_date w in
  ImprovedTaskSync.success (snd smart) = true
  /\ TaskSync.success (snd plain) = true
  /\ fst smart = fst plain
  /\ ImprovedTaskSync.data (snd smart) = TaskSync.data (snd plain)
  /\ remote (fst smart) !! date_or_today rt target_date
     = Some (task_data (date_or_today rt target_date) tasks
               (DailyTasks.update_summary
                  (DailyTasks.Build_t (date_or_today rt target_date) tasks
                     DaySummary.init))).
Proof.
  intros Hd smart plain.
  destruct (push_tasks_smart_no_fault rt io tasks target_date w Hd)
    as (Hw & Hs & Hdata).
  unfold smart, plain.
  rewrite (push_tasks_no_fault rt io tasks target_date w Hd), Hw, Hs, Hdata.
  cbn [fst snd TaskSync.success TaskSync.data remote].
  rewrite lookup_insert_eq. repeat split; reflexivity.
Qed.

Lemma push_tasks_smart_agrees_with_upsert_witness :
  fst (ImprovedTaskSync.push_tasks_smart Sample.rt Disk.Written None None
         (DailyTasks.tasks Sample.scenario) (Some "2025-01-29")
         Sample.cached_world)
  = fst (TaskSync.push_tasks Sample.rt Disk.Written None
           (DailyTasks.tasks Sample.scenario) (Some "2025-01-29")
           Sample.cached_world).
Proof.
  destruct (push_tasks_smart_agrees_with_upsert Sample.rt Disk.Written
              (DailyTasks.tasks Sample.scenario) (Some "2025-01-29")
              Sample.cached_world) as (_ & _ & H & _).
  - reflexivity.
  - exact H.
Defined.

(** X19. [_record_exists] turns a failed query into "no record". So when
    the existence check fails while the date does have a remote record,
    [push_tasks_smart] inserts instead of updating: the insert hits the
    unique constraint, the push is reported as a constraint violation and
    the remote record keeps its old content. *)
Theorem failed_existence_check_inserts
    (rt : DailyTasks.runtime) (io : Disk.write) (msg : string)
    (tasks : list Task.t) (target_date : option string) (w : world)
    (r : Remote.row) :
  DailyTasks.fromisoformat_ok rt (date_or_today rt target_date) = true ->
  remote w !! date_or_today rt target_date = Some r ->
  let out :=
    ImprovedTaskSync.push_tasks_smart rt io (Some msg) None tasks target_date w in
  ImprovedTaskSync._record_exists (Some msg) (remote w)
    (date_or_today rt target_date) = false
  /\ ImprovedTaskSync.success (snd out) = false
  /\ ImprovedTaskSync.error (snd out) = Some Remote.duplicate_key_message
  /\ ImprovedTaskSync.error_type (snd out) = Some "constraint_violation"
  /\ remote (fst out) = remote w.
Proof.
  intros Hd Hr out. unfold out.
  unfold ImprovedTaskSync.push_tasks_smart, ImprovedTaskSync.push_prepare.
  rewrite (create_Ok rt _ tasks Hd).
  unfold ImprovedTaskSync.push_write, ImprovedTaskSync._record_exists.
  cbn [ImprovedTaskSync.p_record_exists ImprovedTaskSync.p_date
       ImprovedTaskSync.p_payload ImprovedTaskSync.p_tasks remote disk
       Remote.select Remote.insert].
  rewrite Hr. cbn [fst snd remote].
  split; [reflexivity|]. split; [reflexivity|]. split; [reflexivity|].
  split; [|reflexivity].
  unfold ImprovedTaskSync.push_failed. cbn [ImprovedTaskSync.error_type].
  rewrite (classify_duplicate_key Remote.duplicate_key_message eq_refl).
  reflexivity.
Qed.

Lemma failed_existence_check_inserts_witness :
  let w := Build_world ∅ {[ "2025-01-29" := DailyTasks.model_dump Sample.scenario ]} in
  ImprovedTaskSync.error_type
    (snd (ImprovedTaskSync.push_tasks_smart Sample.rt Disk.Written
            (Some "timeout") None [Sample.task "t9" IN_PROGRESS]
            (Some "2025-01-29") w))
  = Some "constraint_violation".
Proof.
  intros w.
  destruct (failed_existence_check_inserts Sample.rt Disk.Written "timeout"
              [Sample.task "t9" IN_PROGRESS] (Some "2025-01-29") w
              (DailyTasks.model_dump Sample.scenario))
    as (_ & _ & _ & H & _).
  - reflexivity.
  - reflexivity.
  - exact H.
Defined.

(** X20. [push_tasks_from_file] pushes what the local file holds: after a
    valid set was saved, the push succeeds and the remote record of the date
    holds the tasks of the file with a summary computed anew from them (the
    summary stored in the file is not sent). Without a loadable file the
    result is a failure of type [file_not_found] and nothing changes. *)
Theorem push_tasks_from_file_pushes_saved
    (rt : DailyTasks.runtime) (io : Disk.write) (daily_tasks : DailyTasks.t)
    (fault fault' : option string) (target_date : option string) (w : world) :
  (DailyTasks.is_valid rt daily_tasks = true ->
   DailyTasks.date daily_tasks <> "" ->
   let saved :=
     Build_world (_save_local_copy Disk.Written daily_tasks (disk w)) (remote w) in
   let out :=
     ImprovedTaskSync.push_tasks_from_file rt io None None
       (Some (DailyTasks.date daily_tasks)) saved in
   ImprovedTaskSync.success (snd out) = true
   /\ remote (fst out)
      = <[DailyTasks.date daily_tasks
          := DailyTasks.model_dump (DailyTasks.update_summary daily_tasks)]>
          (remote w))
  /\ (_load_local_copy rt (disk w) (date_or_today rt target_date) = None ->
      let out :=
        ImprovedTaskSync.push_tasks_from_file rt io fault fault' target_date w in
      fst out = w
      /\ ImprovedTaskSync.success (snd out) = false
      /\ ImprovedTaskSync.error_type (snd out) = Some "file_not_found").
Proof.
  split.
  - intros Hv Hne saved out.
    assert (Hdate : date_or_today rt (Some (DailyTasks.date daily_tasks))
                    = DailyTasks.date daily_tasks).
    { cbn [date_or_today].
      destruct (String.eqb_spec (DailyTasks.date daily_tasks) "");
        [contradiction|reflexivity]. }
    assert (Hd : DailyTasks.fromisoformat_ok rt (DailyTasks.date daily_tasks)
                 = true).
    { unfold DailyTasks.is_valid in Hv. apply andb_prop in Hv as [Hv _].
      exact Hv. }
    unfold out, ImprovedTaskSync.push_tasks_from_file. rewrite Hdate.
    assert (Hl : _load_local_copy rt (disk saved) (DailyTasks.date daily_tasks)
                 = Some daily_tasks).
    { unfold saved, _load_local_copy, _save_local_copy. cbn [disk].
      rewrite lookup_insert_eq, (DailyTasks_validate_dump rt _ Hv).
      reflexivity. }
    rewrite Hl.
    assert (Hd' : DailyTasks.fromisoformat_ok rt
                    (date_or_today rt (Some (DailyTasks.date daily_tasks)))
                  = true) by (rewrite Hdate; exact Hd).
    destruct (push_tasks_smart_no_fault rt io (DailyTasks.tasks daily_tasks)
                (Some (DailyTasks.date daily_tasks)) saved Hd')
      as (Hw & Hs & _).
    rewrite Hw, Hs, Hdate. cbn [remote saved]. split; reflexivity.
  - intros Hl out. unfold out, ImprovedTaskSync.push_tasks_from_file.
    rewrite Hl. repeat split; reflexivity.
Qed.

Lemma push_tasks_from_file_pushes_saved_witness :
  ImprovedTaskSync.success
    (snd (ImprovedTaskSync.push_tasks_from_file Sample.rt Disk.Written None None
            (Some "2025-01-29") Sample.cached_world)) = true
  /\ ImprovedTaskSync.error_type
       (snd (ImprovedTaskSync.push_tasks_from_file Sample.rt Disk.Written None
               None (Some "2025-01-30") Sample.cached_world))
     = Some "file_not_found".
Proof.
  destruct (push_tasks_from_file_pushes_saved Sample.rt Disk.Written
              Sample.scenario None None (Some "2025-01-30")
              Sample.empty_world) as [H1 _].
  destruct (push_tasks_from_file_pushes_saved Sample.rt Disk.Written
              Sample.scenario None None (Some "2025-01-30")
              Sample.cached_world) as [_ H2].
  split.
  - apply H1; [reflexivity|discriminate].
  - apply H2. reflexivity.
Defined.

(** X21. With a loadable local copy of the date, [pull_tasks] of the
    improved synchroniser never reports a failure and never changes the
    remote table; and whenever the cache is asked for, the remote store
    raises or has no record of the date, it returns the local copy and
    leaves the files alone. *)
Theorem improved_pull_succeeds_with_local_copy
    (rt : DailyTasks.runtime) (io : Disk.write) (fault : option string)
    (target_date : option string) (use_cache : bool) (w : world)
    (local_data : DailyTasks.t) :
  _load_local_copy rt (disk w) (date_or_today rt target_date) = Some local_data ->
  let out := ImprovedTaskSync.pull_tasks rt io fault target_date use_cache w in
  ImprovedTaskSync.success (snd out) = true
  /\ is_Some (ImprovedTaskSync.data (snd out))
  /\ ImprovedTaskSync.error (snd out) = None
  /\ remote (fst out) = remote w
  /\ (use_cache = true \/ is_Some fault
      \/ remote w !! date_or_today rt target_date = None ->
      fst out = w
      /\ ImprovedTaskSync.data (snd out)
         = Some (DailyTasks.model_dump local_data)).
Proof.
  intros Hl out. unfold out, ImprovedTaskSync.pull_tasks,
    ImprovedTaskSync.pull_tasks_on, ImprovedTaskSync.pull_failed.
  rewrite Hl.
  destruct use_cache.
  { cbn [fst snd ImprovedTaskSync.success ImprovedTaskSync.data
         ImprovedTaskSync.error ImprovedTaskSync.loaded_from_cache].
    repeat split; eauto. }
  destruct fault as [m|]; cbn [Remote.select].
  { cbn [fst snd ImprovedTaskSync.success ImprovedTaskSync.data
         ImprovedTaskSync.error ImprovedTaskSync.loaded_from_cache].
    repeat split; eauto. }
  destruct (remote w !! date_or_today rt target_date) as [r|] eqn:Er.
  - destruct (DailyTasks.validate rt r) as [daily_tasks|loc];
      cbn [fst snd ImprovedTaskSync.success ImprovedTaskSync.data
           ImprovedTaskSync.error ImprovedTaskSync.loaded_from_cache remote].
    + do 4 (split; [eauto|]).
      intros [H1|[[x H2]|H3]]; discriminate.
    + repeat split; eauto.
  - cbn [fst snd ImprovedTaskSync.success ImprovedTaskSync.data
         ImprovedTaskSync.error ImprovedTaskSync.loaded_from_cache].
    repeat split; eauto.
Qed.

Lemma improved_pull_succeeds_with_local_copy_witness :
  ImprovedTaskSync.data
    (snd (ImprovedTaskSync.pull_tasks Sample.rt Disk.Written
            (Some "connection refused") (Some "2025-01-29") false
            Sample.cached_world))
  = Some (DailyTasks.model_dump Sample.scenario).
Proof.
  destruct (improved_pull_succeeds_with_local_copy Sample.rt Disk.Written
              (Some "connection refused") (Some "2025-01-29") false
              Sample.cached_world Sample.scenario) as (_ & _ & _ & _ & H).
  - reflexivity.
  - apply H. right. left. eexists. reflexivity.
Defined.

(** X22. What [push_tasks_smart] stores, the improved [pull_tasks]
    returns: with a date the runtime accepts, tasks that satisfy the data
    model and a remote store that answers, a push followed by a pull that
    bypasses the cache succeeds with the pushed tasks and the summary
    computed from them. *)
Theorem improved_push_then_pull_round_trip
    (rt : DailyTasks.runtime) (io io' : Disk.write) (tasks : list Task.t)
    (target_date : option string) (w : world) :
  let date := date_or_today rt target_date in
  DailyTasks.fromisoformat_ok rt date = true ->
  forallb Task.is_valid tasks = true ->
  let pushed :=
    ImprovedTaskSync.push_tasks_smart rt io None None tasks target_date w in
  let pulled :=
    ImprovedTaskSync.pull_tasks rt io' None target_date false (fst pushed) in
  ImprovedTaskSync.success (snd pushed) = true
  /\ ImprovedTaskSync.success (snd pulled) = true
  /\ ImprovedTaskSync.data (snd pulled)
     = Some (DailyTasks.model_dump
               (DailyTasks.Build_t date tasks (DaySummary.from_tasks tasks)))
  /\ ImprovedTaskSync.data (snd pulled) = ImprovedTaskSync.data (snd pushed)
  /\ remote (fst pulled) = remote (fst pushed).
Proof.
  intros date Hd Hv pushed pulled.
  destruct (push_tasks_smart_no_fault rt io tasks target_date w Hd)
    as (Hw & Hs & Hdata).
  fold date in Hw, Hdata. fold pushed in Hw, Hs, Hdata.
  unfold pulled. rewrite Hw, Hs, Hdata.
  unfold ImprovedTaskSync.pull_tasks, ImprovedTaskSync.pull_tasks_on.
  fold date. cbn [remote disk Remote.select]. rewrite lookup_insert_eq.
  assert (Hvd : DailyTasks.is_valid rt
                  (DailyTasks.Build_t date tasks (DaySummary.from_tasks tasks))
                = true).
  { unfold DailyTasks.is_valid. cbn [DailyTasks.date DailyTasks.tasks].
    rewrite Hd, Hv. reflexivity. }
  rewrite (DailyTasks_validate_dump rt _ Hvd).
  cbn [fst snd ImprovedTaskSync.success ImprovedTaskSync.data remote].
  repeat split; reflexivity.
Qed.

Lemma improved_push_then_pull_round_trip_witness :
  ImprovedTaskSync.data
    (snd (ImprovedTaskSync.pull_tasks Sample.rt Disk.Written None
            (Some "2025-01-29") false
            (fst (ImprovedTaskSync.push_tasks_smart Sample.rt Disk.OpenFails
                    None None (DailyTasks.tasks Sample.scenario)
                    (Some "2025-01-29") Sample.empty_world))))
  = Some (DailyTasks.model_dump Sample.scenario).
Proof.
  destruct (improved_push_then_pull_round_trip Sample.rt Disk.OpenFails
              Disk.Written (DailyTasks.tasks Sample.scenario)
              (Some "2025-01-29") Sample.empty_world) as (_ & _ & H & _).
  - reflexivity.
  - reflexivity.
  - exact H.
Defined.

(** ** Updating a task: which task is touched *)

Section UpdateFirstProperties.

Context {V : Type}.
Variable hasattr : string -> bool.
Variable setattr : Task.t -> string -> V -> Remote.reply Task.t.

Lemma update_first_missing now task_id (updates : list (string * V)) tasks :
  ~ In task_id (map Task.id tasks) ->
  TaskSync.update_first hasattr setattr now task_id updates tasks
  = Remote.Returns None.
Proof.
  induction tasks as [|a l IH]; intros Hn; [reflexivity|].
  cbn [TaskSync.update_first]. cbn [map In] in Hn.
  destruct (String.eqb_spec (Task.id a) task_id) as [E|E];
    [exfalso; apply Hn; left; exact E|].
  rewrite IH by (intros H; apply Hn; right; exact H). reflexivity.
Qed.

(** X23. The three outcomes of the update loop. It reports "not found"
    exactly when no task has the id. Otherwise only the first task with the
    id is looked at, also when later tasks share the id: either an
    assignment to it raises and no list is produced, or that one task is
    replaced by its updated version with a new [updated_at], every other
    task staying in place. *)
Theorem update_first_outcomes
    (now task_id : string) (updates : list (string * V)) (tasks : list Task.t) :
  match TaskSync.update_first hasattr setattr now task_id updates tasks with
  | Remote.Returns None => ~ In task_id (map Task.id tasks)
  | Remote.Returns (Some tasks') =>
      exists l1 task l2 task',
        tasks = (l1 ++ task :: l2)%list
        /\ Task.id task = task_id
        /\ ~ In task_id (map Task.id l1)
        /\ TaskSync.apply_updates hasattr setattr task updates
           = Remote.Returns task'
        /\ tasks' = (l1 ++ Task.with_updated_at now task' :: l2)%list
  | Remote.Raises msg =>
      exists l1 task l2,
        tasks = (l1 ++ task :: l2)%list
        /\ Task.id task = task_id
        /\ ~ In task_id (map Task.id l1)
        /\ TaskSync.apply_updates hasattr setattr task updates
           = Remote.Raises msg
  end.
Proof.
  induction tasks as [|a l IH]; cbn [TaskSync.update_first].
  - intros [].
  - destruct (String.eqb_spec (Task.id a) task_id) as [E|E].
    + destruct (TaskSync.apply_updates hasattr setattr a updates)
        as [msg|a'] eqn:Ea.
      * exists [], a, l. repeat split; auto.
      * exists [], a, l, a'. repeat split; auto.
    + destruct (TaskSync.update_first hasattr setattr now task_id updates l)
        as [msg|[l'|]].
      * destruct IH as (l1 & t & l2 & -> & Hid & Hn & Ha).
        exists (a :: l1), t, l2. repeat split; auto.
        cbn [map In]. intros [H|H]; [exact (E H)|exact (Hn H)].
      * destruct IH as (l1 & t & l2 & t' & -> & Hid & Hn & Ha & ->).
        exists (a :: l1), t, l2, t'. repeat split; auto.
        cbn [map In]. intros [H|H]; [exact (E H)|exact (Hn H)].
      * cbn [map In]. intros [H|H]; [exact (E H)|exact (IH H)].
Qed.

(** X24. [update_task] on an id that no task of the pulled set has: the
    result is the failure "Task not found", nothing is pushed, and the
    local directory and the remote table are as the pull left them. *)
Theorem update_task_not_found
    (rt : DailyTasks.runtime) (io_pull io_push : Disk.write)
    (fault_pull fault_push : option string) (now task_id : string)
    (updates : list (string * V)) (target_date : option string)
    (w w1 : world) (result : TaskSync.SyncResult) (pulled : DailyTasks.t) :
  TaskSync.pull_tasks rt io_pull fault_pull
    (Some (date_or_today rt target_date)) true w = (w1, result) ->
  TaskSync.success result = true ->
  TaskSync.data result = Some (DailyTasks.model_dump pulled) ->
  DailyTasks.is_valid rt pulled = true ->
  ~ In task_id (DailyTasks.ids pulled) ->
  TaskSync.update_task hasattr setattr rt io_pull io_push fault_pull fault_push
    now task_id updates target_date w
  = (w1,
     {| TaskSync.success := false;
        TaskSync.message := "Task " ++ task_id ++ " not found in "
                            ++ date_or_today rt target_date;
        TaskSync.data := None;
        TaskSync.error := Some "Task not found" |}).
Proof.
  intros Hpull Hs Hdata Hv Hn. unfold TaskSync.update_task.
  rewrite Hpull, Hs, Hdata. cbn [negb].
  rewrite (DailyTasks_validate_dump rt pulled Hv).
  rewrite (update_first_missing now task_id updates _ Hn). reflexivity.
Qed.

End UpdateFirstProperties.

Lemma update_task_not_found_witness :
  TaskSync.update_task Sample.hasattr Sample.setattr Sample.rt Disk.Written
    Disk.Written None None "2025-01-29T11:00:00" "t7" [("progress", 50)]
    (Some "2025-01-29") Sample.cached_world
  = (Sample.cached_world,
     {| TaskSync.success := false;
        TaskSync.message := "Task t7 not found in 2025-01-29";
        TaskSync.data := None;
        TaskSync.error := Some "Task not found" |}).
Proof.
  apply (update_task_not_found Sample.hasattr Sample.setattr Sample.rt
           Disk.Written Disk.Written None None "2025-01-29T11:00:00" "t7"
           [("progress", 50)] (Some "2025-01-29") Sample.cached_world
           Sample.cached_world
           (TaskSync.loaded_from_cache " for 2025-01-29" Sample.scenario)
           Sample.scenario).
  - reflexivity.
  - reflexivity.
  - reflexivity.
  - reflexivity.
  - cbv. intuition discriminate.
Defined.

(** ** Subscriptions *)






(** X26. A pull from the remote store fills the cache: when the remote
    record of the date holds a valid set and the file is written, the pull
    returns that set, and a later pull with [use_cache=True] returns the same
    data from the file, whatever the remote store does by then. *)
Theorem pull_populates_cache
    (rt : DailyTasks.runtime) (io : Disk.write) (fault : option string)
    (target_date : option string) (w : world) (daily_tasks : DailyTasks.t) :
  let date := date_or_today rt target_date in
  remote w !! date = Some (DailyTasks.model_dump daily_tasks) ->
  DailyTasks.is_valid rt daily_tasks = true ->
  DailyTasks.date daily_tasks = date ->
  let pulled := TaskSync.pull_tasks rt Disk.Written None target_date false w in
  let again := TaskSync.pull_tasks rt io fault target_date true (fst pulled) in
  TaskSync.success (snd pulled) = true
  /\ TaskSync.data (snd pulled) = Some (DailyTasks.model_dump daily_tasks)
  /\ remote (fst pulled) = remote w
  /\ TaskSync.success (snd again) = true
  /\ TaskSync.data (snd again) = TaskSync.data (snd pulled)
  /\ fst again = fst pulled.
Proof.
  intros date Hr Hv Hdate pulled again. subst date.
  set (date := date_or_today rt target_date) in *.
  assert (Hparse : TaskSync.parse_row rt (DailyTasks.model_dump daily_tasks)
                   = Remote.Returns daily_tasks).
  { pose proof Hv as Hv'. unfold DailyTasks.is_valid in Hv'.
    apply andb_prop in Hv' as [Hd Ht].
    destruct daily_tasks as [dd tasks summary]. unfold TaskSync.parse_row.
    cbn [DailyTasks.model_dump DailyTasks.d_date DailyTasks.d_tasks
         DailyTasks.d_summary DailyTasks.date DailyTasks.tasks] in *.
    rewrite (validate_list_dump _ Task.model_dump Task.is_valid
               (fun i b => Task_validate_dump _ b) tasks 0%nat Ht).
    unfold DailyTasks.validate_date_format. rewrite Hd. reflexivity. }
  assert (Hp : pulled
               = (Build_world
                    (_save_local_copy Disk.Written daily_tasks (disk w))
                    (remote w),
                  {| TaskSync.success := true;
                     TaskSync.message :=
                       "Pulled " ++ str_int (len (DailyTasks.tasks daily_tasks))
                       ++ " tasks for " ++ date;
                     TaskSync.data := Some (DailyTasks.model_dump daily_tasks);
                     TaskSync.error := None |})).
  { unfold pulled, TaskSync.pull_tasks, TaskSync.pull_tasks_on. fold date.
    unfold Remote.single.
    destruct (remote w !! date) as [r|]; [|discriminate Hr].
    injection Hr as ->. rewrite Hparse. reflexivity. }
  assert (Hl : _load_local_copy rt (disk (fst pulled)) date = Some daily_tasks).
  { rewrite Hp. cbn [fst disk]. unfold _load_local_copy, _save_local_copy.
    rewrite Hdate, lookup_insert_eq, (DailyTasks_validate_dump rt _ Hv).
    reflexivity. }
  assert (Ha : again
               = (fst pulled,
                  TaskSync.loaded_from_cache (" for " ++ date) daily_tasks)).
  { unfold again, TaskSync.pull_tasks, TaskSync.pull_tasks_on. fold date.
    rewrite Hl. reflexivity. }
  rewrite Ha, Hp. cbn [fst snd TaskSync.success TaskSync.data remote
    TaskSync.loaded_from_cache]. repeat split; reflexivity.
Qed.

Lemma pull_populates_cache_witness :
  let w := Build_world ∅ {[ "2025-01-29" := DailyTasks.model_dump Sample.scenario ]} in
  let pulled :=
    TaskSync.pull_tasks Sample.rt Disk.Written None (Some "2025-01-29") false w in
  TaskSync.data
    (snd (TaskSync.pull_tasks Sample.rt Disk.Written (Some "connection refused")
            (Some "2025-01-29") true (fst pulled)))
  = TaskSync.data (snd pulled).
Proof.
  intros w pulled.
  destruct (pull_populates_cache Sample.rt Disk.Written
              (Some "connection refused") (Some "2025-01-29") w Sample.scenario)
    as (_ & _ & _ & _ & H & _).
  - reflexivity.
  - reflexivity.
  - reflexivity.
  - exact H.
Defined.

(** ** What the constructor guarantees *)

Lemma assemble_Ok_completed_at g d r1 r2 r3 r4 r5 r6 r7 r8 r9 r10 c x :
  Task.assemble g d r1 r2 r3 r4 r5 r6 r7 r8 r9 r10 c = Ok x ->
  Task.completed_at x = c.
Proof.
  unfold Task.assemble.
  destruct r1; [|discriminate]. destruct r2; [|discriminate].
  destruct r3; [|discriminate]. destruct r4; [|discriminate].
  destruct r5; [|discriminate]. destruct r6; [|discriminate].
  destruct r7; [|discriminate]. destruct r8; [|discriminate].
  destruct r9; [|discriminate]. destruct r10; [|discriminate].
  intros H. injection H as <-. reflexivity.
Qed.

Lemma Subtasks_validate_valid (f : nat -> string) (l : list Subtask.data) :
  forall i l',
  validate_list (fun i => Subtask.validate (f i)) i l = Some l' ->
  forallb Subtask.is_valid l' = true.
Proof.
  induction l as [|a l IH]; intros i l' H; cbn [validate_list] in H.
  - injection H as <-. reflexivity.
  - destruct (Subtask.validate (f i) a) as [b|loc] eqn:E; [|discriminate].
    destruct (validate_list _ (S i) l) as [bs|] eqn:E'; [|discriminate].
    injection H as <-. cbn [forallb]. rewrite (IH _ _ E'), andb_true_r.
    unfold Subtask.validate in E.
    destruct (Subtask.d_title a) as [t|]; [|discriminate].
    change (Some t ≫= check_length 1 200) with (check_length 1 200 t) in E.
    unfold check_length in E.
    destruct ((1 <=? str_len t)%nat && (str_len t <=? 200)%nat)%bool
      eqn:Et; [|discriminate].
    injection E as <-. exact Et.
Qed.

(** X27. Every task the constructor returns has its fields in range.
    The two validators, however, run only on supplied values: a task built
    without [progress] has progress 0 and one built without [completed_at]
    has none, whatever its status. So a task constructed as completed with
    no progress given does not satisfy the invariants of the data model. *)
Theorem constructor_establishes_ranges
    (g : Task.generated) (d : Task.data) (x : Task.t) :
  Task.validate g d = Ok x ->
  Task.in_range x = true
  /\ (Task.d_progress d = None -> Task.progress x = 0)
  /\ (Task.d_completed_at d = None -> Task.completed_at x = None)
  /\ (Task.status x = COMPLETED ->
      Task.d_progress d = None \/ Task.d_completed_at d = None ->
      Task.is_valid x = false).
Proof.
  intros H.
  assert (Hc : Task.d_completed_at d = None -> Task.completed_at x = None).
  { intros Hn. unfold Task.validate in H.
    apply assemble_Ok_completed_at in H. rewrite Hn in H. exact H. }
  unfold Task.validate in H.
  match type of H with
  | Task.assemble ?g ?d ?r1 ?r2 ?r3 ?r4 ?r5 ?r6 ?r7 ?r8 ?r9 ?r10 ?c = _ =>
      pose proof (assemble_spec g d r1 r2 r3 r4 r5 r6 r7 r8 r9 r10 c) as Hs;
      rewrite H in Hs;
      destruct Hs as (H1 & H2 & _ & _ & H5 & _ & H7 & H8 & _ & H10)
  end.
  clear H.
  assert (Hp : Task.d_progress d = None -> Task.progress x = 0).
  { intros Hn. rewrite Hn in H5. injection H5 as <-. reflexivity. }
  assert (Hr : Task.in_range x = true).
  { unfold Task.in_range.
    assert (Ht : ((1 <=? str_len (Task.title x))%nat
                  && (str_len (Task.title x) <=? 200)%nat)%bool = true).
    { destruct (Task.d_title d) as [t|]; [|discriminate H1].
      change (Some t ≫= check_length 1 200) with (check_length 1 200 t) in H1.
      unfold check_length in H1.
      destruct ((1 <=? str_len t)%nat && (str_len t <=? 200)%nat)%bool
        eqn:Et; [|discriminate H1].
      injection H1 as <-. exact Et. }
    assert (Hde : (str_len (Task.description x) <=? 1000)%nat = true).
    { destruct (Task.d_description d) as [t|].
      - unfold check_length in H2. cbn [Nat.leb andb] in H2.
        destruct (str_len t <=? 1000)%nat eqn:Et; [|discriminate H2].
        injection H2 as <-. exact Et.
      - injection H2 as <-. reflexivity. }
    assert (Hpg : (0 <=? Task.progress x) && (Task.progress x <=? 100) = true).
    { destruct (Task.d_progress d) as [v|].
      - unfold check_range in H5.
        destruct ((0 <=? v) && (v <=? 100)) eqn:Ev; [|discriminate H5].
        cbn [option_map] in H5. injection H5 as <-.
        unfold Task.validate_progress.
        destruct (bool_decide _ && negb _); [reflexivity|].
        destruct (bool_decide _ && (0 <? v)); [reflexivity|exact Ev].
      - injection H5 as <-. reflexivity. }
    assert (Hes : (5 <=? Task.estimated_minutes x)
                  && (Task.estimated_minutes x <=? 480) = true).
    { destruct (Task.d_estimated_minutes d) as [v|].
      - unfold check_range in H7.
        destruct ((5 <=? v) && (v <=? 480)) eqn:Ev; [|discriminate H7].
        injection H7 as <-. exact Ev.
      - injection H7 as <-. reflexivity. }
    assert (Hac : (0 <=? Task.actual_minutes x) = true).
    { destruct (Task.d_actual_minutes d) as [v|].
      - unfold check_ge in H8.
        destruct (0 <=? v) eqn:Ev; [|discriminate H8].
        injection H8 as <-. exact Ev.
      - injection H8 as <-. reflexivity. }
    assert (Hsu : forallb Subtask.is_valid (Task.subtasks x) = true).
    { destruct (Task.d_subtasks d) as [l|].
      - exact (Subtasks_validate_valid _ _ _ _ H10).
      - injection H10 as <-. reflexivity. }
    apply andb_prop in Hpg as [Hp0 Hp1]. apply andb_prop in Hes as [He0 He1].
    rewrite Ht, Hde, Hp0, Hp1, He0, He1, Hac, Hsu. reflexivity. }
  split; [exact Hr|]. split; [exact Hp|]. split; [exact Hc|].
  intros Hst [Hn|Hn]; unfold Task.is_valid.
  - rewrite (Hp Hn), Hst.
    rewrite (bool_decide_eq_true_2 (COMPLETED = COMPLETED) eq_refl).
    cbn [Z.eqb]. rewrite !andb_false_r. reflexivity.
  - rewrite (Hc Hn), Hst.
    rewrite (bool_decide_eq_true_2 (COMPLETED = COMPLETED) eq_refl).
    cbn [Task.falsy negb]. rewrite !andb_false_r. reflexivity.
Qed.

Lemma constructor_establishes_ranges_witness :
  exists x,
    Task.validate (DailyTasks.generated Sample.rt 0)
      (Sample.draft "Write report" (Some "completed") None) = Ok x
    /\ Task.status x = COMPLETED
    /\ Task.progress x = 0
    /\ Task.in_range x = true
    /\ Task.is_valid x = false.
Proof.
  eexists. split; [reflexivity|].
  split; [reflexivity|].
  destruct (constructor_establishes_ranges (DailyTasks.generated Sample.rt 0)
              (Sample.draft "Write report" (Some "completed") None) _ eq_refl)
    as (Hr & Hp & _ & Hv).
  split; [apply Hp; reflexivity|]. split; [exact Hr|].
  apply Hv; [reflexivity|left; reflexivity].
Defined.

(** ** The percentage at its two ends *)

Lemma div_self m e :
  Zdigits2 (Z.pos m) = 53 ->
  SFdiv 53 1024 (S754_finite false m e) (S754_finite false m e)
  = S754_finite false (2 ^ 52) (-52).
Proof.
  intros Hd. cbn [SFdiv xorb]. unfold SFdiv_core_binary. rewrite Hd.
  replace (53 + e - (53 + e)) with 0 by lia.
  replace (e - e) with 0 by lia.
  change (Z.min (Float64.fexp64 0) 0) with (-53).
  change (0 - -53) with 53.
  cbn match.
  rewrite Z.shiftl_mul_pow2 by lia.
  assert (Hq : fst (Z.div_eucl (Z.pos m * 2 ^ 53) (Z.pos m)) = 2 ^ 53).
  { change (fst (Z.div_eucl ?a ?b)) with (a / b).
    rewrite Z.mul_comm. apply Z.div_mul. lia. }
  assert (Hr : snd (Z.div_eucl (Z.pos m * 2 ^ 53) (Z.pos m)) = 0).
  { change (snd (Z.div_eucl ?a ?b)) with (a mod b).
    rewrite Z.mul_comm. apply Z.mod_mul. lia. }
  destruct (Z.div_eucl (Z.pos m * 2 ^ 53) (Z.pos m)) as [q r].
  cbn [fst snd] in Hq, Hr. subst q r.
  assert (Hloc : new_location (Z.pos m) 0 = loc_Exact).
  { unfold new_location. destruct (Z.even (Z.pos m)); reflexivity. }
  rewrite Hloc. vm_compute. reflexivity.
Qed.

(** X28. At its two ends the percentage of the summary is exact, for any
    non-empty list of fewer than [2^53] tasks: it is [0.0] when no task is
    completed and [100.0] when every task is. *)
Theorem from_tasks_percentage_ends (tasks : list Task.t) :
  tasks <> [] ->
  len tasks < 2 ^ 53 ->
  (DaySummary.by_status COMPLETED tasks = [] ->
   DaySummary.completion_percentage (DaySummary.from_tasks tasks)
   = Float64.zero)
  /\ (DaySummary.by_status COMPLETED tasks = tasks ->
      DaySummary.completion_percentage (DaySummary.from_tasks tasks)
      = Float64.of_Z 100).
Proof.
  intros Hne Hlen.
  assert (Hpos : exists p, len tasks = Z.pos p).
  { destruct tasks as [|x l]; [contradiction|].
    unfold len. simpl length. rewrite Nat2Z.inj_succ.
    destruct (Z.succ (Z.of_nat (length l))) eqn:E; try lia. eauto. }
  destruct Hpos as [p Hp].
  destruct (of_Z_pos p) as (m & e & Hm & Hd & He); [rewrite <- Hp; exact Hlen|].
  rewrite from_tasks_completion_percentage.
  destruct tasks as [|x l] eqn:Et; [contradiction|]. rewrite <- Et in *.
  split; intros Hc; rewrite Hc.
  - unfold Float64.int_truediv, Float64.div. rewrite Hp, Hm. reflexivity.
  - unfold Float64.int_truediv, Float64.div. rewrite Hp, Hm.
    unfold Float64.prec, Float64.emax. rewrite (div_self m e Hd).
    vm_compute. reflexivity.
Qed.

Lemma from_tasks_percentage_ends_witness :
  DaySummary.completion_percentage
    (DaySummary.from_tasks (DailyTasks.tasks Sample.scenario))
  = Float64.zero
  /\ DaySummary.completion_percentage (DaySummary.from_tasks (Sample.day 3 0))
     = Float64.of_Z 100.
Proof.
  destruct (from_tasks_percentage_ends (DailyTasks.tasks Sample.scenario))
    as [H0 _]; [discriminate|reflexivity|].
  destruct (from_tasks_percentage_ends (Sample.day 3 0))
    as [_ H1]; [discriminate|reflexivity|].
  split; [apply H0; reflexivity|apply H1; reflexivity].
Defined.
